(** * specutils: spectral WCS transforms and the Spectrum1D container

    A shallow embedding of [specutils/wcs/specwcs.py] and
    [specutils/spectra/spectrum1d.py].

    Conventions of the embedding:
    - Python floats are exact rationals ([Q], compared with [==]); the one
      non-finite value the code produces on purpose, [np.nan], is the
      constructor [NaN] of [fnum].
    - A raised exception is the [Raise] branch of [result]; an exception
      carries its Python class and the message of the raise site.
    - astropy's units are external: a unit is a scale and the exponents of
      its irreducible bases, and [is_equivalent] compares the exponents.
      Where the code mixes a Quantity with a bare number, the rule is
      astropy's: the quantity has to be dimensionless, unless the bare
      number is zero. *)

From Stdlib Require Import QArith ZArith List String Bool Lia Lqa DecimalString.
From Stdlib Require Import SetoidList Sorted.
From stdpp Require Import base option list strings gmap.

Local Open Scope string_scope.

(** ** Exceptions and results *)

Inductive exn_class :=
| ValueError | TypeError | KeyError | IndexError | AttributeError
| AssertionError | NotImplementedError | ZeroDivisionError
| UnitsError            (* u.UnitsException, later renamed u.UnitsError *)
| UnitConversionError
| Spectrum1DWCSError | Spectrum1DWCSFITSError | Spectrum1DWCSUnitError.

Record exn := Exn { exn_cls : exn_class; exn_msg : string }.

(** [class C(B)]: the direct base of an exception class (None: Exception). *)
Definition exn_base (c : exn_class) : option exn_class :=
  match c with
  | UnitsError => Some ValueError
  | UnitConversionError => Some UnitsError
  | Spectrum1DWCSFITSError => Some Spectrum1DWCSError
  | Spectrum1DWCSUnitError => Some Spectrum1DWCSError
  | _ => None
  end.

Definition exn_class_eqb (a b : exn_class) : bool :=
  match a, b with
  | ValueError, ValueError | TypeError, TypeError | KeyError, KeyError
  | IndexError, IndexError | AttributeError, AttributeError
  | AssertionError, AssertionError | NotImplementedError, NotImplementedError
  | ZeroDivisionError, ZeroDivisionError | UnitsError, UnitsError
  | UnitConversionError, UnitConversionError
  | Spectrum1DWCSError, Spectrum1DWCSError
  | Spectrum1DWCSFITSError, Spectrum1DWCSFITSError
  | Spectrum1DWCSUnitError, Spectrum1DWCSUnitError => true
  | _, _ => false
  end.

(** [issubclass c b], following the chain of bases (at most two steps). *)
Definition issubclass (c b : exn_class) : bool :=
  exn_class_eqb c b ||
  match exn_base c with
  | Some c1 =>
      exn_class_eqb c1 b ||
      match exn_base c1 with
      | Some c2 => exn_class_eqb c2 b
      | None => false
      end
  | None => false
  end.

Inductive result (A : Type) :=
| OK (a : A)
| Raise (e : exn).
Arguments OK {A} a.
Arguments Raise {A} e.

Global Instance result_ret : MRet result := fun _ a => OK a.
Global Instance result_bind : MBind result := fun _ _ k r =>
  match r with
  | OK a => k a
  | Raise e => Raise e
  end.

(** [try: r except classes: handler]. *)
Definition try_except {A} (r : result A) (classes : list exn_class)
    (handler : result A) : result A :=
  match r with
  | OK a => OK a
  | Raise e =>
      if existsb (issubclass (exn_cls e)) classes then handler else Raise e
  end.

Definition is_OK {A} (r : result A) : bool :=
  match r with OK _ => true | Raise _ => false end.

(** ** Numbers *)

(** A numpy float: a finite value or [np.nan]. *)
Inductive fnum :=
| Fin (q : Q)
| NaN.

Definition Qlt_bool (x y : Q) : bool := negb (Qle_bool y x).

(** ** Units (astropy.units, external) *)

Record Unit := mkUnit {
  scale : Q;
  dim_m : Z; dim_s : Z; dim_kg : Z; dim_K : Z; dim_pix : Z
}.

Definition dimensionless_unscaled : Unit := mkUnit 1 0 0 0 0 0.

Module u.
Definition pix : Unit := mkUnit 1 0 0 0 0 1.
Definition m : Unit := mkUnit 1 1 0 0 0 0.
Definition km : Unit := mkUnit 1000 1 0 0 0 0.
Definition nm : Unit := mkUnit (1 # 1000000000) 1 0 0 0 0.
Definition AA : Unit := mkUnit (1 # 10000000000) 1 0 0 0 0.
Definition s : Unit := mkUnit 1 0 1 0 0 0.
Definition Hz : Unit := mkUnit 1 0 (-1) 0 0 0.
Definition GHz : Unit := mkUnit 1000000000 0 (-1) 0 0 0.
Definition kg : Unit := mkUnit 1 0 0 1 0 0.
Definition K : Unit := mkUnit 1 0 0 0 1 0.
Definition J : Unit := mkUnit 1 2 (-2) 1 0 0.
Definition erg : Unit := mkUnit (1 # 10000000) 2 (-2) 1 0 0.
Definition m_per_s : Unit := mkUnit 1 1 (-1) 0 0 0.
Definition km_per_s : Unit := mkUnit 1000 1 (-1) 0 0 0.   (* u.km/u.s *)
Definition Jy : Unit := mkUnit (1 # 100000000000000000000000000) 0 (-2) 1 0 0.
End u.

(** [a * b] and [a / b] on units. *)
Definition Unit_mul (a b : Unit) : Unit :=
  mkUnit (scale a * scale b)
         (dim_m a + dim_m b) (dim_s a + dim_s b) (dim_kg a + dim_kg b)
         (dim_K a + dim_K b) (dim_pix a + dim_pix b).

Definition Unit_div (a b : Unit) : Unit :=
  mkUnit (scale a / scale b)
         (dim_m a - dim_m b) (dim_s a - dim_s b) (dim_kg a - dim_kg b)
         (dim_K a - dim_K b) (dim_pix a - dim_pix b).

(** [a.is_equivalent(b)] without extra equivalencies: same physical
    dimension, whatever the scales. *)
Definition is_equivalent (a b : Unit) : bool :=
  (dim_m a =? dim_m b)%Z && (dim_s a =? dim_s b)%Z &&
  (dim_kg a =? dim_kg b)%Z && (dim_K a =? dim_K b)%Z &&
  (dim_pix a =? dim_pix b)%Z.

(** The unit names [u.Unit] parses in this development (an excerpt of
    astropy's registry). *)
Definition unit_registry : gmap string Unit :=
  list_to_map
    [ (EmptyString, dimensionless_unscaled); ("pix", u.pix); ("m", u.m); ("km", u.km);
      ("nm", u.nm); ("Angstrom", u.AA); ("AA", u.AA); ("s", u.s);
      ("Hz", u.Hz); ("GHz", u.GHz); ("kg", u.kg); ("K", u.K); ("J", u.J);
      ("erg", u.erg); ("m/s", u.m_per_s); ("km/s", u.km_per_s) ].

(** What can be handed to [u.Unit(...)]. *)
Inductive unit_arg :=
| UnitObj (x : Unit)
| UnitStr (name : string)
| UnitNum (q : Q).

(** [u.Unit(x)]: [None] is a TypeError, an unknown name a ValueError, a
    number a scaled dimensionless unit. *)
Definition Unit_new (x : option unit_arg) : result Unit :=
  match x with
  | None => Raise (Exn TypeError "None is not a valid Unit")
  | Some (UnitObj x) => OK x
  | Some (UnitStr name) =>
      match unit_registry !! name with
      | Some x => OK x
      | None => Raise (Exn ValueError "did not parse as unit")
      end
  | Some (UnitNum q) =>
      OK (mkUnit q 0 0 0 0 0)
  end.

(** A [u.Quantity]: a value and its unit. *)
Record Quantity (A : Type) := mkQuantity { value : A; unit : Unit }.
Arguments mkQuantity {A} value unit.
Arguments value {A} _.
Arguments unit {A} _.

(** A Python number or a scalar Quantity, as a constructor argument. *)
Inductive scalar_arg :=
| Bare (v : Q)
| Qty (q : Quantity Q).

(** [u.Quantity(x, unit)] on a scalar: tags a bare number, converts a
    quantity between equivalent units. *)
Definition Quantity_new (x : scalar_arg) (unit_ : option Unit)
    : result (Quantity Q) :=
  match x, unit_ with
  | Bare v, None => OK (mkQuantity v dimensionless_unscaled)
  | Bare v, Some un => OK (mkQuantity v un)
  | Qty q, None => OK q
  | Qty q, Some un =>
      if is_equivalent (unit q) un
      then OK (mkQuantity (value q * (scale (unit q) / scale un))%Q un)
      else Raise (Exn UnitConversionError "units are not convertible")
  end.

Definition is_dimensionless (un : Unit) : bool :=
  is_equivalent un dimensionless_unscaled.

(** A Python float that may have left the finite range: numpy divides by
    zero without raising, and the quotient is inf or nan. *)
Inductive pyfloat :=
| Float (q : Q)
| NonFinite.

Definition pyfloat_map (f : Q -> Q) (x : pyfloat) : pyfloat :=
  match x with
  | Float q => Float (f q)
  | NonFinite => NonFinite
  end.

(** [q - x] for a scalar Quantity and a bare number: the quantity is taken
    to the unscaled dimensionless unit, which only a dimensionless
    quantity allows, unless the number is zero and can have any unit. *)
Definition Quantity_sub_bare (q : Quantity Q) (x : Q) : result (Quantity Q) :=
  if is_dimensionless (unit q)
  then OK (mkQuantity (value q * scale (unit q) - x)%Q dimensionless_unscaled)
  else if Qeq_bool x 0 then OK q
  else Raise (Exn UnitConversionError
         "Can only apply 'subtract' function to dimensionless quantities when other argument is not a quantity (unless the latter is all zero/infinity/nan).").

(** [q / x] for a scalar Quantity and a bare number: the unit is kept. *)
Definition Quantity_div_bare (q : Quantity Q) (x : Q) : Quantity pyfloat :=
  mkQuantity (if Qeq_bool x 0 then NonFinite else Float (value q / x)%Q) (unit q).

(** [float(q)]: only a dimensionless scalar converts. *)
Definition Quantity_float (q : Quantity pyfloat) : result pyfloat :=
  if is_dimensionless (unit q)
  then OK (pyfloat_map (fun v => v * scale (unit q))%Q (value q))
  else Raise (Exn TypeError
         "only dimensionless scalar quantities can be converted to Python scalars").

(** ** specwcs.py *)

Definition valid_spectral_units : list Unit :=
  [u.pix; u.km_per_s; u.m; u.Hz; u.erg].

Definition check_valid_unit (unit_ : Unit) : result () :=
  if negb (existsb (fun x => is_equivalent unit_ x) valid_spectral_units)
  then Raise (Exn ValueError "Unit is not recognized as a valid spectral unit")
  else OK ().

(** *** numpy helpers used by the lookup transform *)

(** [np.arange(n)]. *)
Definition np_arange (n : nat) : list Q :=
  map (fun i => inject_Z (Z.of_nat i)) (seq 0 n).

(** [np.unique]: the sorted distinct values. *)
Fixpoint insert_unique (x : Q) (l : list Q) : list Q :=
  match l with
  | [] => [x]
  | y :: l' =>
      match (x ?= y)%Q with
      | Lt => x :: l
      | Eq => l
      | Gt => y :: insert_unique x l'
      end
  end.

Definition np_unique (l : list Q) : list Q := fold_right insert_unique [] l.

(** The interval search of [np.interp], for [xp[0] <= x <= xp[-1]]: the
    segment [j] with [xp[j] <= x < xp[j+1]] (the last point when [x] is the
    last sample), then the value on the chord; an exact hit returns the
    sample itself. *)
Fixpoint interp_search (x : Q) (xp fp : list Q) : fnum :=
  match xp, fp with
  | x0 :: xp', y0 :: fp' =>
      match xp', fp' with
      | x1 :: _, y1 :: _ =>
          if Qlt_bool x x1 then
            if Qeq_bool x0 x then Fin y0
            else Fin ((y1 - y0) / (x1 - x0) * (x - x0) + y0)%Q
          else interp_search x xp' fp'
      | _, _ => Fin y0
      end
  | _, _ => NaN
  end.

(** [np.interp(x, xp, fp, left=left, right=right)] at one point. numpy
    documents it for increasing [xp]. Empty or mismatched sample arrays
    are a ValueError. With a single sample numpy only compares:
    [x < xp[0]] gives [left], [x > xp[0]] gives [right], and anything
    else, a NaN included, gives [fp[0]]. With more samples a NaN input
    stays NaN, [x > xp[-1]] gives [right] and [x < xp[0]] gives [left]. *)
Definition np_interp (x : fnum) (xp fp : list Q) (left right : fnum)
    : result fnum :=
  match xp with
  | [] => Raise (Exn ValueError "array of sample points is empty")
  | x0 :: xp' =>
      if negb (length xp =? length fp)%nat
      then Raise (Exn ValueError "fp and xp are not of the same length")
      else
        match xp', fp with
        | [], y0 :: _ =>
            match x with
            | Fin xv =>
                if Qlt_bool xv x0 then OK left
                else if Qlt_bool x0 xv then OK right
                else OK (Fin y0)
            | NaN => OK (Fin y0)
            end
        | _, _ =>
            match x with
            | NaN => OK NaN
            | Fin xv =>
                if Qlt_bool (List.last xp x0) xv then OK right
                else if Qlt_bool xv x0 then OK left
                else OK (interp_search xv xp fp)
            end
        end
  end.

(** What [invert] of the lookup transform can be handed: a bare number,
    written as it is, or a scalar Quantity. *)
Inductive dispersion_arg :=
| DBare (x : fnum)
| DQty (q : Quantity fnum).

Coercion DBare : fnum >-> dispersion_arg.

(** The point and the sample points that [np.interp(x, xp, fp)] works on
    when [x] may be a Quantity and [xp] is a bare array (astropy's
    handling of numpy functions on a Quantity): the samples are brought to
    the unit of [x], which a bare array allows only when that unit is
    dimensionless, or when the array holds nothing but zeros. *)
Definition interp_arrays (x : dispersion_arg) (xp : list Q)
    : result (fnum * list Q) :=
  match x with
  | DBare v => OK (v, xp)
  | DQty q =>
      if is_dimensionless (unit q)
      then OK (value q, map (fun v => v / scale (unit q))%Q xp)
      else if forallb (Qeq_bool 0) xp then OK (value q, xp)
      else Raise (Exn UnitConversionError
             "can only be applied to dimensionless quantities when the other argument is not a quantity")
  end.

(** What a lookup table is on entry: a bare array or a Quantity array. *)
Inductive table_arg :=
| BareTable (values : list Q)
| QtyTable (q : Quantity (list Q)).

Module Spectrum1DLookupWCS.

Record t := mk {
  lookup_table_parameter : Quantity (list Q);
  unit_ : Unit;
  lookup_table_interpolation_kind : string;
  pixel_index : list Q
}.

(** [lookup_table *= unit]. *)
Definition imul_unit (lookup_table : table_arg) (un : Unit)
    : Quantity (list Q) :=
  match lookup_table with
  | BareTable values => mkQuantity values un
  | QtyTable q => mkQuantity (value q) (Unit_mul (unit q) un)
  end.

(** The table is one-dimensional by its type, so the [assert] on
    [ndim == 1] cannot fail. *)
Definition __init__ (lookup_table : table_arg) (unit_ : option unit_arg)
    (lookup_table_interpolation_kind : string) : result t :=
  lookup_table ←
    match unit_, lookup_table with
    | None, BareTable _ =>
        Raise (Exn TypeError
          "Lookup table must have a unit attribute or units must be specified.")
    | None, QtyTable q => OK q
    | Some _, _ =>
        un ← try_except (Unit_new unit_) [ValueError]
               (Raise (Exn ValueError "Invalid unit specified"));
        _ ← check_valid_unit un;
        OK (imul_unit lookup_table un)
    end;
  if negb (length (value lookup_table) =? length (np_unique (value lookup_table)))%nat
  then Raise (Exn Spectrum1DWCSError
                "The Lookup Table does not describe a unique transformation")
  else
    OK (mk lookup_table (unit lookup_table) lookup_table_interpolation_kind
           (np_arange (length (value lookup_table)))).

Definition __call__ (self : t) (pixel_indices : fnum)
    : result (Quantity fnum) :=
  if String.eqb (lookup_table_interpolation_kind self) "linear" then
    v ← np_interp pixel_indices (pixel_index self)
          (value (lookup_table_parameter self)) NaN NaN;
    OK (mkQuantity v (unit_ self))
  else Raise (Exn NotImplementedError "Interpolation type is not implemented").

(** [invert] hands its argument to [np.interp] as it is: a Quantity keeps
    its unit, while the table is passed as bare numbers. *)
Definition invert (self : t) (dispersion_values : dispersion_arg) : result fnum :=
  if String.eqb (lookup_table_interpolation_kind self) "linear" then
    '(x, xp) ← interp_arrays dispersion_values (value (lookup_table_parameter self));
    np_interp x xp (pixel_index self) NaN NaN
  else Raise (Exn NotImplementedError "Interpolation type is not implemented").

End Spectrum1DLookupWCS.

(** A FITS header value. *)
Inductive hval :=
| HNum (q : Q)
| HStr (s : string).

(** [header[key]]. *)
Definition header_getitem (header : gmap string hval) (key : string)
    : result hval :=
  match header !! key with
  | Some v => OK v
  | None => Raise (Exn KeyError key)
  end.

(** ['%i' % n]. *)
Definition fmt_i (n : nat) : string := NilEmpty.string_of_uint (Nat.to_uint n).

Definition hval_unit_arg (v : hval) : unit_arg :=
  match v with
  | HNum q => UnitNum q
  | HStr s => UnitStr s
  end.

(** A header number used in arithmetic or handed to [u.Quantity]. *)
Definition hval_number (v : hval) : result Q :=
  match v with
  | HNum q => OK q
  | HStr _ => Raise (Exn TypeError "a string is not a number")
  end.

(** [astropy.io.fits.Header] keeps its keywords in upper case: a keyword
    is normalised when it is written. *)
Definition upper_ascii (c : Ascii.ascii) : Ascii.ascii :=
  let n := Ascii.nat_of_ascii c in
  if (97 <=? n)%nat && (n <=? 122)%nat then Ascii.ascii_of_nat (n - 32) else c.

Fixpoint upper (s : string) : string :=
  match s with
  | EmptyString => EmptyString
  | String c s' => String (upper_ascii c) (upper s')
  end.

(** [header[key] = v]. *)
Definition header_setitem (header : gmap string hval) (key : string) (v : hval)
    : gmap string hval :=
  <[upper key := v]> header.

Module Spectrum1DLinearWCS.

Record t := mk {
  unit_ : Unit;
  dispersion0 : Q;
  dispersion_delta : Q;
  pixel_index : Q
}.

Definition __init__ (dispersion0 dispersion_delta : scalar_arg)
    (pixel_index : Q) (unit_ : option Unit) : result t :=
  dispersion0 ← Quantity_new dispersion0 unit_;
  dispersion_delta ← Quantity_new dispersion_delta unit_;
  _ ← check_valid_unit (unit dispersion0);
  _ ← check_valid_unit (unit dispersion_delta);
  let unit_ := match unit_ with
               | None => unit dispersion0
               | Some un => un
               end in
  OK (mk unit_ (value dispersion0) (value dispersion_delta) pixel_index).

(** [header] is the mapping itself; a file name would first be read from
    disk, which is outside the model. *)
Definition from_fits_header (header : gmap string hval)
    (unit_ : option Unit) (spectroscopic_axis_number : nat) : result t :=
  let n := fmt_i spectroscopic_axis_number in
  unit_ ←
    match unit_ with
    | Some un => OK un
    | None =>
        try_except
          (Unit_new (hval_unit_arg <$> header !! ("CUNIT" +:+ n)))
          [UnitsError; TypeError]
          (Raise (Exn Spectrum1DWCSUnitError
             "No units were specified and CUNIT did not contain unit information."))
    end;
  cdelt ←
    try_except (header_getitem header ("CDELT" +:+ n)) [KeyError]
      (try_except (header_getitem header ("CD" +:+ n +:+ "_" +:+ n)) [KeyError]
         (Raise (Exn Spectrum1DWCSFITSError
            "Necessary keywords (CDELT or CD) missing - can not reconstruct WCS")));
  '(crpix, crval) ←
    try_except
      (crpix ← header_getitem header ("CRPIX" +:+ n);
       crval ← header_getitem header ("CRVAL" +:+ n);
       OK (crpix, crval))
      [KeyError]
      (Raise (Exn Spectrum1DWCSFITSError
         "Necessary keywords (CRPIX, CRVAL) missing - can not reconstruct WCS"));
  crpix ← hval_number crpix;
  crval ← hval_number crval;
  cdelt ← hval_number cdelt;
  __init__ (Bare crval) (Bare cdelt) (crpix - 1)%Q (Some unit_).

Definition __call__ (self : t) (pixel_indices : Q) : Quantity Q :=
  mkQuantity
    (dispersion0 self + dispersion_delta self * (pixel_indices - pixel_index self))%Q
    (unit_ self).

(** [__call__] on an iterable: the same formula on every element. *)
Definition __call__array (self : t) (pixel_indices : list Q)
    : Quantity (list Q) :=
  mkQuantity
    (map (fun p => dispersion0 self + dispersion_delta self * (p - pixel_index self))%Q
         pixel_indices)
    (unit_ self).

(** [invert] on a scalar argument (a scalar Quantity is not iterable, so
    it is not turned into an array). A bare number has no [unit]
    attribute. For a Quantity the two parameters are bare numbers: the
    difference, the quotient and [float] are astropy's, and [float] is
    reached only when the subtraction went through. *)
Definition invert (self : t) (dispersion_values : scalar_arg) : result pyfloat :=
  match dispersion_values with
  | Bare _ =>
      Raise (Exn UnitsError
        "Must give a dispersion value with a valid unit (i.e. quantity 5 * u.Angstrom)")
  | Qty q =>
      d ← Quantity_sub_bare q (dispersion0 self);
      r ← Quantity_float (Quantity_div_bare d (dispersion_delta self));
      OK (pyfloat_map (fun v => v + pixel_index self)%Q r)
  end.

(** [to_fits_header]: the four keywords are written in source order.
    [to_string] is astropy's [Unit.to_string], which is external. *)
Definition to_fits_header (to_string : Unit -> string) (self : t)
    (fits_header : gmap string hval) (spectroscopic_axis_number : nat)
    : gmap string hval :=
  let n := fmt_i spectroscopic_axis_number in
  let fits_header := header_setitem fits_header ("crval" +:+ n) (HNum (dispersion0 self)) in
  let fits_header := header_setitem fits_header ("crpix" +:+ n) (HNum (pixel_index self + 1)%Q) in
  let fits_header := header_setitem fits_header ("cdelt" +:+ n) (HNum (dispersion_delta self)) in
  header_setitem fits_header ("cunit" +:+ n) (HStr (to_string (unit_ self))).

End Spectrum1DLinearWCS.

(** ** numpy arrays and Python indexing *)

(** An n-dimensional array: its shape and its elements in row-major
    order. A scalar has the empty shape. *)
Record ndarray := mkArray { shape : list nat; data : list Q }.

(** An index expression: an integer or [slice(start, stop, None)]. *)
Inductive index :=
| Int (i : Z)
| Slice (start stop : option Z).

(** One bound of [slice.indices(n)] for a positive step: a negative bound
    counts from the end, and the result is clamped to [0, n]. *)
Definition slice_bound (n : Z) (b : option Z) (default : Z) : Z :=
  match b with
  | None => default
  | Some b => let b := if (b <? 0)%Z then (b + n)%Z else b in
              Z.max 0 (Z.min n b)
  end.

(** [l[start:stop]] on a sequence of blocks of [chunk] elements. *)
Definition slice_blocks {A} (l : list A) (n chunk : nat) (start stop : option Z)
    : nat * list A :=
  let lo := slice_bound (Z.of_nat n) start 0 in
  let hi := slice_bound (Z.of_nat n) stop (Z.of_nat n) in
  let len := Z.to_nat (hi - lo) in
  (len, take (len * chunk) (drop (Z.to_nat lo * chunk) l)).

(** [l[start:stop]] on a Python sequence. *)
Definition py_slice {A} (l : list A) (start stop : option Z) : list A :=
  snd (slice_blocks l (length l) 1 start stop).

(** [a[item]]: indexing or slicing along the first axis. *)
Definition ndarray_getitem (a : ndarray) (item : index) : result ndarray :=
  match shape a with
  | [] => Raise (Exn IndexError "too many indices for array")
  | n :: rest =>
      let chunk := fold_right Nat.mul 1%nat rest in
      match item with
      | Int i =>
          let j := if (i <? 0)%Z then (i + Z.of_nat n)%Z else i in
          if (j <? 0)%Z || (Z.of_nat n <=? j)%Z
          then Raise (Exn IndexError "index is out of bounds")
          else OK (mkArray rest (take chunk (drop (Z.to_nat j * chunk) (data a))))
      | Slice start stop =>
          let '(len, d) := slice_blocks (data a) n chunk start stop in
          OK (mkArray (len :: rest) d)
      end
  end.

Definition Quantity_getitem (q : Quantity ndarray) (item : index)
    : result (Quantity ndarray) :=
  a ← ndarray_getitem (value q) item;
  OK (mkQuantity a (unit q)).

(** [np.ndim] of an array, and [shape[0]], [shape[-1]], [shape[:-1]]. *)
Definition ndim (a : ndarray) : nat := length (shape a).

Definition shape_first (sh : list nat) : result nat :=
  match sh with
  | [] => Raise (Exn IndexError "tuple index out of range")
  | n :: _ => OK n
  end.

Definition shape_last (sh : list nat) : result nat :=
  match sh with
  | [] => Raise (Exn IndexError "tuple index out of range")
  | n :: _ => OK (List.last sh n)
  end.

(** [astropy.constants.c]. *)
Definition cnst_c : Quantity Q := mkQuantity 299792458%Q u.m_per_s.

(** [q / cnst.c] and [q * cnst.c], elementwise. *)
Definition Quantity_div_c (q : Quantity ndarray) : Quantity ndarray :=
  mkQuantity (mkArray (shape (value q))
                (map (fun x => x / value cnst_c)%Q (data (value q))))
             (Unit_div (unit q) (unit cnst_c)).

Definition Quantity_mul_c (q : Quantity ndarray) : Quantity ndarray :=
  mkQuantity (mkArray (shape (value q))
                (map (fun x => x * value cnst_c)%Q (data (value q))))
             (Unit_mul (unit q) (unit cnst_c)).

(** ** spectrum1d.py *)

(** A value that can arrive as [flux], [data], [redshift] or
    [radial_velocity]: [None], a Python number, a bare numpy array, or a
    Quantity. *)
Inductive array_like :=
| PyNone
| PyFloat (x : Q)
| PyInt (n : Z)
| PyArray (a : ndarray)
| PyQuantity (q : Quantity ndarray).

(** Modelled from the spec: [spectra/spectral_coordinate.py] is not among
    the sources. A Spectral Coordinate is a unit-tagged sequence of
    dispersion values with an optional rest value, doppler convention and
    radial velocity; a redshift is kept as [radial_velocity = redshift * c]
    (spec 3 and 4.4). *)
Record SpectralCoord := mkSpectralCoord {
  sc_quantity : Quantity ndarray;
  sc_radial_velocity : option (Quantity ndarray);
  sc_doppler_rest : option scalar_arg;
  sc_doppler_convention : option string
}.

(** [val * cnst.c] for a redshift: a number or array becomes a velocity. *)
Definition mul_c (val : array_like) : array_like :=
  match val with
  | PyNone => PyNone
  | PyFloat x =>
      PyQuantity (Quantity_mul_c (mkQuantity (mkArray [] [x]) dimensionless_unscaled))
  | PyInt n =>
      PyQuantity (Quantity_mul_c (mkQuantity (mkArray [] [inject_Z n]) dimensionless_unscaled))
  | PyArray a => PyQuantity (Quantity_mul_c (mkQuantity a dimensionless_unscaled))
  | PyQuantity q => PyQuantity (Quantity_mul_c q)
  end.

(** Modelled from the spec: the constructor of [SpectralCoord] (spec 4.4):
    a radial velocity must be velocity-equivalent, a redshift is stored as
    a radial velocity, and without either there is none. *)
Definition SpectralCoord_new (q : Quantity ndarray)
    (redshift radial_velocity : array_like)
    (doppler_rest : option scalar_arg) (doppler_convention : option string)
    : result SpectralCoord :=
  rv ← match radial_velocity, redshift with
       | PyNone, PyNone => OK None
       | PyNone, z =>
           match mul_c z with
           | PyQuantity v => OK (Some v)
           | _ => OK None
           end
       | PyQuantity v, _ =>
           if is_equivalent (unit v) u.km_per_s then OK (Some v)
           else Raise (Exn UnitsError "radial_velocity must be a velocity")
       | _, _ => Raise (Exn UnitsError "radial_velocity must be a velocity")
       end;
  OK (mkSpectralCoord q rv doppler_rest doppler_convention).

(** Modelled from the spec: [utils/wcs_utils.py] (gwcs_from_array) is not
    among the sources. The transform built from an array keeps that array
    as its lookup axis (spec 2, data flow); a FITS-style WCS may also carry
    [rest_frequency] or [rest_wavelength]. *)
Record WCS := mkWCS {
  wcs_axis : SpectralCoord;
  rest_frequency : option Q;
  rest_wavelength : option Q
}.

(** Modelled from the spec: [gwcs_from_array(array)], the transform whose
    lookup axis is [array]; it carries no rest frequency or wavelength. *)
Definition gwcs_from_array (axis : SpectralCoord) : WCS := mkWCS axis None None.

(** [np.arange(size)] tagged with the dimensionless unit. *)
Definition arange_axis (size : nat) : SpectralCoord :=
  mkSpectralCoord (mkQuantity (mkArray [size] (np_arange size)) dimensionless_unscaled)
                  None None None.

(** [wcs[item]] as the external container slices it: the axis is sliced
    with the data. *)
Definition WCS_getitem (w : WCS) (item : index) : result WCS :=
  q ← Quantity_getitem (sc_quantity (wcs_axis w)) item;
  OK (mkWCS (mkSpectralCoord q (sc_radial_velocity (wcs_axis w))
               (sc_doppler_rest (wcs_axis w)) (sc_doppler_convention (wcs_axis w)))
            (rest_frequency w) (rest_wavelength w)).

(** The [spectral_axis] argument: something that is not a Quantity, a plain
    Quantity, or a SpectralCoord. *)
Inductive axis_arg :=
| AxisOther
| AxisQuantity (q : Quantity ndarray)
| AxisSpectralCoord (sc : SpectralCoord).

Definition axis_quantity (a : axis_arg) : option (Quantity ndarray) :=
  match a with
  | AxisOther => None
  | AxisQuantity q => Some q
  | AxisSpectralCoord sc => Some (sc_quantity sc)
  end.

(** The keyword arguments [**kwargs]: the six known names (None: not
    passed) and the names of all others. *)
Record kwargs := mkKwargs {
  kw_data : option array_like;
  kw_unit : option (option Unit);
  kw_uncertainty : option (option ndarray);
  kw_meta : option (list (string * string));
  kw_mask : option (option (list bool));
  kw_copy : option bool;
  kw_unknown : list string
}.

Definition no_kwargs : kwargs := mkKwargs None None None None None None [].

Module Spectrum1D.

(** The object: the fields of the NDData base, then the attributes that
    [Spectrum1D] assigns itself (None: never assigned). *)
Record t := mk {
  nd_data : option ndarray;
  nd_unit : option Unit;
  nd_uncertainty : option ndarray;
  nd_mask : option (list bool);
  nd_meta : list (string * string);
  nd_wcs : option WCS;
  _velocity_convention : option (option string);
  _rest_value : option (Quantity Q);
  _spectral_axis : option SpectralCoord;
  _radial_velocity : option (option (Quantity ndarray))
}.

(** What [flux] can be: an array-like value or an NDDataRef. *)
Inductive flux_arg :=
| Flux (v : array_like)
| FluxNDDataRef (s : t).

(** [NDDataRef.__init__(data=..., wcs=..., **kwargs)] (astropy): stores
    its arguments; the Spectrum1D attributes are not assigned yet. *)
Definition NDData_init (data_ : array_like) (wcs : option WCS) (kw : kwargs) : t :=
  mk (match data_ with
      | PyNone => None
      | PyFloat x => Some (mkArray [] [x])
      | PyInt n => Some (mkArray [] [inject_Z n])
      | PyArray a => Some a
      | PyQuantity q => Some (value q)
      end)
     (default None (kw_unit kw))
     (default None (kw_uncertainty kw))
     (default None (kw_mask kw))
     (default [] (kw_meta kw))
     wcs None None None None.

(** Modelled from the spec: [spectra/spectrum_mixin.py] is not among the
    sources. The [flux] accessor is the data tagged with the unit (spec 3
    and 6). *)
Definition flux (self : t) : result (Quantity ndarray) :=
  match nd_data self with
  | None => Raise (Exn TypeError "None cannot be made a Quantity")
  | Some a => OK (mkQuantity a (default dimensionless_unscaled (nd_unit self)))
  end.

(** Modelled from the spec: the [spectral_axis] accessor of the mixin is
    the Spectral Coordinate assigned at construction, else the axis of the
    transform (spec 2 and 3). *)
Definition spectral_axis (self : t) : result SpectralCoord :=
  match _spectral_axis self with
  | Some sc => OK sc
  | None =>
      match nd_wcs self with
      | Some w => OK (wcs_axis w)
      | None => Raise (Exn AttributeError "no spectral axis")
      end
  end.

(** Modelled from the spec: the [velocity_convention] and [rest_value]
    accessors of the mixin read the attributes set in [__init__]. *)
Definition velocity_convention (self : t) : result (option string) :=
  match _velocity_convention self with
  | Some v => OK v
  | None => Raise (Exn AttributeError "_velocity_convention")
  end.

(** Modelled from the spec: see [velocity_convention]. *)
Definition rest_value (self : t) : result (Quantity Q) :=
  match _rest_value self with
  | Some v => OK v
  | None => Raise (Exn AttributeError "_rest_value")
  end.

(** The [shape] property. *)
Definition shape_ (self : t) : result (list nat) :=
  f ← flux self; OK (shape (value f)).

(** The [redshift] and [radial_velocity] properties. *)
Definition radial_velocity (self : t) : result (option (Quantity ndarray)) :=
  match _radial_velocity self with
  | Some v => OK v
  | None => Raise (Exn AttributeError "_radial_velocity")
  end.

(** [rv / cnst.c], where [rv] may be Python's None. *)
Definition div_c (rv : option (Quantity ndarray)) : result (Quantity ndarray) :=
  match rv with
  | Some v => OK (Quantity_div_c v)
  | None => Raise (Exn TypeError "unsupported operand type(s) for /")
  end.

Definition redshift (self : t) : result (Quantity ndarray) :=
  match _radial_velocity self with
  | Some rv => div_c rv
  | None => Raise (Exn AttributeError "_radial_velocity")
  end.

(** [self._radial_velocity = v]. *)
Definition with_radial_velocity (self : t) (v : option (Quantity ndarray)) : t :=
  mk (nd_data self) (nd_unit self) (nd_uncertainty self) (nd_mask self)
     (nd_meta self) (nd_wcs self) (_velocity_convention self)
     (_rest_value self) (_spectral_axis self) (Some v).

(** The shape test of the setter, as written: the reversed input shape
    is zipped with [flux.shape[:-1]]. *)
Definition shapes_compatible (input_shape flux_shape : list nat) : bool :=
  forallb (fun '(m, n) => (m =? n)%nat || (m =? 1)%nat || (n =? 1)%nat)
          (combine (rev input_shape) flux_shape).

Definition radial_velocity_setter (self : t) (val : array_like) : result t :=
  match val with
  | PyNone => OK (with_radial_velocity self None)
  | PyQuantity v =>
      if negb (is_equivalent (unit v) u.km_per_s)
      then Raise (Exn UnitsError "radial_velocity must be a velocity")
      else
        let input_shape := shape (value v) in
        f ← flux self;
        let flux_shape := removelast (shape (value f)) in
        if negb (shapes_compatible input_shape flux_shape)
        then Raise (Exn ValueError
               "radial_velocity or redshift must have shape that is compatible with this spectrum's flux array")
        else OK (with_radial_velocity self (Some v))
  | _ => Raise (Exn AttributeError "object has no attribute 'unit'")
  end.

Definition redshift_setter (self : t) (val : array_like) : result t :=
  match val with
  | PyNone => OK (with_radial_velocity self None)
  | _ => radial_velocity_setter self (mul_c val)
  end.

Definition isscalar (q : Quantity ndarray) : bool :=
  match shape (value q) with [] => true | _ => false end.

Definition is_None (v : array_like) : bool :=
  match v with PyNone => true | _ => false end.

Definition is_Quantity (v : array_like) : bool :=
  match v with PyQuantity _ => true | _ => false end.

Definition is_float_or_int (v : array_like) : bool :=
  match v with PyFloat _ | PyInt _ => true | _ => false end.

Definition np_ndim (v : array_like) : nat :=
  match v with
  | PyArray a => ndim a
  | PyQuantity q => ndim (value q)
  | _ => 0
  end.

(** The test that sends construction to the minimal mode. *)
Definition ignores_wcs (flux_ : array_like) : bool :=
  (negb (is_Quantity flux_) || is_float_or_int flux_) && (np_ndim flux_ =? 0)%nat.

(** [u.Quantity([flux])] for a scalar quantity. *)
Definition promote (q : Quantity ndarray) : Quantity ndarray :=
  mkQuantity (mkArray [1%nat] (data (value q))) (unit q).

Definition pop_data (kw : kwargs) : kwargs :=
  mkKwargs None (kw_unit kw) (kw_uncertainty kw) (kw_meta kw) (kw_mask kw)
           (kw_copy kw) (kw_unknown kw).

(** [kwargs.setdefault('unit', ...)]. *)
Definition setdefault_unit (kw : kwargs) (flux_ : array_like) : kwargs :=
  mkKwargs (kw_data kw)
           (match kw_unit kw with
            | Some x => Some x
            | None => Some (match flux_ with
                            | PyQuantity q => Some (unit q)
                            | _ => None
                            end)
            end)
           (kw_uncertainty kw) (kw_meta kw) (kw_mask kw) (kw_copy kw)
           (kw_unknown kw).

(** [hasattr(wcs, name) and wcs.name != 0]. *)
Definition nonzero (x : option Q) : option Q :=
  match x with
  | Some v => if Qeq_bool v 0 then None else Some v
  | None => None
  end.

Definition array_like_shape (v : array_like) : list nat :=
  match v with
  | PyArray a => shape a
  | PyQuantity q => shape (value q)
  | _ => []
  end.

(** The phases of [__init__] after the early returns, in source order. *)

(** Lines 103-120: the spectral axis that gets assigned (if any) and the
    transform in use. *)
Definition resolve_axis (flux_ : array_like) (spectral_axis_ : option axis_arg)
    (wcs : option WCS) (velocity_convention_ : option string)
    (rest_value_ : option scalar_arg) (redshift_ radial_velocity_ : array_like)
    : result (option SpectralCoord * WCS) :=
  match spectral_axis_ with
  | Some AxisOther =>
      Raise (Exn ValueError
        "Spectral axis must be a `Quantity` or `SpectralCoord` object.")
  | Some (AxisQuantity q) =>
      sc ← SpectralCoord_new q redshift_ radial_velocity_ rest_value_
             velocity_convention_;
      OK (Some sc, gwcs_from_array (mkSpectralCoord q None None None))
  | Some (AxisSpectralCoord sc) => OK (None, gwcs_from_array sc)
  | None =>
      match wcs with
      | Some w => OK (None, w)
      | None =>
          size ← match flux_ with
                 | PyQuantity q =>
                     if isscalar q then OK 1%nat
                     else shape_first (shape (value q))
                 | _ => Raise (Exn AttributeError
                          "object has no attribute 'isscalar'")
                 end;
          OK (None, gwcs_from_array (arange_axis size))
      end
  end.

(** Lines 122-126: the spectral axis is as long as the last flux axis. *)
Definition check_axis_length (flux_ : array_like)
    (spectral_axis_ : option axis_arg) : result () :=
  match spectral_axis_ ≫= axis_quantity with
  | Some q =>
      n ← shape_first (shape (value q));
      m ← shape_last (array_like_shape flux_);
      if negb (n =? m)%nat
      then Raise (Exn ValueError
             "Spectral axis and the last flux axis lengths must be the same")
      else OK ()
  | None => OK ()
  end.

(** Lines 130-148: the rest value. *)
Definition resolve_rest_value (spectral_axis_ : option axis_arg) (wcs : WCS)
    (rest_value_ : option scalar_arg) : result (Quantity Q) :=
  match rest_value_ with
  | None =>
      match nonzero (rest_frequency wcs), nonzero (rest_wavelength wcs) with
      | Some f, _ => OK (mkQuantity f u.Hz)
      | None, Some l => OK (mkQuantity l u.AA)
      | None, None => OK (mkQuantity 0%Q u.AA)
      end
  | Some (Bare v) =>
      match spectral_axis_ ≫= axis_quantity with
      | Some q => OK (mkQuantity v (unit q))
      | None => Raise (Exn AttributeError "object has no attribute 'unit'")
      end
  | Some (Qty q) =>
      if negb (is_equivalent (unit q) u.AA) && negb (is_equivalent (unit q) u.Hz)
      then Raise (Exn UnitsError
             "Rest value must be energy/wavelength/frequency equivalent.")
      else OK q
  end.

(** Lines 150-161: the base initializer, the radial velocity through its
    setter, and the uncertainty shape. *)
Definition finish (flux_ : array_like) (wcs : WCS) (kw : kwargs)
    (velocity_convention_ : option string) (rest : Quantity Q)
    (assigned : option SpectralCoord) : result t :=
  match kw_data kw with
  | Some _ =>
      Raise (Exn TypeError "got multiple values for keyword argument 'data'")
  | None =>
      let base := NDData_init (match flux_ with
                               | PyQuantity q => PyArray (value q)
                               | _ => flux_
                               end) (Some wcs) kw in
      let self := mk (nd_data base) (nd_unit base) (nd_uncertainty base)
                     (nd_mask base) (nd_meta base) (nd_wcs base)
                     (Some velocity_convention_) (Some rest) assigned None in
      sa ← spectral_axis self;
      self ← radial_velocity_setter self
               (match sc_radial_velocity sa with
                | Some v => PyQuantity v
                | None => PyNone
                end);
      match nd_uncertainty self with
      | Some unc =>
          if negb (bool_decide (array_like_shape flux_ = shape unc))
          then Raise (Exn ValueError
                 "Flux axis and uncertainty shapes must be the same.")
          else OK self
      | None => OK self
      end
  end.

(** Lines 69-74: the flux argument is a Quantity, and a scalar one
    becomes a one-element array. *)
Definition ensure_quantity (flux_ : array_like) : result array_like :=
  match flux_ with
  | PyNone => OK PyNone
  | PyQuantity q =>
      if isscalar q then OK (PyQuantity (promote q)) else OK flux_
  | _ => Raise (Exn ValueError "Flux must be a `Quantity` object.")
  end.

(** Lines 81-84: without [flux], the [data] keyword is taken instead. *)
Definition grab_data (flux_ : array_like) (kw : kwargs) : array_like * kwargs :=
  match flux_, kw_data kw with
  | PyNone, Some d => (d, pop_data kw)
  | _, _ => (flux_, kw)
  end.

Definition __init__ (flux_ : flux_arg) (spectral_axis_ : option axis_arg)
    (wcs : option WCS) (velocity_convention_ : option string)
    (rest_value_ : option scalar_arg) (redshift_ radial_velocity_ : array_like)
    (kw : kwargs) : result t :=
  if negb (length (kw_unknown kw) =? 0)%nat
  then Raise (Exn ValueError "Initializer contains unknown arguments(s)")
  else
  match flux_ with
  | FluxNDDataRef other =>
      vc ← velocity_convention other;
      rest ← rest_value other;
      OK (mk (nd_data other) (nd_unit other) (nd_uncertainty other)
             (nd_mask other) (nd_meta other) (nd_wcs other)
             (Some vc) (Some rest) None None)
  | Flux flux_ =>
      flux_ ← ensure_quantity flux_;
      if negb (is_None redshift_) && negb (is_None radial_velocity_)
      then Raise (Exn ValueError
             "cannot set both radial_velocity and redshift at the same time.")
      else
      let '(flux_, kw) := grab_data flux_ kw in
      let kw := setdefault_unit kw flux_ in
      if ignores_wcs flux_ then OK (NDData_init flux_ wcs kw)
      else
      '(assigned, wcs) ← resolve_axis flux_ spectral_axis_ wcs velocity_convention_
                           rest_value_ redshift_ radial_velocity_;
      _ ← check_axis_length flux_ spectral_axis_;
      rest ← resolve_rest_value spectral_axis_ wcs rest_value_;
      finish flux_ wcs kw velocity_convention_ rest assigned
  end.

(** [_copy(flux=..., uncertainty=...)]: every attribute is read (a deep
    copy of an immutable value is the value), the overrides replace
    theirs, and the class is called on the result. *)
Definition _copy (self : t) (flux_override : option (Quantity ndarray))
    (uncertainty_override : option (option ndarray)) : result t :=
  f ← flux self;
  sa ← spectral_axis self;
  vc ← velocity_convention self;
  rest ← rest_value self;
  __init__ (Flux (PyQuantity (default f flux_override)))
           (Some (AxisSpectralCoord sa)) (nd_wcs self) vc (Some (Qty rest))
           PyNone PyNone
           (mkKwargs None (Some (nd_unit self))
                     (Some (default (nd_uncertainty self) uncertainty_override))
                     (Some (nd_meta self)) (Some (nd_mask self)) None []).

(** [NDDataRef.__getitem__] (astropy's slicing mixin): data, uncertainty,
    mask and wcs are sliced, unit and meta are kept, and the class is
    called on the result. *)
Definition NDData_getitem (self : t) (item : index) : result t :=
  match nd_data self with
  | None => Raise (Exn TypeError "scalars cannot be sliced.")
  | Some a =>
      if (ndim a =? 0)%nat then Raise (Exn TypeError "scalars cannot be sliced.")
      else
        d ← ndarray_getitem a item;
        unc ← match nd_uncertainty self with
              | Some ua => x ← ndarray_getitem ua item; OK (Some x)
              | None => OK None
              end;
        w ← match nd_wcs self with
            | Some w => x ← WCS_getitem w item; OK (Some x)
            | None => OK None
            end;
        let mask := match nd_mask self, item with
                    | Some mk_, Slice start stop => Some (py_slice mk_ start stop)
                    | other, _ => other
                    end in
        __init__ (Flux PyNone) None w None None PyNone PyNone
                 (mkKwargs (Some (PyArray d)) (Some (nd_unit self)) (Some unc)
                           (Some (nd_meta self)) (Some mask) None [])
  end.

Definition __getitem__ (self : t) (item : index) : result t :=
  f ← flux self;
  if (1 <? length (shape (value f)))%nat then
    fi ← Quantity_getitem f item;
    ui ← match nd_uncertainty self with
         | Some ua => x ← ndarray_getitem ua item; OK (Some x)
         | None => OK None
         end;
    _copy self (Some fi) (Some ui)
  else
    let item := match item with
                | Int i => Slice (Some i) (Some (i + 1)%Z)
                | Slice _ _ => item
                end in
    NDData_getitem self item.

End Spectrum1D.

(** ** Vocabulary of the statements *)

(** numpy's broadcasting rule: the shapes are aligned at their last axes,
    and aligned lengths are equal or one of them is 1. *)
Definition broadcast_compatible (a b : list nat) : bool :=
  forallb (fun '(m, n) => (m =? n)%nat || (m =? 1)%nat || (n =? 1)%nat)
          (combine (rev a) (rev b)).

(** A one-dimensional Quantity array. *)
Definition quantity_1d (l : list Q) (un : Unit) : Quantity ndarray :=
  mkQuantity (mkArray [length l] l) un.

(** The single spectrum [1, 2, 3] Jy over [10, 20, 30] Angstrom. *)
Definition single_spectrum : result Spectrum1D.t :=
  Spectrum1D.__init__ (Spectrum1D.Flux (PyQuantity (quantity_1d [1; 2; 3]%Q u.Jy)))
    (Some (AxisQuantity (quantity_1d [10; 20; 30]%Q u.AA)))
    None None None PyNone PyNone no_kwargs.

(** A cube of shape (2, 3, 4) in Jy over four Angstrom values. *)
Definition cube_spectrum : result Spectrum1D.t :=
  Spectrum1D.__init__
    (Spectrum1D.Flux (PyQuantity (mkQuantity (mkArray [2; 3; 4]%nat (repeat 1%Q 24)) u.Jy)))
    (Some (AxisQuantity (quantity_1d [10; 20; 30; 40]%Q u.AA)))
    None None None PyNone PyNone no_kwargs.

(** The numbers of a lookup table, with or without a unit. *)
Definition table_values (table : table_arg) : list Q :=
  match table with
  | BareTable values => values
  | QtyTable q => value q
  end.

(** The unit phase of the lookup constructor goes through: the table has a
    unit of its own, or the [unit] argument parses and is valid. *)
Definition lookup_unit_resolves (table : table_arg) (unit_ : option unit_arg) : Prop :=
  match unit_, table with
  | None, BareTable _ => False
  | None, QtyTable _ => True
  | Some ua, _ => exists un, Unit_new (Some ua) = OK un /\ check_valid_unit un = OK ()
  end.

(** A header that holds the four keywords of the first axis. *)
Definition fits_keywords (crval crpix cdelt : Q) (cunit : string)
    : gmap string hval :=
  <["CRVAL1" := HNum crval]>
    (<["CRPIX1" := HNum crpix]>
       (<["CDELT1" := HNum cdelt]>
          (<["CUNIT1" := HStr cunit]> ∅))).

(** The keywords of scenario E. *)
Definition scenario_E_header : gmap string hval :=
  <["CRVAL1" := HNum 5000]>
    (<["CRPIX1" := HNum 1]>
       (<["CDELT1" := HNum (3 # 2)]>
          (<["CUNIT1" := HStr "Angstrom"]> ∅))).

(** A unit is available to [from_fits_header]: it is passed explicitly, or
    CUNIT is present and parses. *)
Definition header_unit_resolves (header : gmap string hval) (unit_ : option Unit)
    (n : nat) : Prop :=
  match unit_ with
  | Some _ => True
  | None => exists v un, header !! ("CUNIT" +:+ fmt_i n) = Some v /\
                         Unit_new (Some (hval_unit_arg v)) = OK un
  end.

(** The delta keyword is absent under both spellings, or one of CRPIX and
    CRVAL is. *)
Definition keywords_missing (header : gmap string hval) (n : nat) : Prop :=
  (header !! ("CDELT" +:+ fmt_i n) = None /\
   header !! ("CD" +:+ fmt_i n +:+ "_" +:+ fmt_i n) = None) \/
  header !! ("CRPIX" +:+ fmt_i n) = None \/
  header !! ("CRVAL" +:+ fmt_i n) = None.

(** Strictly increasing samples. *)
Fixpoint increasing (l : list Q) : Prop :=
  match l with
  | x0 :: ((x1 :: _) as l') => (x0 < x1)%Q /\ increasing l'
  | _ => True
  end.

(** The flux after the first lines of [__init__], when a Quantity is
    passed as [flux]. *)
Definition effective_flux (q : Quantity ndarray) : Quantity ndarray :=
  if Spectrum1D.isscalar q then Spectrum1D.promote q else q.

(** The checks that come before the length test all pass. *)
Definition length_test_reached (q : Quantity ndarray) (ax : axis_arg)
    (wcs : option WCS) (vc : option string) (rest : option scalar_arg)
    (z rv : array_like) (kw : kwargs) : Prop :=
  kw_unknown kw = [] /\
  (z = PyNone \/ rv = PyNone) /\
  is_OK (Spectrum1D.resolve_axis (PyQuantity (effective_flux q)) (Some ax) wcs vc rest z rv)
    = true.

(** * Properties *)

Local Open Scope Q_scope.

(** ** The result monad *)

Lemma bind_OK_inv {A B} (r : result A) (k : A -> result B) (b : B) :
  r ≫= k = OK b -> exists a, r = OK a /\ k a = OK b.
Proof. destruct r as [a|e]; simpl; intros H; [eauto | discriminate]. Qed.

Lemma try_except_OK_inv {A} (r : result A) cls h (a : A) :
  try_except r cls h = OK a -> r = OK a \/ h = OK a.
Proof.
  unfold try_except. destruct r as [x|e]; [auto|].
  destruct (existsb _ _); [auto | discriminate].
Qed.

(** Splits a hypothesis [r ≫= k = OK b] into its two steps. *)
Ltac inv_bind H :=
  let a := fresh "a" in
  let Ha := fresh "Ha" in
  apply bind_OK_inv in H; destruct H as (a & Ha & H).

Tactic Notation "inv_bind_as" hyp(H) ident(a) ident(Ha) :=
  apply bind_OK_inv in H; destruct H as (a & Ha & H).

(** Runs the monadic plumbing only, leaving the steps folded. *)
Ltac simp_result := cbn [mbind result_bind try_except].

(** ** Comparisons on rationals *)

Lemma Qlt_bool_true x y : Qlt_bool x y = true <-> x < y.
Proof.
  unfold Qlt_bool. rewrite negb_true_iff.
  destruct (Qle_bool y x) eqn:E.
  - apply Qle_bool_iff in E. split; [discriminate | lra].
  - split; [|reflexivity]. intros _. apply Qnot_le_lt. intros H.
    apply Qle_bool_iff in H. congruence.
Qed.

Lemma Qlt_bool_false x y : Qlt_bool x y = false <-> y <= x.
Proof.
  destruct (Qlt_bool x y) eqn:E.
  - apply Qlt_bool_true in E. split; [discriminate | lra].
  - split; [|reflexivity]. intros _. apply Qnot_lt_le. intros H.
    apply Qlt_bool_true in H. congruence.
Qed.

Lemma Qeq_bool_false x y : Qeq_bool x y = false <-> ~ x == y.
Proof.
  split.
  - intros E H. apply Qeq_bool_iff in H. congruence.
  - intros H. destruct (Qeq_bool x y) eqn:E; [|reflexivity].
    apply Qeq_bool_iff in E. contradiction.
Qed.

(** ** C5: the unit validator *)

(** The validator accepts exactly the units equivalent to one of the five
    spectral units. *)
Lemma check_valid_unit_spec (un : Unit) :
  check_valid_unit un = OK () <->
  exists x, In x valid_spectral_units /\ is_equivalent un x = true.
Proof.
  unfold check_valid_unit. rewrite <- existsb_exists.
  destruct (existsb _ _); simpl; split; auto; discriminate.
Qed.

Lemma check_valid_unit_raises (un : Unit) :
  check_valid_unit un <> OK () ->
  check_valid_unit un =
    Raise (Exn ValueError "Unit is not recognized as a valid spectral unit").
Proof.
  unfold check_valid_unit. destruct (existsb _ _); simpl; [|reflexivity].
  intros H. now contradiction H.
Qed.

(** The linear transform validates the unit it resolves, whether it comes
    from the [unit] argument or from [dispersion0] itself. *)
Lemma linear_init_validates d0 dd pi un w :
  Spectrum1DLinearWCS.__init__ d0 dd pi un = OK w ->
  check_valid_unit (Spectrum1DLinearWCS.unit_ w) = OK ().
Proof.
  unfold Spectrum1DLinearWCS.__init__. intros H.
  inv_bind H. inv_bind H. inv_bind H. inv_bind H.
  injection H as <-. cbn.
  destruct a1. destruct un as [un|]; [|exact Ha1].
  destruct d0 as [v|q]; cbn in Ha.
  - injection Ha as <-. exact Ha1.
  - destruct (is_equivalent (unit q) un); [|discriminate].
    injection Ha as <-. exact Ha1.
Qed.

(** The lookup transform validates an explicit [unit] argument. *)
Lemma lookup_init_validates_argument table ua kind w :
  Spectrum1DLookupWCS.__init__ table (Some ua) kind = OK w ->
  exists un, Unit_new (Some ua) = OK un /\ check_valid_unit un = OK ().
Proof.
  unfold Spectrum1DLookupWCS.__init__. intros H.
  inv_bind H. inv_bind Ha. inv_bind Ha.
  apply try_except_OK_inv in Ha0 as [Ha0|Ha0]; [|discriminate].
  destruct a1. eauto.
Qed.

(** C5. The lookup transform does not validate the unit that a Quantity
    table brings with it: a table in kilograms, with no [unit] argument, is
    accepted, although the validator rejects kilograms. *)
Theorem lookup_init_skips_table_unit :
  check_valid_unit u.kg =
    Raise (Exn ValueError "Unit is not recognized as a valid spectral unit") /\
  exists w,
    Spectrum1DLookupWCS.__init__ (QtyTable (mkQuantity [1; 2; 3] u.kg)) None "linear" = OK w /\
    Spectrum1DLookupWCS.unit_ w = u.kg.
Proof. split; [reflexivity|]. eexists. split; reflexivity. Qed.

(** The sibling constructor rejects the same unit. *)
Lemma linear_init_rejects_kg :
  Spectrum1DLinearWCS.__init__ (Qty (mkQuantity 1 u.kg)) (Qty (mkQuantity 1 u.kg)) 0 None =
    Raise (Exn ValueError "Unit is not recognized as a valid spectral unit").
Proof. reflexivity. Qed.

(** ** C1: the linear transform *)

(** A unit that the validator accepts is not dimensionless. *)
Lemma valid_unit_not_dimensionless un :
  check_valid_unit un = OK () -> is_dimensionless un = false.
Proof.
  intros H. apply check_valid_unit_spec in H as (x & Hin & Heq).
  destruct un as [sc a b c d e].
  unfold is_dimensionless, is_equivalent in *. cbn in Hin, Heq |- *.
  destruct Hin as [<-|[<-|[<-|[<-|[<-|[]]]]]]; cbn in Heq;
    repeat (apply andb_true_iff in Heq as [Heq ?]);
    repeat match goal with H : (_ =? _)%Z = true |- _ => apply Z.eqb_eq in H end;
    subst; reflexivity.
Qed.

(** [invert] on a Quantity whose unit is not dimensionless never returns:
    the subtraction of the bare [dispersion0] raises, or, when
    [dispersion0] is zero, [float] does. *)
Lemma linear_invert_dimensional w q :
  is_dimensionless (unit q) = false ->
  exists e, Spectrum1DLinearWCS.invert w (Qty q) = Raise e /\
            (exn_cls e = UnitConversionError \/ exn_cls e = TypeError).
Proof.
  intros Hq. unfold Spectrum1DLinearWCS.invert, Quantity_sub_bare. rewrite Hq.
  destruct (Qeq_bool (Spectrum1DLinearWCS.dispersion0 w) 0); simp_result.
  - unfold Quantity_float, Quantity_div_bare. cbn [unit]. rewrite Hq. simp_result.
    eexists. split; [reflexivity|]. now right.
  - eexists. split; [reflexivity|]. now left.
Qed.

(** C1. The round trip through the linear transform does not go through.
    For every transform that the constructor returns and every pixel [p],
    [invert] applied to the quantity that [__call__] returns at [p] raises
    (a UnitConversionError from the subtraction of the bare parameter, or
    a TypeError from [float] when [dispersion0] is zero): the unit of a
    transform is a valid spectral unit, hence never dimensionless, and
    [invert] strips no unit before it subtracts. *)
Theorem linear_invert_call_raises d0 dd pi un w p :
  Spectrum1DLinearWCS.__init__ d0 dd pi un = OK w ->
  exists e,
    Spectrum1DLinearWCS.invert w (Qty (Spectrum1DLinearWCS.__call__ w p)) = Raise e /\
    (exn_cls e = UnitConversionError \/ exn_cls e = TypeError).
Proof.
  intros Hinit. apply linear_invert_dimensional.
  apply valid_unit_not_dimensionless.
  exact (linear_init_validates _ _ _ _ _ Hinit).
Qed.

(** Scenario B: [dispersion0 = 4000 AA], [dispersion_delta = 2 AA],
    [pixel_index = 0]. The value at pixel 500 is 5000 Angstrom, and
    [invert] of that quantity raises. *)
Lemma linear_invert_call_raises_witness :
  exists w e,
    Spectrum1DLinearWCS.__init__ (Qty (mkQuantity 4000 u.AA)) (Qty (mkQuantity 2 u.AA)) 0 None = OK w /\
    Spectrum1DLinearWCS.__call__ w 500 = mkQuantity (4000 + 2 * (500 - 0)) u.AA /\
    Spectrum1DLinearWCS.invert w (Qty (Spectrum1DLinearWCS.__call__ w 500)) = Raise e /\
    exn_cls e = UnitConversionError.
Proof.
  exists (Spectrum1DLinearWCS.mk u.AA 4000 2 0).
  destruct (linear_invert_call_raises (Qty (mkQuantity 4000 u.AA)) (Qty (mkQuantity 2 u.AA))
              0 None (Spectrum1DLinearWCS.mk u.AA 4000 2 0) 500 eq_refl) as (e & He & _).
  exists e. split; [reflexivity|]. split; [reflexivity|]. split; [exact He|].
  vm_compute in He. injection He as <-. reflexivity.
Defined.

(** ** C6: duplicate values in a lookup table *)

Lemma insert_unique_InA x y l :
  InA Qeq y (insert_unique x l) <-> y == x \/ InA Qeq y l.
Proof.
  induction l as [|z l IH]; simpl.
  - rewrite InA_cons, InA_nil. tauto.
  - destruct (x ?= z) eqn:E.
    + apply Qeq_alt in E. rewrite InA_cons. split; [tauto|].
      intros [H|H]; [left; lra | assumption].
    + rewrite !InA_cons. tauto.
    + rewrite !InA_cons, IH. tauto.
Qed.

Lemma insert_unique_sorted x l :
  StronglySorted Qlt l -> StronglySorted Qlt (insert_unique x l).
Proof.
  induction 1 as [|z l Hs IH Hall]; simpl.
  - repeat constructor.
  - destruct (x ?= z) eqn:E.
    + now constructor.
    + apply Qlt_alt in E. constructor; [now constructor|].
      constructor; [exact E|].
      eapply Forall_impl; [exact Hall|]. intros a Ha. cbv beta in *. lra.
    + apply Qgt_alt in E. constructor; [exact IH|].
      apply Forall_forall. intros a Ha.
      assert (Hin : InA Qeq a (insert_unique x l)).
      { apply InA_alt. exists a. split; [reflexivity|].
        now apply list_elem_of_In. }
      apply insert_unique_InA in Hin as [Hin|Hin]; [lra|].
      apply InA_alt in Hin as (b & Hab & Hb).
      rewrite Forall_forall in Hall. apply list_elem_of_In in Hb.
      specialize (Hall b Hb). cbv beta in Hall. lra.
Qed.

Lemma insert_unique_length_in x l :
  StronglySorted Qlt l -> InA Qeq x l ->
  length (insert_unique x l) = length l.
Proof.
  induction 1 as [|z l Hs IH Hall]; simpl; intros Hin.
  - inversion Hin.
  - destruct (x ?= z) eqn:E; [reflexivity| |].
    + apply Qlt_alt in E. exfalso.
      apply InA_cons in Hin as [Hin|Hin]; [lra|].
      apply InA_alt in Hin as (b & Hab & Hb).
      rewrite Forall_forall in Hall. apply list_elem_of_In in Hb.
      specialize (Hall b Hb). cbv beta in Hall. lra.
    + apply Qgt_alt in E. simpl. f_equal. apply IH.
      apply InA_cons in Hin as [Hin|Hin]; [lra|assumption].
Qed.

Lemma insert_unique_length_notin x l :
  ~ InA Qeq x l -> length (insert_unique x l) = S (length l).
Proof.
  induction l as [|z l IH]; simpl; intros Hin; [reflexivity|].
  destruct (x ?= z) eqn:E.
  - apply Qeq_alt in E. contradiction Hin. now constructor.
  - reflexivity.
  - simpl. f_equal. apply IH. intros H. apply Hin. now constructor 2.
Qed.

Lemma np_unique_sorted l : StronglySorted Qlt (np_unique l).
Proof.
  induction l; simpl; [constructor | now apply insert_unique_sorted].
Qed.

Lemma np_unique_InA y l : InA Qeq y (np_unique l) <-> InA Qeq y l.
Proof.
  induction l as [|x l IH]; simpl; [reflexivity|].
  rewrite insert_unique_InA, InA_cons, IH. reflexivity.
Qed.

Lemma np_unique_length_le l : (length (np_unique l) <= length l)%nat.
Proof.
  induction l as [|x l IH]; simpl; [lia|].
  destruct (InA_dec Qeq_dec x (np_unique l)) as [H|H].
  - rewrite insert_unique_length_in; [lia | apply np_unique_sorted | exact H].
  - rewrite insert_unique_length_notin; [lia | exact H].
Qed.

(** [len(values) == len(np.unique(values))] holds exactly when no two
    entries of [values] are equal. *)
Lemma np_unique_length_NoDup l :
  length (np_unique l) = length l <-> NoDupA Qeq l.
Proof.
  induction l as [|x l IH]; simpl.
  - split; [constructor | reflexivity].
  - pose proof (np_unique_length_le l) as Hle.
    destruct (InA_dec Qeq_dec x (np_unique l)) as [H|H].
    + rewrite insert_unique_length_in; [| apply np_unique_sorted | exact H].
      split; [lia|]. intros Hn. inversion Hn as [|? ? Hx Hl]; subst.
      apply (proj1 (np_unique_InA _ _)) in H. exfalso. exact (Hx H).
    + rewrite insert_unique_length_notin by exact H.
      split.
      * intros Hlen. constructor; [now rewrite <- np_unique_InA|].
        apply IH. lia.
      * intros Hn. inversion Hn as [|? ? Hx Hl]; subst.
        f_equal. now apply IH.
Qed.

Lemma imul_unit_values table un :
  value (Spectrum1DLookupWCS.imul_unit table un) = table_values table.
Proof. now destruct table. Qed.

(** What a successful lookup construction stores. *)
Lemma lookup_init_OK_inv table unit_ kind w :
  Spectrum1DLookupWCS.__init__ table unit_ kind = OK w ->
  value (Spectrum1DLookupWCS.lookup_table_parameter w) = table_values table /\
  Spectrum1DLookupWCS.lookup_table_interpolation_kind w = kind /\
  Spectrum1DLookupWCS.pixel_index w = np_arange (length (table_values table)) /\
  length (np_unique (table_values table)) = length (table_values table).
Proof.
  unfold Spectrum1DLookupWCS.__init__. intros H. inv_bind H.
  assert (Hv : value a = table_values table).
  { destruct unit_ as [ua|].
    - inv_bind Ha. inv_bind Ha. injection Ha as <-. apply imul_unit_values.
    - destruct table; [discriminate|]. now injection Ha as <-. }
  rewrite Hv in H.
  destruct (length (table_values table) =? length (np_unique (table_values table)))%nat eqn:E;
    [|discriminate].
  apply Nat.eqb_eq in E. injection H as <-. cbn. auto.
Qed.

(** C6. A lookup table with two equal values is never accepted, and once
    the unit phase has gone through the constructor fails with
    Spectrum1DWCSError, the non-bijectivity error; a successful
    construction therefore has pairwise distinct values. *)
Theorem lookup_init_duplicates table unit_ kind :
  (~ NoDupA Qeq (table_values table) ->
     is_OK (Spectrum1DLookupWCS.__init__ table unit_ kind) = false /\
     (lookup_unit_resolves table unit_ ->
      Spectrum1DLookupWCS.__init__ table unit_ kind =
        Raise (Exn Spectrum1DWCSError
                 "The Lookup Table does not describe a unique transformation"))) /\
  (forall w, Spectrum1DLookupWCS.__init__ table unit_ kind = OK w ->
     NoDupA Qeq (table_values table)).
Proof.
  assert (Hok : forall w, Spectrum1DLookupWCS.__init__ table unit_ kind = OK w ->
                          NoDupA Qeq (table_values table)).
  { intros w H. apply lookup_init_OK_inv in H as (_ & _ & _ & H).
    now apply np_unique_length_NoDup. }
  split; [|exact Hok]. intros Hdup. split.
  - destruct (Spectrum1DLookupWCS.__init__ table unit_ kind) as [w|e] eqn:E;
      [|reflexivity].
    contradiction Hdup. eauto.
  - intros Hres.
    assert (Hne : (length (table_values table) =? length (np_unique (table_values table)))%nat = false).
    { apply Nat.eqb_neq. intros Hlen. apply Hdup.
      now apply np_unique_length_NoDup. }
    unfold Spectrum1DLookupWCS.__init__, lookup_unit_resolves in *.
    destruct unit_ as [ua|].
    + destruct Hres as (un & Hun & Hv). rewrite Hun. simp_result.
      rewrite Hv. simp_result. rewrite imul_unit_values, Hne. reflexivity.
    + destruct table as [vs|q]; [contradiction|]. simp_result.
      cbn [table_values] in Hne. rewrite Hne. reflexivity.
Qed.

(** The table [1, 2, 2] nm: rejected as not unique. *)
Lemma lookup_init_duplicates_witness :
  is_OK (Spectrum1DLookupWCS.__init__ (BareTable [1; 2; 2]) (Some (UnitStr "nm")) "linear") = false /\
  Spectrum1DLookupWCS.__init__ (BareTable [1; 2; 2]) (Some (UnitStr "nm")) "linear" =
    Raise (Exn Spectrum1DWCSError
             "The Lookup Table does not describe a unique transformation").
Proof.
  assert (Hdup : ~ NoDupA Qeq (table_values (BareTable [1; 2; 2]))).
  { cbn. intros H. inversion H as [|? ? _ H1]; subst.
    inversion H1 as [|? ? H2 _]; subst. apply H2. now constructor. }
  destruct (lookup_init_duplicates (BareTable [1; 2; 2]) (Some (UnitStr "nm")) "linear")
    as [H _].
  destruct (H Hdup) as [H1 H2]. split; [exact H1|].
  apply H2. cbn. eexists. split; reflexivity.
Defined.

(** The distinct table [1, 2, 4] nm is accepted. *)
Lemma lookup_init_distinct_accepted :
  is_OK (Spectrum1DLookupWCS.__init__ (BareTable [1; 2; 4]) (Some (UnitStr "nm")) "linear") = true.
Proof. reflexivity. Qed.

(** ** C7: a linear transform from FITS keywords *)

Lemma header_getitem_None header key :
  header !! key = None -> header_getitem header key = Raise (Exn KeyError key).
Proof. unfold header_getitem. now intros ->. Qed.

Lemma header_getitem_cases header key :
  (exists v, header_getitem header key = OK v) \/
  header_getitem header key = Raise (Exn KeyError key).
Proof. unfold header_getitem. destruct (header !! key); eauto. Qed.

Lemma header_getitem_Some header key v :
  header !! key = Some v -> header_getitem header key = OK v.
Proof. unfold header_getitem. now intros ->. Qed.

(** The transform read from a header with a valid unit and numeric
    keywords. *)
Lemma from_fits_header_numeric header unit_ n un crval crpix cdelt :
  (unit_ = Some un \/
   (unit_ = None /\
    exists v, header !! ("CUNIT" +:+ fmt_i n) = Some v /\
              Unit_new (Some (hval_unit_arg v)) = OK un)) ->
  check_valid_unit un = OK () ->
  header !! ("CRVAL" +:+ fmt_i n) = Some (HNum crval) ->
  header !! ("CRPIX" +:+ fmt_i n) = Some (HNum crpix) ->
  (header !! ("CDELT" +:+ fmt_i n) = Some (HNum cdelt) \/
   (header !! ("CDELT" +:+ fmt_i n) = None /\
    header !! ("CD" +:+ fmt_i n +:+ "_" +:+ fmt_i n) = Some (HNum cdelt))) ->
  Spectrum1DLinearWCS.from_fits_header header unit_ n =
    OK (Spectrum1DLinearWCS.mk un crval cdelt (crpix - 1)).
Proof.
  intros Hunit Hvalid Hcrval Hcrpix Hdelta.
  unfold Spectrum1DLinearWCS.from_fits_header.
  assert (Hphase : match unit_ with
                   | Some un0 => OK un0
                   | None =>
                       try_except
                         (Unit_new (hval_unit_arg <$> header !! ("CUNIT" +:+ fmt_i n)))
                         [UnitsError; TypeError]
                         (Raise (Exn Spectrum1DWCSUnitError
                            "No units were specified and CUNIT did not contain unit information."))
                   end = OK un).
  { destruct Hunit as [-> | (-> & v & Hv & Hun)]; [reflexivity|].
    rewrite Hv. cbn [fmap option_fmap option_map]. now rewrite Hun. }
  rewrite Hphase. simp_result.
  assert (Hd : try_except (header_getitem header ("CDELT" +:+ fmt_i n)) [KeyError]
                 (try_except
                    (header_getitem header ("CD" +:+ fmt_i n +:+ "_" +:+ fmt_i n)) [KeyError]
                    (Raise (Exn Spectrum1DWCSFITSError
                       "Necessary keywords (CDELT or CD) missing - can not reconstruct WCS")))
               = OK (HNum cdelt)).
  { destruct Hdelta as [H | [H1 H2]].
    - now rewrite (header_getitem_Some _ _ _ H).
    - rewrite (header_getitem_None _ _ H1), (header_getitem_Some _ _ _ H2). reflexivity. }
  rewrite Hd. simp_result.
  rewrite (header_getitem_Some _ _ _ Hcrpix), (header_getitem_Some _ _ _ Hcrval).
  simp_result. cbn [hval_number]. simp_result.
  unfold Spectrum1DLinearWCS.__init__. cbn [Quantity_new]. simp_result.
  cbn [unit]. rewrite Hvalid. reflexivity.
Qed.

(** C7. The four keywords CRVAL1, CRPIX1, CDELT1 and CUNIT1 = "Angstrom"
    give the transform with the zero-based reference pixel [CRPIX1 - 1]
    whose value at pixel [p] is
    [CRVAL1 + CDELT1 * (p - (CRPIX1 - 1))] Angstrom; for scenario E the
    reference pixel is 0 and the value at pixel 0 is 5000 Angstrom. A
    header without the delta keyword, or without CRPIX or CRVAL, never
    gives a transform: when a unit is available the failure is a
    Spectrum1DWCSFITSError, and when neither a unit nor CUNIT is given it
    is the Spectrum1DWCSUnitError raised before the keywords are read. *)
Theorem from_fits_header_keywords :
  (forall crval crpix cdelt p,
     exists w,
       Spectrum1DLinearWCS.from_fits_header
         (fits_keywords crval crpix cdelt "Angstrom") None 1 = OK w /\
       Spectrum1DLinearWCS.pixel_index w = crpix - 1 /\
       Spectrum1DLinearWCS.__call__ w p =
         mkQuantity (crval + cdelt * (p - (crpix - 1))) u.AA) /\
  (exists w,
     Spectrum1DLinearWCS.from_fits_header scenario_E_header None 1 = OK w /\
     Spectrum1DLinearWCS.pixel_index w == 0 /\
     value (Spectrum1DLinearWCS.__call__ w 0) == 5000 /\
     unit (Spectrum1DLinearWCS.__call__ w 0) = u.AA) /\
  (forall header unit_ n,
     keywords_missing header n ->
     exists e,
       Spectrum1DLinearWCS.from_fits_header header unit_ n = Raise e /\
       (header_unit_resolves header unit_ n ->
        exn_cls e = Spectrum1DWCSFITSError) /\
       (unit_ = None -> header !! ("CUNIT" +:+ fmt_i n) = None ->
        exn_cls e = Spectrum1DWCSUnitError)).
Proof.
  split; [|split].
  { intros crval crpix cdelt p.
    exists (Spectrum1DLinearWCS.mk u.AA crval cdelt (crpix - 1)).
    split; [|split; reflexivity].
    apply from_fits_header_numeric; try reflexivity.
    - right. split; [reflexivity|]. exists (HStr "Angstrom"). split; reflexivity.
    - left. reflexivity. }
  { eexists. split; [vm_compute; reflexivity|]. repeat split. }
  intros header unit_ n Hmiss.
  unfold Spectrum1DLinearWCS.from_fits_header.
  set (unit_phase := match unit_ with Some un => OK un | None => _ end).
  assert (Hphase :
    (exists e, unit_phase = Raise e /\ ~ header_unit_resolves header unit_ n /\
               (header !! ("CUNIT" +:+ fmt_i n) = None ->
                exn_cls e = Spectrum1DWCSUnitError)) \/
    (exists un, unit_phase = OK un /\
                (unit_ = None -> header !! ("CUNIT" +:+ fmt_i n) <> None))).
  { subst unit_phase. destruct unit_ as [un|]; [right; eexists; split; [eauto|discriminate]|].
    unfold header_unit_resolves.
    destruct (header !! ("CUNIT" +:+ fmt_i n)) as [v|] eqn:Ev.
    - cbn [fmap option_fmap option_map].
      destruct (Unit_new (Some (hval_unit_arg v))) as [un|e] eqn:Eu.
      + right. eexists. split; [reflexivity|]. discriminate.
      + left. unfold try_except.
        destruct (existsb _ _); eexists; (split; [reflexivity|]);
          (split; [intros (v' & un & [= <-] & Hun); congruence | discriminate]).
    - left. eexists. split; [reflexivity|]. split; [|reflexivity].
      intros (v' & un & Hv & _). discriminate. }
  destruct Hphase as [(e & -> & Hno & Hcls)|(un & -> & Hcunit)]; simp_result.
  { exists e. split; [reflexivity|]. split; [intros H; contradiction | auto]. }
  assert (Hfits : forall msg,
    exists e, @Raise Spectrum1DLinearWCS.t (Exn Spectrum1DWCSFITSError msg) = Raise e /\
      (header_unit_resolves header unit_ n -> exn_cls e = Spectrum1DWCSFITSError) /\
      (unit_ = None -> header !! ("CUNIT" +:+ fmt_i n) = None ->
       exn_cls e = Spectrum1DWCSUnitError)).
  { intros msg. eexists. split; [reflexivity|]. split; [reflexivity|].
    intros Hu Hc. destruct (Hcunit Hu Hc). }
  destruct Hmiss as [[Hcdelt Hcd]|Hmiss].
  { rewrite (header_getitem_None _ _ Hcdelt), (header_getitem_None _ _ Hcd).
    cbn. apply Hfits. }
  set (delta_phase := try_except (header_getitem header ("CDELT" +:+ fmt_i n)) _ _).
  assert (Hdelta : (exists v, delta_phase = OK v) \/
                   delta_phase = Raise (Exn Spectrum1DWCSFITSError
                     "Necessary keywords (CDELT or CD) missing - can not reconstruct WCS")).
  { subst delta_phase.
    destruct (header_getitem_cases header ("CDELT" +:+ fmt_i n)) as [(v & ->)| ->];
      [cbn; eauto|].
    destruct (header_getitem_cases header ("CD" +:+ fmt_i n +:+ "_" +:+ fmt_i n))
      as [(v & ->)| ->]; cbn; eauto. }
  destruct Hdelta as [(cdelt & ->)| ->]; simp_result; [|apply Hfits].
  destruct Hmiss as [Hcrpix|Hcrval].
  - rewrite (header_getitem_None _ _ Hcrpix). cbn. apply Hfits.
  - rewrite (header_getitem_None _ _ Hcrval).
    destruct (header_getitem_cases header ("CRPIX" +:+ fmt_i n)) as [(v & ->)| ->];
      cbn; apply Hfits.
Qed.

(** The keywords of scenario E with CRPIX1 = 3 in place of 1, read at
    pixel 4; and scenario E without its CDELT1 keyword. *)
Lemma from_fits_header_keywords_witness :
  (exists w,
     Spectrum1DLinearWCS.from_fits_header
       (fits_keywords 5000 3 (3 # 2) "Angstrom") None 1 = OK w /\
     Spectrum1DLinearWCS.pixel_index w = 3 - 1 /\
     Spectrum1DLinearWCS.__call__ w 4 =
       mkQuantity (5000 + (3 # 2) * (4 - (3 - 1))) u.AA) /\
  (exists e,
     Spectrum1DLinearWCS.from_fits_header (delete "CDELT1" scenario_E_header) None 1 = Raise e /\
     exn_cls e = Spectrum1DWCSFITSError).
Proof.
  destruct from_fits_header_keywords as (Hgen & _ & H).
  split; [exact (Hgen 5000 3 (3 # 2) 4)|].
  destruct (H (delete "CDELT1" scenario_E_header) None 1%nat) as (e & He & Hcls & _).
  { left. split; reflexivity. }
  exists e. split; [exact He|]. apply Hcls.
  exists (HStr "Angstrom"), u.AA. split; reflexivity.
Defined.

(** C7, as stated, fails on a header that lacks the unit as well: the
    empty header has no delta keyword, yet the error is the missing-unit
    error raised first, which is not a Spectrum1DWCSFITSError. *)
Lemma from_fits_header_unit_first :
  keywords_missing ∅ 1 /\
  Spectrum1DLinearWCS.from_fits_header ∅ None 1 =
    Raise (Exn Spectrum1DWCSUnitError
             "No units were specified and CUNIT did not contain unit information.") /\
  issubclass Spectrum1DWCSUnitError Spectrum1DWCSFITSError = false.
Proof. split; [left; split; reflexivity | split; reflexivity]. Qed.

(** ** C2: the lookup transform *)

Lemma increasing_hd_le_last l x d :
  increasing (x :: l) -> x <= List.last (x :: l) d.
Proof.
  revert x. induction l as [|y l IH]; intros x H.
  - cbn. lra.
  - destruct H as [Hxy H]. specialize (IH y H).
    change (List.last (x :: y :: l) d) with (List.last (y :: l) d). lra.
Qed.

Lemma last_cons_cons {A} (x y : A) l d :
  List.last (x :: y :: l) d = List.last (y :: l) d.
Proof. reflexivity. Qed.

Lemma last_default_irrelevant {A} (x : A) l d d' :
  List.last (x :: l) d = List.last (x :: l) d'.
Proof.
  revert x. induction l as [|y l IH]; intros x; [reflexivity|].
  rewrite !last_cons_cons. apply IH.
Qed.

(** On one chord with positive slopes both ways, the value stays inside
    the segment and the inverse chord undoes it. *)
Lemma chord_between x0 x1 y0 y1 x :
  x0 < x1 -> y0 < y1 -> x0 < x -> x < x1 ->
  y0 < (y1 - y0) / (x1 - x0) * (x - x0) + y0 /\
  (y1 - y0) / (x1 - x0) * (x - x0) + y0 < y1.
Proof.
  intros Hx Hy H0 H1.
  set (s := (y1 - y0) / (x1 - x0)).
  assert (Hs : s * (x1 - x0) == y1 - y0) by (subst s; field; lra).
  assert (Hpos : 0 < s).
  { subst s. apply Qlt_shift_div_l; lra. }
  split; nra.
Qed.

Lemma chord_inverse x0 x1 y0 y1 x :
  x0 < x1 -> y0 < y1 ->
  (x1 - x0) / (y1 - y0) * ((y1 - y0) / (x1 - x0) * (x - x0) + y0 - y0) + x0 == x.
Proof. intros Hx Hy. field. split; lra. Qed.

(** The interval search on increasing samples, followed by the search with
    samples and values exchanged, returns the point it started from. *)
Lemma interp_search_roundtrip xp : forall fp x dx dy,
  length xp = length fp -> increasing xp -> increasing fp ->
  List.hd dx xp <= x -> x <= List.last xp dx -> xp <> [] ->
  exists y, interp_search x xp fp = Fin y /\
            List.hd dy fp <= y /\ y <= List.last fp dy /\
            exists x', interp_search y fp xp = Fin x' /\ x' == x.
Proof.
  induction xp as [|x0 xp IH]; intros fp x dx dy Hlen Hix Hif Hlo Hhi Hne;
    [congruence|].
  destruct fp as [|y0 fp]; [discriminate|].
  destruct xp as [|x1 xp]; destruct fp as [|y1 fp]; try discriminate.
  - cbn in *. exists y0. repeat split; try lra.
    exists x0. split; [reflexivity | lra].
  - destruct Hix as [Hx01 Hix]. destruct Hif as [Hy01 Hif].
    rewrite last_cons_cons in Hhi. cbn [List.hd] in Hlo.
    cbn [interp_search].
    destruct (Qlt_bool x x1) eqn:E1.
    + apply Qlt_bool_true in E1.
      assert (Hy1last : y1 <= List.last (y0 :: y1 :: fp) dy).
      { rewrite last_cons_cons. now apply increasing_hd_le_last. }
      destruct (Qeq_bool x0 x) eqn:E0.
      * apply Qeq_bool_iff in E0. exists y0. cbn [List.hd].
        repeat split; try lra.
        exists x0. split; [|lra].
        cbn [interp_search].
        assert (Qlt_bool y0 y1 = true) as -> by now apply Qlt_bool_true.
        assert (Qeq_bool y0 y0 = true) as -> by now apply Qeq_bool_iff.
        reflexivity.
      * apply Qeq_bool_false in E0.
        destruct (chord_between x0 x1 y0 y1 x) as [Hb0 Hb1]; try lra.
        eexists. split; [reflexivity|]. cbn [List.hd].
        repeat split; try lra.
        eexists. split.
        -- cbn [interp_search].
           match goal with |- context [Qlt_bool ?a y1] =>
             assert (Qlt_bool a y1 = true) as -> by now apply Qlt_bool_true end.
           match goal with |- context [Qeq_bool y0 ?a] =>
             assert (Qeq_bool y0 a = false) as -> by (apply Qeq_bool_false; lra) end.
           reflexivity.
        -- now apply chord_inverse.
    + apply Qlt_bool_false in E1.
      destruct (IH (y1 :: fp) x x1 y1) as (y & Hy & Hylo & Hyhi & x' & Hx' & Hxx');
        try assumption; try discriminate.
      * cbn in Hlen |- *. lia.
      * rewrite (last_default_irrelevant x1 xp x1 dx). exact Hhi.
      * cbn [List.hd] in Hylo.
        exists y. split; [exact Hy|]. cbn [List.hd]. split; [lra|].
        split; [rewrite last_cons_cons, (last_default_irrelevant y1 fp dy y1); exact Hyhi|].
        exists x'. split; [|exact Hxx'].
        change (interp_search y (y0 :: y1 :: fp) (x0 :: x1 :: xp))
          with (if Qlt_bool y y1
                then if Qeq_bool y0 y then Fin x0
                     else Fin ((x1 - x0) / (y1 - y0) * (y - y0) + x0)
                else interp_search y (y1 :: fp) (x1 :: xp)).
        assert (Qlt_bool y y1 = false) as -> by now apply Qlt_bool_false.
        exact Hx'.
Qed.

Lemma np_arange_length n : length (np_arange n) = n.
Proof. unfold np_arange. now rewrite length_map, length_seq. Qed.

Lemma seq_increasing n : forall a,
  increasing (map (fun i => inject_Z (Z.of_nat i)) (seq a n)).
Proof.
  induction n as [|n IH]; intros a; [exact I|].
  destruct n as [|n]; [exact I|].
  specialize (IH (S a)). cbn [seq map increasing] in *. split; [|exact IH].
  rewrite <- Zlt_Qlt. lia.
Qed.

Lemma np_arange_increasing n : increasing (np_arange n).
Proof. apply seq_increasing. Qed.

Lemma seq_last n : forall a d,
  List.last (map (fun i => inject_Z (Z.of_nat i)) (seq a (S n))) d
  = inject_Z (Z.of_nat (a + n)).
Proof.
  induction n as [|n IH]; intros a d.
  - cbn. now rewrite Nat.add_0_r.
  - specialize (IH (S a) d). cbn [seq map] in *.
    rewrite last_cons_cons, IH. do 2 f_equal. lia.
Qed.

Lemma np_interp_inside xp fp x l r d :
  xp <> [] -> length xp = length fp ->
  List.hd d xp <= x -> x <= List.last xp d ->
  np_interp (Fin x) xp fp l r = OK (interp_search x xp fp).
Proof.
  intros Hne Hlen Hlo Hhi. unfold np_interp.
  destruct xp as [|x0 xp]; [congruence|].
  rewrite Hlen, Nat.eqb_refl. cbn [negb List.hd] in *.
  assert (Qlt_bool x x0 = false) as E0 by now apply Qlt_bool_false.
  destruct xp as [|x1 xp].
  - destruct fp as [|y0 [|y1 fp]]; try discriminate Hlen.
    cbn in Hhi. rewrite E0.
    assert (Qlt_bool x0 x = false) as -> by now apply Qlt_bool_false.
    reflexivity.
  - destruct fp as [|y0 fp]; [discriminate Hlen|].
    rewrite (last_default_irrelevant x0 (x1 :: xp) x0 d).
    assert (Qlt_bool (List.last (x0 :: x1 :: xp) d) x = false) as ->
      by now apply Qlt_bool_false.
    rewrite E0. reflexivity.
Qed.

Lemma np_interp_outside xp fp x d :
  xp <> [] -> length xp = length fp -> increasing xp ->
  x < List.hd d xp \/ List.last xp d < x ->
  np_interp (Fin x) xp fp NaN NaN = OK NaN.
Proof.
  intros Hne Hlen Hinc Hout. unfold np_interp.
  destruct xp as [|x0 xp]; [congruence|].
  rewrite Hlen, Nat.eqb_refl. cbn [negb List.hd] in *.
  destruct xp as [|x1 xp].
  - destruct fp as [|y0 [|y1 fp]]; try discriminate Hlen.
    cbn in Hout. destruct (Qlt_bool x x0) eqn:E; [reflexivity|].
    apply Qlt_bool_false in E.
    destruct Hout as [Hout|Hout]; [lra|].
    assert (Qlt_bool x0 x = true) as -> by now apply Qlt_bool_true.
    reflexivity.
  - destruct fp as [|y0 fp]; [discriminate Hlen|].
    rewrite (last_default_irrelevant x0 (x1 :: xp) x0 d).
    destruct (Qlt_bool (List.last (x0 :: x1 :: xp) d) x) eqn:E; [reflexivity|].
    apply Qlt_bool_false in E.
    destruct Hout as [Hout|Hout]; [|lra].
    assert (Qlt_bool x x0 = true) as -> by now apply Qlt_bool_true.
    reflexivity.
Qed.

Lemma np_arange_hd n d : (0 < n)%nat -> List.hd d (np_arange n) = 0.
Proof. destruct n; [lia|]. reflexivity. Qed.

Lemma np_arange_last n d :
  (0 < n)%nat -> List.last (np_arange n) d == inject_Z (Z.of_nat n) - 1.
Proof.
  destruct n as [|n]; [lia|]. intros _. unfold np_arange.
  rewrite seq_last. cbn [Nat.add].
  rewrite Nat2Z.inj_succ. unfold Z.succ. rewrite inject_Z_plus.
  change (inject_Z 1) with 1. lra.
Qed.

Lemma inject_succ (a : nat) :
  inject_Z (Z.of_nat (S a)) == inject_Z (Z.of_nat a) + 1.
Proof.
  rewrite Nat2Z.inj_succ. unfold Z.succ. rewrite inject_Z_plus. reflexivity.
Qed.

Lemma inject_nat_le (a b : nat) :
  (a <= b)%nat -> inject_Z (Z.of_nat a) <= inject_Z (Z.of_nat b).
Proof. intros H. rewrite <- Zle_Qle. lia. Qed.

(** At a pixel of the grid the search returns the sample itself. *)
Lemma interp_search_pixel fp : forall a i v,
  fp !! i = Some v ->
  interp_search (inject_Z (Z.of_nat (a + i)))
    (map (fun k => inject_Z (Z.of_nat k)) (seq a (length fp))) fp = Fin v.
Proof.
  induction fp as [|v0 fp IH]; intros a i v Hv; [discriminate|].
  destruct fp as [|v1 fp].
  - destruct i; [|discriminate]. cbn in Hv |- *. congruence.
  - change (seq a (length (v0 :: v1 :: fp)))
      with (a :: S a :: seq (S (S a)) (length fp)).
    cbn [map interp_search].
    pose proof (inject_succ a) as Ha.
    destruct i as [|i].
    + rewrite Nat.add_0_r. cbn in Hv. injection Hv as ->.
      assert (Qlt_bool (inject_Z (Z.of_nat a)) (inject_Z (Z.of_nat (S a))) = true) as ->
        by (apply Qlt_bool_true; lra).
      assert (Qeq_bool (inject_Z (Z.of_nat a)) (inject_Z (Z.of_nat a)) = true) as ->
        by now apply Qeq_bool_iff.
      reflexivity.
    + pose proof (inject_nat_le (S a) (a + S i) ltac:(lia)) as Hle.
      assert (Qlt_bool (inject_Z (Z.of_nat (a + S i))) (inject_Z (Z.of_nat (S a))) = false)
        as -> by (apply Qlt_bool_false; lra).
      replace (a + S i)%nat with (S a + i)%nat by lia.
      apply (IH (S a) i v). exact Hv.
Qed.






(** The two other conditions of the statement are needed as well: an empty
    table is accepted and then every evaluation raises, and an
    interpolation kind other than linear is only refused when the
    transform is evaluated. *)
Lemma lookup_call_empty_table :
  exists w,
    Spectrum1DLookupWCS.__init__ (BareTable []) (Some (UnitStr "nm")) "linear" = OK w /\
    Spectrum1DLookupWCS.__call__ w (Fin 0) =
      Raise (Exn ValueError "array of sample points is empty").
Proof. eexists. split; reflexivity. Qed.

Lemma lookup_call_other_kind :
  exists w,
    Spectrum1DLookupWCS.__init__ (BareTable [1; 2; 4]) (Some (UnitStr "nm")) "cubic" = OK w /\
    Spectrum1DLookupWCS.__call__ w (Fin 0) =
      Raise (Exn NotImplementedError "Interpolation type is not implemented") /\
    Spectrum1DLookupWCS.invert w (Fin 1) =
      Raise (Exn NotImplementedError "Interpolation type is not implemented").
Proof. eexists. repeat split. Qed.

(** ** C3: redshift and radial velocity *)

Lemma radial_velocity_setter_OK_inv self val self' :
  Spectrum1D.radial_velocity_setter self val = OK self' ->
  exists rv, self' = Spectrum1D.with_radial_velocity self rv /\
             match val with
             | PyNone => rv = None
             | PyQuantity v => rv = Some v
             | _ => False
             end.
Proof.
  unfold Spectrum1D.radial_velocity_setter. destruct val as [| | | |v]; try discriminate.
  - intros [= <-]. eauto.
  - destruct (negb _); [discriminate|]. intros H. inv_bind H.
    destruct (negb _); [discriminate|]. injection H as <-. eauto.
Qed.





(** ** C8: the shape test of the radial-velocity setter *)

(** A value whose unit is not a velocity is refused with UnitsError,
    whatever its shape. *)
Lemma radial_velocity_setter_unit self v :
  is_equivalent (unit v) u.km_per_s = false ->
  Spectrum1D.radial_velocity_setter self (PyQuantity v) =
    Raise (Exn UnitsError "radial_velocity must be a velocity").
Proof. intros H. unfold Spectrum1D.radial_velocity_setter. now rewrite H. Qed.

(** When the flux has at most two axes the test of the setter is numpy's
    rule on the leading shape. *)
Lemma shapes_compatible_leading_short input_shape flux_shape :
  (length flux_shape <= 1)%nat ->
  Spectrum1D.shapes_compatible input_shape flux_shape =
  broadcast_compatible input_shape flux_shape.
Proof.
  intros H. unfold Spectrum1D.shapes_compatible, broadcast_compatible.
  destruct flux_shape as [|n [|]]; [reflexivity | reflexivity | cbn in H; lia].
Qed.

(** C8. On a flux of shape (2, 3, 4) the setter refuses a velocity array of
    shape (2, 3), which is the leading shape itself, with the
    shape-mismatch ValueError, and accepts one of shape (2,), which numpy
    cannot broadcast against (2, 3). *)
Theorem radial_velocity_setter_shape_test :
  exists self,
    cube_spectrum = OK self /\
    Spectrum1D.shape_ self = OK [2; 3; 4]%nat /\
    broadcast_compatible [2; 3]%nat [2; 3]%nat = true /\
    Spectrum1D.radial_velocity_setter self
      (PyQuantity (mkQuantity (mkArray [2; 3]%nat (repeat 1 6)) u.km_per_s)) =
      Raise (Exn ValueError
        "radial_velocity or redshift must have shape that is compatible with this spectrum's flux array") /\
    broadcast_compatible [2]%nat [2; 3]%nat = false /\
    is_OK (Spectrum1D.radial_velocity_setter self
             (PyQuantity (mkQuantity (mkArray [2]%nat (repeat 1 2)) u.km_per_s))) = true.
Proof. eexists. repeat split. Qed.

(** ** C9: indexing a single spectrum *)

(** For an index inside [0, n) the slice [i : i+1] is the element at [i]. *)
Lemma py_slice_single {A} (l : list A) (i : nat) (x : A) :
  l !! i = Some x ->
  py_slice l (Some (Z.of_nat i)) (Some (Z.of_nat i + 1)%Z) = [x].
Proof.
  intros Hx. pose proof (lookup_lt_Some _ _ _ Hx) as Hlt.
  unfold py_slice, slice_blocks, slice_bound. cbn [snd].
  assert ((Z.of_nat i <? 0)%Z = false) as -> by lia.
  assert ((Z.of_nat i + 1 <? 0)%Z = false) as -> by lia.
  replace (Z.max 0 (Z.min (Z.of_nat (length l)) (Z.of_nat i))) with (Z.of_nat i) by lia.
  replace (Z.max 0 (Z.min (Z.of_nat (length l)) (Z.of_nat i + 1)))
    with (Z.of_nat i + 1)%Z by lia.
  replace (Z.to_nat (Z.of_nat i + 1 - Z.of_nat i)) with 1%nat by lia.
  rewrite Nat2Z.id, !Nat.mul_1_r.
  rewrite (drop_S l x i Hx). reflexivity.
Qed.

(** The index [-1] becomes the slice [-1 : 0], which is empty. *)
Lemma py_slice_minus_one {A} (l : list A) :
  py_slice l (Some (-1)%Z) (Some (-1 + 1)%Z) = [].
Proof.
  unfold py_slice, slice_blocks, slice_bound. cbn [snd].
  change (-1 + 1)%Z with 0%Z. cbn [Z.ltb Z.compare].
  replace (Z.to_nat _) with 0%nat by lia. reflexivity.
Qed.

(** C9. On the single spectrum [1, 2, 3] Jy the index 1 gives a spectrum
    holding the one flux value 2 over the one axis value 20, but the index
    -1, which designates the last flux value 3, gives a spectrum with no
    flux value and an empty spectral axis. *)
Theorem getitem_minus_one_is_empty :
  exists self at_1 at_minus_1 axis_1 axis_minus_1,
    single_spectrum = OK self /\
    Spectrum1D.__getitem__ self (Int 1) = OK at_1 /\
    Spectrum1D.nd_data at_1 = Some (mkArray [1%nat] [2]) /\
    Spectrum1D.spectral_axis at_1 = OK axis_1 /\
    value (sc_quantity axis_1) = mkArray [1%nat] [20] /\
    Quantity_getitem (quantity_1d [1; 2; 3] u.Jy) (Int (-1)) =
      OK (mkQuantity (mkArray [] [3]) u.Jy) /\
    Spectrum1D.__getitem__ self (Int (-1)) = OK at_minus_1 /\
    Spectrum1D.nd_data at_minus_1 = Some (mkArray [0%nat] []) /\
    Spectrum1D.spectral_axis at_minus_1 = OK axis_minus_1 /\
    value (sc_quantity axis_minus_1) = mkArray [0%nat] [].
Proof. do 5 eexists. repeat split. Qed.

(** ** C4 and C10: construction *)

Lemma spectral_axis_with_radial_velocity self rv :
  Spectrum1D.spectral_axis (Spectrum1D.with_radial_velocity self rv) =
  Spectrum1D.spectral_axis self.
Proof. reflexivity. Qed.

(** What a successful last phase leaves in the object. *)
Lemma finish_OK_inv flux_ wcs kw vc rest assigned self :
  Spectrum1D.finish flux_ wcs kw vc rest assigned = OK self ->
  Spectrum1D.nd_data self =
    Spectrum1D.nd_data (Spectrum1D.NDData_init
      (match flux_ with PyQuantity q => PyArray (value q) | _ => flux_ end)
      (Some wcs) kw) /\
  Spectrum1D.nd_wcs self = Some wcs /\
  Spectrum1D._spectral_axis self = assigned /\
  is_Some (Spectrum1D._radial_velocity self).
Proof.
  unfold Spectrum1D.finish. destruct (kw_data kw); [discriminate|].
  cbv zeta. intros H. inv_bind_as H sa Hsa. inv_bind_as H self0 Hset.
  apply radial_velocity_setter_OK_inv in Hset as (rv & -> & _).
  match type of H with
  | match ?u with _ => _ end = _ =>
      destruct u; [destruct (negb _); [discriminate|]|]
  end; injection H as <-; cbn; eauto.
Qed.

(** The two ways [__init__] returns an object built from an array-like
    [flux]: the minimal mode, or all the phases. *)
Lemma init_flux_OK_inv v sa wcs vc rest z rv kw self :
  Spectrum1D.__init__ (Spectrum1D.Flux v) sa wcs vc rest z rv kw = OK self ->
  exists v' eff kw',
    Spectrum1D.ensure_quantity v = OK v' /\
    Spectrum1D.grab_data v' kw = (eff, kw') /\
    ((Spectrum1D.ignores_wcs eff = true /\
      self = Spectrum1D.NDData_init eff wcs (Spectrum1D.setdefault_unit kw' eff)) \/
     (Spectrum1D.ignores_wcs eff = false /\
      exists assigned w rest',
        Spectrum1D.resolve_axis eff sa wcs vc rest z rv = OK (assigned, w) /\
        Spectrum1D.check_axis_length eff sa = OK () /\
        Spectrum1D.finish eff w (Spectrum1D.setdefault_unit kw' eff) vc rest' assigned
          = OK self)).
Proof.
  unfold Spectrum1D.__init__.
  destruct (negb (length (kw_unknown kw) =? 0)%nat); [discriminate|].
  intros H. inv_bind H. rename a into v'.
  destruct (negb (Spectrum1D.is_None z) && negb (Spectrum1D.is_None rv)); [discriminate|].
  destruct (Spectrum1D.grab_data v' kw) as [eff kw'] eqn:Eg.
  exists v', eff, kw'. split; [exact Ha|]. split; [exact Eg|].
  destruct (Spectrum1D.ignores_wcs eff).
  - left. split; [reflexivity|]. congruence.
  - right. split; [reflexivity|].
    inv_bind H. destruct a as [assigned w]. inv_bind H. destruct a. inv_bind H.
    eauto 10.
Qed.

Lemma init_quantity_OK_inv q sa wcs vc rest z rv kw self :
  Spectrum1D.__init__ (Spectrum1D.Flux (PyQuantity q)) sa wcs vc rest z rv kw = OK self ->
  exists assigned w rest',
    Spectrum1D.resolve_axis (PyQuantity (effective_flux q)) sa wcs vc rest z rv
      = OK (assigned, w) /\
    Spectrum1D.check_axis_length (PyQuantity (effective_flux q)) sa = OK () /\
    Spectrum1D.finish (PyQuantity (effective_flux q)) w
      (Spectrum1D.setdefault_unit kw (PyQuantity (effective_flux q))) vc rest' assigned
      = OK self.
Proof.
  intros H. apply init_flux_OK_inv in H as (v' & eff & kw' & Hq & Hg & H).
  assert (v' = PyQuantity (effective_flux q)) as ->.
  { unfold Spectrum1D.ensure_quantity, effective_flux in *.
    destruct (Spectrum1D.isscalar q); congruence. }
  cbn in Hg. injection Hg as <- <-.
  destruct H as [[H _]|[_ H]]; [discriminate H | exact H].
Qed.

Lemma SpectralCoord_new_quantity q z rv rest vc sc :
  SpectralCoord_new q z rv rest vc = OK sc -> sc_quantity sc = q.
Proof.
  unfold SpectralCoord_new. intros H. inv_bind H. now injection H as <-.
Qed.

(** With a spectral axis passed, the axis of the finished object is the
    one that was passed. *)
Lemma resolve_axis_given flux_ ax wcs vc rest z rv assigned w kw rest' self :
  Spectrum1D.resolve_axis flux_ (Some ax) wcs vc rest z rv = OK (assigned, w) ->
  Spectrum1D.finish flux_ w kw vc rest' assigned = OK self ->
  exists q sc, axis_quantity ax = Some q /\
               Spectrum1D.spectral_axis self = OK sc /\ sc_quantity sc = q.
Proof.
  intros Hr Hf. apply finish_OK_inv in Hf as (_ & Hw & Hsa & _).
  unfold Spectrum1D.spectral_axis. rewrite Hsa, Hw.
  destruct ax as [|q|sc]; cbn in Hr; [discriminate| |].
  - inv_bind Hr. injection Hr as <- <-.
    apply SpectralCoord_new_quantity in Ha. eauto.
  - injection Hr as <- <-. cbn. eauto.
Qed.

(** With a spectral axis that is a Quantity, the axis phase can only fail
    with a ValueError (UnitsError is one). *)
Lemma resolve_axis_raises flux_ ax a wcs vc rest z rv e :
  axis_quantity ax = Some a ->
  Spectrum1D.resolve_axis flux_ (Some ax) wcs vc rest z rv = Raise e ->
  issubclass (exn_cls e) ValueError = true.
Proof.
  intros Ha. destruct ax as [|q|sc]; [discriminate| |discriminate].
  cbn [Spectrum1D.resolve_axis]. unfold SpectralCoord_new.
  destruct rv as [| | | |v]; destruct z; simp_result; try discriminate;
    try (intros [= <-]; reflexivity);
    try (destruct (is_equivalent _ _); simp_result;
         [discriminate | intros [= <-]; reflexivity]).
Qed.

(** C4. A spectrum built from a Quantity flux and a spectral axis has a
    spectral axis as long as the last axis of its flux. When the two
    lengths differ no object is built: the constructor raises a
    ValueError, and once the earlier checks have passed it is the
    ValueError of the length test. *)
Theorem init_spectral_axis_length q ax wcs vc rest z rv kw :
  (forall self,
     Spectrum1D.__init__ (Spectrum1D.Flux (PyQuantity q)) (Some ax) wcs vc rest z rv kw
       = OK self ->
     exists f sc n,
       Spectrum1D.flux self = OK f /\
       Spectrum1D.spectral_axis self = OK sc /\
       shape_first (shape (value (sc_quantity sc))) = OK n /\
       shape_last (shape (value f)) = OK n) /\
  (forall a n m,
     axis_quantity ax = Some a ->
     shape_first (shape (value a)) = OK n ->
     shape_last (shape (value (effective_flux q))) = OK m ->
     n <> m ->
     exists e,
       Spectrum1D.__init__ (Spectrum1D.Flux (PyQuantity q)) (Some ax) wcs vc rest z rv kw
         = Raise e /\
       issubclass (exn_cls e) ValueError = true /\
       (length_test_reached q ax wcs vc rest z rv kw ->
        e = Exn ValueError
              "Spectral axis and the last flux axis lengths must be the same")).
Proof.
  split.
  - intros self H.
    apply init_quantity_OK_inv in H as (assigned & w & rest' & Hr & Hc & Hf).
    destruct (resolve_axis_given _ _ _ _ _ _ _ _ _ _ _ _ Hr Hf) as (a & sc & Ha & Hsc & Hq).
    apply finish_OK_inv in Hf as (Hd & _).
    unfold Spectrum1D.check_axis_length in Hc. cbn [mbind option_bind] in Hc.
    rewrite Ha in Hc. inv_bind_as Hc n Hn. inv_bind_as Hc m Hm.
    destruct (negb (n =? m)%nat) eqn:E; [discriminate|].
    apply negb_false_iff, Nat.eqb_eq in E. subst m a.
    exists (mkQuantity (value (effective_flux q))
              (default dimensionless_unscaled (Spectrum1D.nd_unit self))), sc, n.
    unfold Spectrum1D.flux. rewrite Hd. cbn. auto.
  - intros a n m Ha Hn Hm Hnm. unfold length_test_reached, Spectrum1D.__init__.
    destruct (kw_unknown kw) as [|name names]; cbn [length Nat.eqb negb];
      [|eexists; split; [reflexivity|]; split; [reflexivity|];
        intros ([=] & _)].
    assert (Spectrum1D.ensure_quantity (PyQuantity q) = OK (PyQuantity (effective_flux q)))
      as ->.
    { unfold Spectrum1D.ensure_quantity, effective_flux.
      now destruct (Spectrum1D.isscalar q). }
    simp_result.
    destruct (negb (Spectrum1D.is_None z) && negb (Spectrum1D.is_None rv)) eqn:Eb.
    { eexists. split; [reflexivity|]. split; [reflexivity|].
      intros (_ & [-> | ->] & _); [discriminate Eb|].
      rewrite andb_false_r in Eb. discriminate Eb. }
    cbn [Spectrum1D.grab_data Spectrum1D.ignores_wcs Spectrum1D.is_Quantity negb orb andb
         Spectrum1D.is_float_or_int].
    destruct (Spectrum1D.resolve_axis _ _ _ _ _ _ _) as [[assigned w]|e] eqn:Er.
    + simp_result. unfold Spectrum1D.check_axis_length. cbn [mbind option_bind].
      rewrite Ha, Hn. simp_result.
      change (Spectrum1D.array_like_shape (PyQuantity (effective_flux q)))
        with (shape (value (effective_flux q))).
      rewrite Hm. simp_result.
      assert ((n =? m)%nat = false) as -> by now apply Nat.eqb_neq.
      eexists. repeat split.
    + simp_result. exists e. split; [reflexivity|].
      split; [exact (resolve_axis_raises _ _ _ _ _ _ _ _ _ Ha Er)|].
      intros (_ & _ & [=]).
Qed.

(** Flux [1, 2, 3] Jy against the two-element axis [10, 20] Angstrom. *)
Lemma init_spectral_axis_length_witness :
  Spectrum1D.__init__ (Spectrum1D.Flux (PyQuantity (quantity_1d [1; 2; 3] u.Jy)))
    (Some (AxisQuantity (quantity_1d [10; 20] u.AA))) None None None PyNone PyNone no_kwargs =
  Raise (Exn ValueError "Spectral axis and the last flux axis lengths must be the same").
Proof.
  destruct (init_spectral_axis_length (quantity_1d [1; 2; 3] u.Jy)
              (AxisQuantity (quantity_1d [10; 20] u.AA)) None None None PyNone PyNone no_kwargs)
    as [_ H].
  destruct (H (quantity_1d [10; 20] u.AA) 2%nat 3%nat eq_refl eq_refl eq_refl)
    as (e & He & _ & Hmsg); [lia|].
  rewrite He. f_equal. apply Hmsg. repeat split. now left.
Defined.

Lemma ignores_wcs_spec v :
  Spectrum1D.ignores_wcs v = true <->
  Spectrum1D.is_Quantity v = false /\ Spectrum1D.np_ndim v = 0%nat.
Proof.
  unfold Spectrum1D.ignores_wcs. rewrite andb_true_iff, Nat.eqb_eq.
  destruct v; cbn; intuition congruence.
Qed.

Lemma effective_flux_scalar q :
  shape (value q) = [] -> effective_flux q = Spectrum1D.promote q.
Proof. unfold effective_flux, Spectrum1D.isscalar. now intros ->. Qed.

(** C10. A scalar Quantity passed as [flux] is made a one-element array:
    every object built from it holds data of shape (1,), has gone through
    the full construction (its radial velocity attribute is assigned), and
    has a one-element spectral axis whenever the axis is the one passed or
    the default one; with the flux alone the construction succeeds. An
    object in the minimal mode comes only from no [flux] and [data] that is
    not a Quantity and has no dimension. *)
Theorem scalar_flux_is_promoted :
  (forall q sa wcs vc rest z rv kw self,
     shape (value q) = [] ->
     Spectrum1D.__init__ (Spectrum1D.Flux (PyQuantity q)) sa wcs vc rest z rv kw = OK self ->
     Spectrum1D.nd_data self = Some (mkArray [1%nat] (data (value q))) /\
     is_Some (Spectrum1D._radial_velocity self) /\
     (sa <> None \/ wcs = None ->
      exists sc, Spectrum1D.spectral_axis self = OK sc /\
                 shape_first (shape (value (sc_quantity sc))) = OK 1%nat)) /\
  (forall q,
     shape (value q) = [] ->
     exists self,
       Spectrum1D.__init__ (Spectrum1D.Flux (PyQuantity q)) None None None None
         PyNone PyNone no_kwargs = OK self /\
       Spectrum1D.shape_ self = OK [1%nat]) /\
  (forall v sa wcs vc rest z rv kw self,
     Spectrum1D.__init__ (Spectrum1D.Flux v) sa wcs vc rest z rv kw = OK self ->
     Spectrum1D._radial_velocity self = None ->
     v = PyNone /\
     Spectrum1D.is_Quantity (default PyNone (kw_data kw)) = false /\
     Spectrum1D.np_ndim (default PyNone (kw_data kw)) = 0%nat).
Proof.
  split; [|split].
  - intros q sa wcs vc rest z rv kw self Hq H.
    apply init_quantity_OK_inv in H as (assigned & w & rest' & Hr & Hc & Hf).
    rewrite (effective_flux_scalar q Hq) in *.
    pose proof (finish_OK_inv _ _ _ _ _ _ _ Hf) as (Hd & Hw & Hsa & Hrv).
    split; [exact Hd|]. split; [exact Hrv|].
    intros Hax. destruct sa as [ax|].
    + destruct (resolve_axis_given _ _ _ _ _ _ _ _ _ _ _ _ Hr Hf) as (a & sc & Ha & Hsc & Hqa).
      exists sc. split; [exact Hsc|]. subst a.
      unfold Spectrum1D.check_axis_length in Hc. cbn [mbind option_bind] in Hc.
      rewrite Ha in Hc. inv_bind_as Hc n Hn. inv_bind_as Hc m Hm.
      destruct (negb (n =? m)%nat) eqn:E; [discriminate|].
      apply negb_false_iff, Nat.eqb_eq in E. subst m.
      cbn in Hm. injection Hm as <-. exact Hn.
    + destruct Hax as [Hax| ->]; [congruence|].
      cbn in Hr. injection Hr as <- <-.
      unfold Spectrum1D.spectral_axis. rewrite Hsa, Hw. eexists. split; reflexivity.
  - intros q Hq. unfold Spectrum1D.__init__.
    cbn [kw_unknown no_kwargs length Nat.eqb negb Spectrum1D.ensure_quantity].
    unfold Spectrum1D.isscalar. rewrite Hq. simp_result.
    eexists. split; reflexivity.
  - intros v sa wcs vc rest z rv kw self H Hnone.
    apply init_flux_OK_inv in H as (v' & eff & kw' & Hv & Hg & [[Hmin _]|[_ Hfull]]).
    + apply ignores_wcs_spec in Hmin as [Hnq Hnd].
      assert (v' = PyNone /\ v = PyNone) as [-> ->].
      { unfold Spectrum1D.ensure_quantity in Hv. destruct v as [| | | |q]; try discriminate.
        - now injection Hv as <-.
        - assert (exists q', v' = PyQuantity q') as [q' ->]
            by (destruct (Spectrum1D.isscalar q); injection Hv as <-; eauto).
          unfold Spectrum1D.grab_data in Hg. injection Hg as <- <-. discriminate Hnq. }
      split; [reflexivity|].
      unfold Spectrum1D.grab_data in Hg.
      destruct (kw_data kw) as [d|]; injection Hg as <- <-; auto.
    + destruct Hfull as (assigned & w & rest' & _ & _ & Hf).
      apply finish_OK_inv in Hf as (_ & _ & _ & [x Hx]). congruence.
Qed.

(** The scalar 5 Jy alone. *)
Lemma scalar_flux_is_promoted_witness :
  exists self,
    Spectrum1D.__init__ (Spectrum1D.Flux (PyQuantity (mkQuantity (mkArray [] [5]) u.Jy)))
      None None None None PyNone PyNone no_kwargs = OK self /\
    Spectrum1D.nd_data self = Some (mkArray [1%nat] [5]) /\
    is_Some (Spectrum1D._radial_velocity self) /\
    exists sc, Spectrum1D.spectral_axis self = OK sc /\
               shape_first (shape (value (sc_quantity sc))) = OK 1%nat.
Proof.
  destruct scalar_flux_is_promoted as (H & _ & _).
  eexists. split; [reflexivity|].
  destruct (H (mkQuantity (mkArray [] [5]) u.Jy) None None None None PyNone PyNone
              no_kwargs _ eq_refl eq_refl) as (Hd & Hrv & Hax).
  split; [exact Hd|]. split; [exact Hrv|]. apply Hax. now right.
Defined.

(** The bare number 5 passed as [data] gives an object in the minimal
    mode: no radial velocity attribute, no spectral axis derived. *)
Lemma minimal_mode_from_bare_data :
  exists self,
    Spectrum1D.__init__ (Spectrum1D.Flux PyNone) None None None None PyNone PyNone
      (mkKwargs (Some (PyFloat 5)) None None None None None []) = OK self /\
    Spectrum1D._radial_velocity self = None /\
    Spectrum1D.nd_wcs self = None.
Proof. eexists. repeat split. Qed.

(** * Further properties *)

Ltac simp_result_in H := cbn [mbind result_bind try_except] in H.

(** ** The linear transform *)

(** X1. Which scalar arguments [invert] returns a pixel for: no bare
    number (it has no unit, which [invert] refuses by itself) and no
    Quantity whose unit has a physical dimension (astropy refuses the
    subtraction of the bare parameter, or the conversion to a float), so
    only a dimensionless Quantity. For a plain dimensionless number [v]
    the pixel is [(v - dispersion0) / dispersion_delta + pixel_index];
    with a zero step the quotient is not finite, and nothing is raised. *)
Theorem linear_invert_returns_iff (w : Spectrum1DLinearWCS.t) :
  (forall x,
     is_OK (Spectrum1DLinearWCS.invert w x) = true <->
     exists q, x = Qty q /\ is_dimensionless (unit q) = true) /\
  (forall v,
     Spectrum1DLinearWCS.invert w (Bare v) =
       Raise (Exn UnitsError
         "Must give a dispersion value with a valid unit (i.e. quantity 5 * u.Angstrom)")) /\
  (forall v,
     ~ Spectrum1DLinearWCS.dispersion_delta w == 0 ->
     exists r,
       Spectrum1DLinearWCS.invert w (Qty (mkQuantity v dimensionless_unscaled)) = OK (Float r) /\
       r == (v - Spectrum1DLinearWCS.dispersion0 w) / Spectrum1DLinearWCS.dispersion_delta w
            + Spectrum1DLinearWCS.pixel_index w) /\
  (forall v,
     Spectrum1DLinearWCS.dispersion_delta w == 0 ->
     Spectrum1DLinearWCS.invert w (Qty (mkQuantity v dimensionless_unscaled)) = OK NonFinite).
Proof.
  split; [|split; [reflexivity|split]].
  - intros [v|q].
    + split; [discriminate|]. intros (q & H & _). discriminate H.
    + destruct (is_dimensionless (unit q)) eqn:E.
      * split; [eauto|]. intros _.
        unfold Spectrum1DLinearWCS.invert, Quantity_sub_bare. rewrite E.
        reflexivity.
      * destruct (linear_invert_dimensional w q E) as (e & -> & _).
        split; [discriminate|]. intros (q' & [= <-] & H). congruence.
  - intros v Hd. apply Qeq_bool_false in Hd.
    unfold Spectrum1DLinearWCS.invert, Quantity_sub_bare, Quantity_float, Quantity_div_bare.
    cbn [unit value is_dimensionless is_equivalent dimensionless_unscaled
         dim_m dim_s dim_kg dim_K dim_pix scale Z.eqb andb mbind result_bind].
    rewrite Hd. cbn [pyfloat_map]. eexists. split; [reflexivity|].
    apply Qeq_bool_false in Hd. field. exact Hd.
  - intros v Hd. apply Qeq_bool_iff in Hd.
    unfold Spectrum1DLinearWCS.invert, Quantity_sub_bare, Quantity_float, Quantity_div_bare.
    cbn [unit value is_dimensionless is_equivalent dimensionless_unscaled
         dim_m dim_s dim_kg dim_K dim_pix scale Z.eqb andb mbind result_bind].
    rewrite Hd. reflexivity.
Qed.

(** On the transform of scenario B the plain number 5000 comes back as
    pixel 500. *)
Lemma linear_invert_returns_iff_witness :
  exists r,
    Spectrum1DLinearWCS.invert (Spectrum1DLinearWCS.mk u.AA 4000 2 0)
      (Qty (mkQuantity 5000 dimensionless_unscaled)) = OK (Float r) /\
    r == 500.
Proof.
  destruct (linear_invert_returns_iff (Spectrum1DLinearWCS.mk u.AA 4000 2 0))
    as (_ & _ & H & _).
  destruct (H 5000) as (r & Hr & Hval); [cbn; intros E; discriminate E|].
  exists r. split; [exact Hr|]. rewrite Hval. reflexivity.
Defined.

(** X3. How the constructor treats the units of its two numbers. Without a
    [unit] argument the transform takes the unit of [dispersion0] and
    keeps the number of [dispersion_delta] as it is, whatever unit that
    one carries: nothing is converted, and the two units need not even be
    equivalent. With a [unit] argument the transform has that unit, and a
    Quantity among the two numbers must be convertible to it. *)
Theorem linear_init_units :
  (forall q0 qd pi w,
     Spectrum1DLinearWCS.__init__ (Qty q0) (Qty qd) pi None = OK w ->
     Spectrum1DLinearWCS.unit_ w = unit q0 /\
     Spectrum1DLinearWCS.dispersion0 w = value q0 /\
     Spectrum1DLinearWCS.dispersion_delta w = value qd) /\
  (forall d0 dd pi un w,
     Spectrum1DLinearWCS.__init__ d0 dd pi (Some un) = OK w ->
     Spectrum1DLinearWCS.unit_ w = un /\
     (forall q, d0 = Qty q \/ dd = Qty q -> is_equivalent (unit q) un = true)).
Proof.
  split.
  - intros q0 qd pi w H. unfold Spectrum1DLinearWCS.__init__ in H.
    cbn [Quantity_new] in H. simp_result_in H.
    inv_bind_as H x0 H0. inv_bind_as H x1 H1. now injection H as <-.
  - intros d0 dd pi un w H. unfold Spectrum1DLinearWCS.__init__ in H.
    inv_bind_as H x0 H0. inv_bind_as H x1 H1.
    inv_bind_as H y0 Hy0. inv_bind_as H y1 Hy1. injection H as <-.
    split; [reflexivity|].
    intros q [-> | ->].
    + cbn [Quantity_new] in H0.
      destruct (is_equivalent (unit q) un); [reflexivity | discriminate].
    + cbn [Quantity_new] in H1.
      destruct (is_equivalent (unit q) un); [reflexivity | discriminate].
Qed.

(** [dispersion0 = 4000 AA] with [dispersion_delta = 1 km/s]: without a
    unit argument the transform is built, in Angstrom, with the step 1. *)
Lemma linear_init_units_witness :
  exists w,
    Spectrum1DLinearWCS.__init__ (Qty (mkQuantity 4000 u.AA)) (Qty (mkQuantity 1 u.km_per_s))
      0 None = OK w /\
    Spectrum1DLinearWCS.unit_ w = u.AA /\
    Spectrum1DLinearWCS.dispersion_delta w = 1.
Proof.
  destruct linear_init_units as [Hnone _].
  eexists. split; [reflexivity|].
  destruct (Hnone (mkQuantity 4000 u.AA) (mkQuantity 1 u.km_per_s) 0 _ eq_refl)
    as (Hu & _ & Hd).
  split; [exact Hu | exact Hd].
Defined.

(** ** The FITS keywords *)

(** X4. What [from_fits_header] builds. With a valid unit (passed, or parsed
    from CUNIT) and numeric CRVAL, CRPIX and a numeric delta, the result is
    the transform with [dispersion0 = CRVAL], the delta as step and the
    zero-based reference pixel [CRPIX - 1]; the delta is CDELT when that
    keyword is present, whatever CD holds, and CD only when CDELT is
    absent. Evaluated at pixel [CRPIX - 1] the transform gives CRVAL. *)
Theorem from_fits_header_builds header unit_ n un crval crpix cdelt :
  (unit_ = Some un \/
   (unit_ = None /\
    exists v, header !! ("CUNIT" +:+ fmt_i n) = Some v /\
              Unit_new (Some (hval_unit_arg v)) = OK un)) ->
  check_valid_unit un = OK () ->
  header !! ("CRVAL" +:+ fmt_i n) = Some (HNum crval) ->
  header !! ("CRPIX" +:+ fmt_i n) = Some (HNum crpix) ->
  (header !! ("CDELT" +:+ fmt_i n) = Some (HNum cdelt) \/
   (header !! ("CDELT" +:+ fmt_i n) = None /\
    header !! ("CD" +:+ fmt_i n +:+ "_" +:+ fmt_i n) = Some (HNum cdelt))) ->
  Spectrum1DLinearWCS.from_fits_header header unit_ n =
    OK (Spectrum1DLinearWCS.mk un crval cdelt (crpix - 1)) /\
  value (Spectrum1DLinearWCS.__call__ (Spectrum1DLinearWCS.mk un crval cdelt (crpix - 1))
           (crpix - 1)) == crval.
Proof.
  intros Hunit Hvalid Hcrval Hcrpix Hdelta.
  split; [now apply from_fits_header_numeric | cbn; ring].
Qed.

(** Scenario E with CD1_1 in place of CDELT1. *)
Lemma from_fits_header_builds_witness :
  Spectrum1DLinearWCS.from_fits_header
    (<["CD1_1" := HNum (3 # 2)]> (delete "CDELT1" scenario_E_header)) None 1 =
    OK (Spectrum1DLinearWCS.mk u.AA 5000 (3 # 2) (1 - 1)).
Proof.
  refine (proj1 (from_fits_header_builds _ None 1%nat u.AA 5000 1 (3 # 2) _ _ _ _ _)).
  - right. split; [reflexivity|]. exists (HStr "Angstrom"). split; reflexivity.
  - reflexivity.
  - reflexivity.
  - reflexivity.
  - right. split; reflexivity.
Defined.

(** Two keywords that differ in a letter of their fixed prefix. *)
Ltac key_ne := let H := fresh in intros H; cbn in H; discriminate H.

(** X5. An explicit [unit] overrides CUNIT entirely: with a unit passed,
    the CUNIT keyword is never read, so writing any value under it (even
    one that is no unit) leaves the result, success or failure, the
    same. *)
Theorem from_fits_header_unit_overrides header (v : hval) (un : Unit) (n : nat) :
  Spectrum1DLinearWCS.from_fits_header (<["CUNIT" +:+ fmt_i n := v]> header) (Some un) n =
  Spectrum1DLinearWCS.from_fits_header header (Some un) n.
Proof.
  unfold Spectrum1DLinearWCS.from_fits_header, header_getitem.
  rewrite !lookup_insert_ne by key_ne. reflexivity.
Qed.

Lemma upper_app a b : upper (a +:+ b) = upper a +:+ upper b.
Proof.
  induction a as [|c a IH]; simpl; [reflexivity|].
  change (String (upper_ascii c) (upper a) +:+ upper b)
    with (String (upper_ascii c) (upper a +:+ upper b)).
  f_equal. exact IH.
Qed.

Lemma upper_string_of_uint d :
  upper (NilEmpty.string_of_uint d) = NilEmpty.string_of_uint d.
Proof.
  induction d; simpl; [reflexivity | f_equal; exact IHd ..].
Qed.

Lemma upper_fmt_i n : upper (fmt_i n) = fmt_i n.
Proof. apply upper_string_of_uint. Qed.

(** X6. Writing a transform to a header and reading it back. Provided the
    unit of the transform is a valid spectral unit whose string form
    parses back to it, [from_fits_header] on the header written by
    [to_fits_header] returns a transform with the same unit, reference
    value and step, whatever the header held before. Its reference pixel
    is [(pixel_index + 1) - 1], the 1 added on writing and subtracted on
    reading: for an integer reference pixel, in the range where a float
    holds every integer, that is the reference pixel itself. *)
Theorem to_fits_header_from_fits_header
    (to_string : Unit -> string) (w : Spectrum1DLinearWCS.t)
    (header : gmap string hval) (n : nat) :
  Unit_new (Some (UnitStr (to_string (Spectrum1DLinearWCS.unit_ w))))
    = OK (Spectrum1DLinearWCS.unit_ w) ->
  check_valid_unit (Spectrum1DLinearWCS.unit_ w) = OK () ->
  exists w',
    Spectrum1DLinearWCS.from_fits_header
      (Spectrum1DLinearWCS.to_fits_header to_string w header n) None n = OK w' /\
    Spectrum1DLinearWCS.unit_ w' = Spectrum1DLinearWCS.unit_ w /\
    Spectrum1DLinearWCS.dispersion0 w' = Spectrum1DLinearWCS.dispersion0 w /\
    Spectrum1DLinearWCS.dispersion_delta w' = Spectrum1DLinearWCS.dispersion_delta w /\
    Spectrum1DLinearWCS.pixel_index w' = Spectrum1DLinearWCS.pixel_index w + 1 - 1 /\
    (forall z : Z,
       Spectrum1DLinearWCS.pixel_index w = inject_Z z ->
       (Z.abs z < 2 ^ 53)%Z ->
       Spectrum1DLinearWCS.pixel_index w' == inject_Z z).
Proof.
  intros Hparse Hvalid.
  set (h := Spectrum1DLinearWCS.to_fits_header to_string w header n).
  assert (Hcunit : h !! ("CUNIT" +:+ fmt_i n)
                   = Some (HStr (to_string (Spectrum1DLinearWCS.unit_ w)))).
  { subst h. unfold Spectrum1DLinearWCS.to_fits_header, header_setitem. cbv zeta.
    rewrite !upper_app, !upper_fmt_i. cbn [upper upper_ascii].
    apply lookup_insert_eq. }
  assert (Hcdelt : h !! ("CDELT" +:+ fmt_i n)
                   = Some (HNum (Spectrum1DLinearWCS.dispersion_delta w))).
  { subst h. unfold Spectrum1DLinearWCS.to_fits_header, header_setitem. cbv zeta.
    rewrite !upper_app, !upper_fmt_i.
    rewrite lookup_insert_ne by key_ne. apply lookup_insert_eq. }
  assert (Hcrpix : h !! ("CRPIX" +:+ fmt_i n)
                   = Some (HNum (Spectrum1DLinearWCS.pixel_index w + 1))).
  { subst h. unfold Spectrum1DLinearWCS.to_fits_header, header_setitem. cbv zeta.
    rewrite !upper_app, !upper_fmt_i.
    rewrite !lookup_insert_ne by key_ne. apply lookup_insert_eq. }
  assert (Hcrval : h !! ("CRVAL" +:+ fmt_i n)
                   = Some (HNum (Spectrum1DLinearWCS.dispersion0 w))).
  { subst h. unfold Spectrum1DLinearWCS.to_fits_header, header_setitem. cbv zeta.
    rewrite !upper_app, !upper_fmt_i.
    rewrite !lookup_insert_ne by key_ne. apply lookup_insert_eq. }
  pose proof (from_fits_header_numeric h None n (Spectrum1DLinearWCS.unit_ w)
                (Spectrum1DLinearWCS.dispersion0 w) (Spectrum1DLinearWCS.pixel_index w + 1)
                (Spectrum1DLinearWCS.dispersion_delta w)) as H.
  eexists. split.
  - apply H; auto.
    right. split; [reflexivity|]. eexists. split; [exact Hcunit | exact Hparse].
  - cbn [Spectrum1DLinearWCS.unit_ Spectrum1DLinearWCS.dispersion0
         Spectrum1DLinearWCS.dispersion_delta Spectrum1DLinearWCS.pixel_index].
    repeat split. intros z -> _. ring.
Qed.

(** The transform of scenario E with the reference pixel 12, written over
    an empty header. *)
Lemma to_fits_header_from_fits_header_witness :
  exists w',
    Spectrum1DLinearWCS.from_fits_header
      (Spectrum1DLinearWCS.to_fits_header (fun _ => "Angstrom")
         (Spectrum1DLinearWCS.mk u.AA 5000 (3 # 2) 12) ∅ 1) None 1 = OK w' /\
    Spectrum1DLinearWCS.unit_ w' = u.AA /\
    Spectrum1DLinearWCS.dispersion0 w' = 5000 /\
    Spectrum1DLinearWCS.dispersion_delta w' = 3 # 2 /\
    Spectrum1DLinearWCS.pixel_index w' == 12.
Proof.
  destruct (to_fits_header_from_fits_header (fun _ => "Angstrom")
              (Spectrum1DLinearWCS.mk u.AA 5000 (3 # 2) 12) ∅ 1%nat eq_refl eq_refl)
    as (w' & Hw' & Hu & H0 & Hd & _ & Hpix).
  exists w'. repeat split; try assumption.
  apply (Hpix 12%Z); reflexivity.
Defined.

(** ** The lookup transform *)

(** Over the pixel grid [a, a+1, ...], the interval search on segment [i]
    is the chord through the two neighbouring samples. *)
Lemma interp_search_segment fp : forall a i y0 y1 p,
  fp !! i = Some y0 -> fp !! S i = Some y1 ->
  inject_Z (Z.of_nat (a + i)) <= p -> p < inject_Z (Z.of_nat (a + i)) + 1 ->
  exists y,
    interp_search p (map (fun k => inject_Z (Z.of_nat k)) (seq a (length fp))) fp = Fin y /\
    y == y0 + (y1 - y0) * (p - inject_Z (Z.of_nat (a + i))).
Proof.
  induction fp as [|v0 fp IH]; intros a i y0 y1 p H0 H1 Hlo Hhi; [discriminate|].
  destruct fp as [|v1 fp]; [destruct i; discriminate|].
  change (seq a (length (v0 :: v1 :: fp)))
    with (a :: S a :: seq (S (S a)) (length fp)).
  cbn [map interp_search].
  pose proof (inject_succ a) as Ha.
  destruct i as [|i].
  - cbn in H0, H1. injection H0 as ->. injection H1 as ->.
    rewrite Nat.add_0_r in Hlo, Hhi.
    assert (Qlt_bool p (inject_Z (Z.of_nat (S a))) = true) as ->
      by (apply Qlt_bool_true; lra).
    rewrite Nat.add_0_r.
    destruct (Qeq_bool (inject_Z (Z.of_nat a)) p) eqn:E.
    + apply Qeq_bool_iff in E. eexists. split; [reflexivity|]. nra.
    + eexists. split; [reflexivity|]. rewrite Ha. field. lra.
  - pose proof (inject_nat_le (S a) (a + S i) ltac:(lia)) as Hle.
    assert (Qlt_bool p (inject_Z (Z.of_nat (S a))) = false) as ->
      by (apply Qlt_bool_false; lra).
    replace (a + S i)%nat with (S a + i)%nat in * by lia.
    apply (IH (S a) i y0 y1 p); assumption.
Qed.

(** At the last pixel of the grid the search returns the last sample. *)
Lemma interp_search_last_pixel fp : forall a y p,
  fp !! (length fp - 1)%nat = Some y ->
  p == inject_Z (Z.of_nat (a + (length fp - 1))) ->
  interp_search p (map (fun k => inject_Z (Z.of_nat k)) (seq a (length fp))) fp = Fin y.
Proof.
  induction fp as [|v0 fp IH]; intros a y p Hy Hp; [discriminate|].
  destruct fp as [|v1 fp].
  - cbn in Hy |- *. congruence.
  - change (seq a (length (v0 :: v1 :: fp)))
      with (a :: S a :: seq (S (S a)) (length fp)).
    cbn [map interp_search].
    cbn [length] in Hy, Hp. rewrite Nat.sub_succ, Nat.sub_0_r in Hy, Hp.
    pose proof (inject_nat_le (S a) (a + S (length fp)) ltac:(lia)) as Hle.
    assert (Qlt_bool p (inject_Z (Z.of_nat (S a))) = false) as ->
      by (apply Qlt_bool_false; lra).
    apply (IH (S a) y p).
    + cbn [length]. rewrite Nat.sub_succ, Nat.sub_0_r. exact Hy.
    + cbn [length]. rewrite Nat.sub_succ, Nat.sub_0_r.
      replace (S a + length fp)%nat with (a + S (length fp))%nat by lia. exact Hp.
Qed.

(** X7. Evaluation is piecewise linear through the table, for every
    accepted table, sorted or not: at a position [p] with [i <= p < i+1]
    the value is [v_i + (v_(i+1) - v_i) * (p - i)], in particular the table
    value [v_i] at the pixel [i] itself, and at the last pixel [N-1] it is
    the last table value. *)
Theorem lookup_call_piecewise_linear table unit_ w :
  Spectrum1DLookupWCS.__init__ table unit_ "linear" = OK w ->
  (forall (i : nat) v0 v1 p,
     table_values table !! i = Some v0 ->
     table_values table !! S i = Some v1 ->
     inject_Z (Z.of_nat i) <= p -> p < inject_Z (Z.of_nat i) + 1 ->
     exists y,
       Spectrum1DLookupWCS.__call__ w (Fin p) =
         OK (mkQuantity (Fin y) (Spectrum1DLookupWCS.unit_ w)) /\
       y == v0 + (v1 - v0) * (p - inject_Z (Z.of_nat i))) /\
  (forall v,
     table_values table !! (length (table_values table) - 1)%nat = Some v ->
     Spectrum1DLookupWCS.__call__ w
       (Fin (inject_Z (Z.of_nat (length (table_values table) - 1)))) =
       OK (mkQuantity (Fin v) (Spectrum1DLookupWCS.unit_ w))).
Proof.
  intros Hinit.
  apply lookup_init_OK_inv in Hinit as (Hv & Hk & Hpix & _).
  set (vs := table_values table) in *.
  unfold Spectrum1DLookupWCS.__call__.
  rewrite Hk, Hv, Hpix. cbn [String.eqb Ascii.eqb Bool.eqb].
  change (if true then ?a else ?b) with a.
  pose proof (np_arange_length (length vs)) as Hlen.
  split.
  - intros i v0 v1 p H0 H1 Hlo Hhi.
    pose proof (lookup_lt_Some _ _ _ H1) as Hi.
    assert (Hn : (0 < length vs)%nat) by lia.
    assert (Hxp : np_arange (length vs) <> []).
    { intros H. apply (f_equal (@length Q)) in H. rewrite Hlen in H. cbn in H. lia. }
    destruct (interp_search_segment vs 0 i v0 v1 p H0 H1) as (y & Hy & Hval);
      [exact Hlo | exact Hhi |].
    exists y. split; [|exact Hval].
    rewrite (np_interp_inside _ _ p NaN NaN 0); [| exact Hxp | exact Hlen | |].
    + unfold np_arange. rewrite Hy. reflexivity.
    + rewrite (np_arange_hd _ _ Hn).
      pose proof (inject_nat_le 0 i ltac:(lia)) as H.
      change (inject_Z (Z.of_nat 0)) with 0 in H. lra.
    + rewrite (np_arange_last _ _ Hn).
      pose proof (inject_nat_le (S i) (length vs - 1) ltac:(lia)) as H.
      rewrite inject_succ in H.
      assert (Hl : inject_Z (Z.of_nat (length vs - 1)) == inject_Z (Z.of_nat (length vs)) - 1).
      { replace (length vs) with (S (length vs - 1)) at 2 by lia.
        rewrite inject_succ. ring. }
      lra.
  - intros v Hlast.
    pose proof (lookup_lt_Some _ _ _ Hlast) as Hi.
    assert (Hn : (0 < length vs)%nat) by lia.
    assert (Hxp : np_arange (length vs) <> []).
    { intros H. apply (f_equal (@length Q)) in H. rewrite Hlen in H. cbn in H. lia. }
    assert (Hl : inject_Z (Z.of_nat (length vs - 1)) == inject_Z (Z.of_nat (length vs)) - 1).
    { replace (length vs) with (S (length vs - 1)) at 2 by lia.
      rewrite inject_succ. ring. }
    rewrite (np_interp_inside _ _ _ NaN NaN 0); [| exact Hxp | exact Hlen | |].
    + unfold np_arange.
      rewrite (interp_search_last_pixel vs 0 v _ Hlast); [reflexivity|].
      reflexivity.
    + rewrite (np_arange_hd _ _ Hn).
      pose proof (inject_nat_le 0 (length vs - 1) ltac:(lia)) as H.
      change (inject_Z (Z.of_nat 0)) with 0 in H. lra.
    + rewrite (np_arange_last _ _ Hn). lra.
Qed.

(** The unsorted table [3, 1, 2] nm: half way between pixels 0 and 1 the
    value is 2, and at the last pixel it is 2. *)
Lemma lookup_call_piecewise_linear_witness :
  exists w,
    Spectrum1DLookupWCS.__init__ (BareTable [3; 1; 2]) (Some (UnitStr "nm")) "linear" = OK w /\
    (exists y, Spectrum1DLookupWCS.__call__ w (Fin (1 # 2)) =
                 OK (mkQuantity (Fin y) (Spectrum1DLookupWCS.unit_ w)) /\
               y == 3 + (1 - 3) * ((1 # 2) - 0)) /\
    Spectrum1DLookupWCS.__call__ w (Fin 2) =
      OK (mkQuantity (Fin 2) (Spectrum1DLookupWCS.unit_ w)).
Proof.
  eexists. split; [reflexivity|].
  destruct (lookup_call_piecewise_linear (BareTable [3; 1; 2]) (Some (UnitStr "nm")) _ eq_refl)
    as [Hseg Hlast].
  split.
  - apply (Hseg 0%nat 3 1 (1 # 2)); reflexivity || (cbn; discriminate).
  - apply (Hlast 2). reflexivity.
Defined.

Lemma interp_search_finite xp : forall fp x,
  length xp = length fp -> xp <> [] -> exists y, interp_search x xp fp = Fin y.
Proof.
  induction xp as [|x0 xp IH]; intros fp x Hlen Hne; [congruence|].
  destruct fp as [|y0 fp]; [discriminate|].
  destruct xp as [|x1 xp]; destruct fp as [|y1 fp]; try discriminate.
  - cbn. eauto.
  - cbn [interp_search].
    destruct (Qlt_bool x x1); [destruct (Qeq_bool x0 x); eauto|].
    apply (IH (y1 :: fp) x); [cbn in Hlen |- *; lia | discriminate].
Qed.

(** X8. For every accepted non-empty table, sorted or not, evaluation with
    linear interpolation never raises. At a number [p] the result is NaN
    exactly when [p] lies outside [0, N-1]. At a NaN position the result
    is NaN when the table has two values or more, and the table value
    itself when it has one. *)
Theorem lookup_call_nan_iff table unit_ w :
  Spectrum1DLookupWCS.__init__ table unit_ "linear" = OK w ->
  table_values table <> [] ->
  forall x, exists y,
    Spectrum1DLookupWCS.__call__ w x = OK (mkQuantity y (Spectrum1DLookupWCS.unit_ w)) /\
    (forall p, x = Fin p ->
       (y = NaN <->
        p < 0 \/ inject_Z (Z.of_nat (length (table_values table))) - 1 < p)) /\
    (x = NaN ->
     y = match table_values table with
         | [v] => Fin v
         | _ => NaN
         end).
Proof.
  intros Hinit Hne x.
  apply lookup_init_OK_inv in Hinit as (Hv & Hk & Hpix & _).
  set (vs := table_values table) in *.
  assert (Hn : (0 < length vs)%nat) by (destruct vs; [congruence | cbn; lia]).
  pose proof (np_arange_length (length vs)) as Hlen.
  assert (Hxp : np_arange (length vs) <> []).
  { intros H. apply (f_equal (@length Q)) in H. rewrite Hlen in H. cbn in H. lia. }
  pose proof (np_arange_hd (length vs) 0 Hn) as Hhd.
  pose proof (np_arange_last (length vs) 0 Hn) as Hlast.
  unfold Spectrum1DLookupWCS.__call__.
  rewrite Hk, Hv, Hpix. cbn [String.eqb Ascii.eqb Bool.eqb].
  change (if true then ?a else ?b) with a.
  destruct x as [p|].
  - destruct (Qlt_le_dec p 0) as [Hlo|Hlo]; [|destruct (Qlt_le_dec (inject_Z (Z.of_nat (length vs)) - 1) p) as [Hhi|Hhi]].
    + exists NaN. rewrite (np_interp_outside _ _ p 0); try assumption;
        [| apply np_arange_increasing | rewrite Hhd; now left].
      split; [reflexivity|]. split; [|discriminate].
      intros p' [= <-]. split; [now left | reflexivity].
    + exists NaN. rewrite (np_interp_outside _ _ p 0); try assumption;
        [| apply np_arange_increasing | rewrite Hlast; now right].
      split; [reflexivity|]. split; [|discriminate].
      intros p' [= <-]. split; [now right | reflexivity].
    + destruct (interp_search_finite (np_arange (length vs)) vs p Hlen Hxp) as [y Hy].
      exists (Fin y).
      rewrite (np_interp_inside _ _ p NaN NaN 0), Hy;
        [| assumption | assumption | rewrite Hhd; lra | rewrite Hlast; lra].
      split; [reflexivity|]. split; [|discriminate].
      intros p' [= <-]. split; [discriminate | intros [H|H]; lra].
  - clear Hhd Hlast Hxp Hlen Hn.
    destruct vs as [|v0 [|v1 vs']]; [congruence | |].
    + exists (Fin v0). split; [reflexivity|]. split; [discriminate | reflexivity].
    + exists NaN. split; [|split; [discriminate | reflexivity]].
      unfold np_interp, np_arange. cbn [length seq map Nat.eqb].
      rewrite length_map, length_seq, Nat.eqb_refl. reflexivity.
Qed.

(** The unsorted table [3, 1, 2] nm at position 5, beyond the last pixel. *)
Lemma lookup_call_nan_iff_witness :
  exists w y,
    Spectrum1DLookupWCS.__init__ (BareTable [3; 1; 2]) (Some (UnitStr "nm")) "linear" = OK w /\
    Spectrum1DLookupWCS.__call__ w (Fin 5) = OK (mkQuantity y (Spectrum1DLookupWCS.unit_ w)) /\
    y = NaN.
Proof.
  eexists.
  destruct (lookup_call_nan_iff (BareTable [3; 1; 2]) (Some (UnitStr "nm")) _ eq_refl
              ltac:(discriminate) (Fin 5)) as (y & Hy & Hiff & _).
  exists y. split; [reflexivity|]. split; [exact Hy|].
  apply (Hiff 5 eq_refl). right. reflexivity.
Defined.

(** X9. The interpolation kind is not looked at by the constructor: whether
    a table and unit are accepted does not depend on it. A transform whose
    kind is not "linear" then raises NotImplementedError on every
    evaluation and on every inversion. *)
Theorem lookup_kind_checked_late :
  (forall table unit_ kind kind',
     is_OK (Spectrum1DLookupWCS.__init__ table unit_ kind) =
     is_OK (Spectrum1DLookupWCS.__init__ table unit_ kind')) /\
  (forall table unit_ kind w x,
     kind <> "linear" ->
     Spectrum1DLookupWCS.__init__ table unit_ kind = OK w ->
     Spectrum1DLookupWCS.__call__ w x =
       Raise (Exn NotImplementedError "Interpolation type is not implemented") /\
     Spectrum1DLookupWCS.invert w x =
       Raise (Exn NotImplementedError "Interpolation type is not implemented")).
Proof.
  split.
  - intros table unit_ kind kind'. unfold Spectrum1DLookupWCS.__init__.
    match goal with
    | |- is_OK (?r ≫= _) = _ => destruct r as [q|e]; [|reflexivity]
    end.
    simp_result. now destruct (negb _).
  - intros table unit_ kind w x Hk Hinit.
    apply lookup_init_OK_inv in Hinit as (_ & Hkind & _).
    unfold Spectrum1DLookupWCS.__call__, Spectrum1DLookupWCS.invert. rewrite Hkind.
    assert ((kind =? "linear")%string = false) as -> by now apply String.eqb_neq.
    split; reflexivity.
Qed.

Lemma lookup_kind_checked_late_witness :
  exists w,
    Spectrum1DLookupWCS.__init__ (BareTable [1; 2; 4]) (Some (UnitStr "nm")) "nearest" = OK w /\
    Spectrum1DLookupWCS.__call__ w (Fin 1) =
      Raise (Exn NotImplementedError "Interpolation type is not implemented") /\
    Spectrum1DLookupWCS.invert w (Fin 2) =
      Raise (Exn NotImplementedError "Interpolation type is not implemented").
Proof.
  eexists. split; [reflexivity|].
  destruct lookup_kind_checked_late as [_ H].
  split.
  - apply (H (BareTable [1; 2; 4]) (Some (UnitStr "nm")) "nearest" _ (Fin 1)
             ltac:(discriminate) eq_refl).
  - apply (H (BareTable [1; 2; 4]) (Some (UnitStr "nm")) "nearest" _ (Fin 2)
             ltac:(discriminate) eq_refl).
Defined.

(** X10. Inversion over a strictly increasing table: every table value is
    mapped to the pixel where it sits, and a value below the first or
    above the last table value gives NaN, not an error and not an
    extrapolated pixel. *)
Theorem lookup_invert_increasing table unit_ w :
  Spectrum1DLookupWCS.__init__ table unit_ "linear" = OK w ->
  increasing (table_values table) ->
  (forall (i : nat) v,
     table_values table !! i = Some v ->
     exists p, Spectrum1DLookupWCS.invert w (Fin v) = OK (Fin p) /\
               p == inject_Z (Z.of_nat i)) /\
  (forall v,
     table_values table <> [] ->
     v < List.hd 0 (table_values table) \/ List.last (table_values table) 0 < v ->
     Spectrum1DLookupWCS.invert w (Fin v) = OK NaN).
Proof.
  intros Hinit Hinc.
  apply lookup_init_OK_inv in Hinit as (Hv & Hk & Hpix & _).
  set (vs := table_values table) in *.
  pose proof (np_arange_length (length vs)) as Hlen.
  unfold Spectrum1DLookupWCS.invert. cbn [interp_arrays mbind result_bind].
  rewrite Hk, Hv, Hpix. cbn [String.eqb Ascii.eqb Bool.eqb].
  change (if true then ?a else ?b) with a.
  split.
  - intros i v Hi.
    pose proof (lookup_lt_Some _ _ _ Hi) as Hlt.
    assert (Hn : (0 < length vs)%nat) by lia.
    assert (Hne : vs <> []) by (intros ->; cbn in Hn; lia).
    assert (Hxp : np_arange (length vs) <> []).
    { intros H. apply (f_equal (@length Q)) in H. rewrite Hlen in H. cbn in H. lia. }
    assert (Hl : inject_Z (Z.of_nat (length vs - 1)) == inject_Z (Z.of_nat (length vs)) - 1).
    { replace (length vs) with (S (length vs - 1)) at 2 by lia.
      rewrite inject_succ. ring. }
    destruct (interp_search_roundtrip (np_arange (length vs)) vs
                (inject_Z (Z.of_nat i)) 0 0)
      as (y & Hy & Hylo & Hyhi & p & Hp & Hpp);
      [exact Hlen | apply np_arange_increasing | exact Hinc | | | exact Hxp |].
    + rewrite (np_arange_hd _ _ Hn).
      pose proof (inject_nat_le 0 i ltac:(lia)) as H.
      change (inject_Z (Z.of_nat 0)) with 0 in H. exact H.
    + rewrite (np_arange_last _ _ Hn).
      pose proof (inject_nat_le i (length vs - 1) ltac:(lia)) as H. lra.
    + pose proof (interp_search_pixel vs 0 i v Hi) as Hpix'.
      cbn [Nat.add] in Hpix'. unfold np_arange in Hy. rewrite Hpix' in Hy.
      injection Hy as <-.
      exists p. split; [|exact Hpp].
      rewrite (np_interp_inside _ _ v NaN NaN 0), Hp; auto.
  - intros v Hne Hout.
    apply (np_interp_outside vs (np_arange (length vs)) v 0); auto.
Qed.

(** The table [1, 2, 4] nm: the value 4 sits at pixel 2, and 5 is beyond
    the table. *)
Lemma lookup_invert_increasing_witness :
  exists w,
    Spectrum1DLookupWCS.__init__ (BareTable [1; 2; 4]) (Some (UnitStr "nm")) "linear" = OK w /\
    (exists p, Spectrum1DLookupWCS.invert w (Fin 4) = OK (Fin p) /\ p == 2) /\
    Spectrum1DLookupWCS.invert w (Fin 5) = OK NaN.
Proof.
  eexists. split; [reflexivity|].
  assert (Hinc : increasing (table_values (BareTable [1; 2; 4]))) by (cbn; repeat split).
  destruct (lookup_invert_increasing (BareTable [1; 2; 4]) (Some (UnitStr "nm")) _ eq_refl Hinc)
    as [Hin Hout].
  split.
  - apply (Hin 2%nat 4). reflexivity.
  - apply Hout; [discriminate | right; reflexivity].
Defined.

(** X11. The unit of a lookup transform. A bare table without a [unit]
    argument is refused with TypeError. When the constructor succeeds the
    numbers of the table are stored as they came, whatever the units, and
    the unit of the transform is the [unit] argument for a bare table,
    the table's own unit when no argument is given, and the product of
    the two when a table with a unit is given a [unit] argument as well:
    the argument multiplies, it does not convert. *)
Theorem lookup_init_unit table unit_ kind :
  (unit_ = None -> (exists vs, table = BareTable vs) ->
   Spectrum1DLookupWCS.__init__ table unit_ kind =
     Raise (Exn TypeError
       "Lookup table must have a unit attribute or units must be specified.")) /\
  (forall w,
     Spectrum1DLookupWCS.__init__ table unit_ kind = OK w ->
     value (Spectrum1DLookupWCS.lookup_table_parameter w) = table_values table /\
     unit (Spectrum1DLookupWCS.lookup_table_parameter w) = Spectrum1DLookupWCS.unit_ w /\
     match table, unit_ with
     | BareTable _, Some ua => Unit_new (Some ua) = OK (Spectrum1DLookupWCS.unit_ w)
     | QtyTable q, None => Spectrum1DLookupWCS.unit_ w = unit q
     | QtyTable q, Some ua =>
         exists un, Unit_new (Some ua) = OK un /\
                    Spectrum1DLookupWCS.unit_ w = Unit_mul (unit q) un
     | BareTable _, None => False
     end).
Proof.
  split; [intros -> (vs & ->); reflexivity|].
  intros w H.
  split; [apply (lookup_init_OK_inv _ _ _ _ H)|].
  unfold Spectrum1DLookupWCS.__init__ in H.
  inv_bind_as H q Hq.
  destruct (negb _); [discriminate|]. injection H as <-.
  cbn [Spectrum1DLookupWCS.unit_ Spectrum1DLookupWCS.lookup_table_parameter].
  split; [reflexivity|].
  destruct unit_ as [ua|].
  - inv_bind_as Hq un Hun. inv_bind_as Hq x Hx. destruct x. injection Hq as <-.
    apply try_except_OK_inv in Hun as [Hun|Hun]; [|discriminate].
    destruct table; cbn; eauto.
  - destruct table; [discriminate|]. injection Hq as <-. reflexivity.
Qed.

(** A table in Angstrom given [unit = "Angstrom"] again ends up in square
    Angstrom, with its numbers unchanged. *)
Lemma lookup_init_unit_witness :
  exists w,
    Spectrum1DLookupWCS.__init__ (QtyTable (mkQuantity [1; 2; 4] u.AA))
      (Some (UnitStr "Angstrom")) "linear" = OK w /\
    value (Spectrum1DLookupWCS.lookup_table_parameter w) = [1; 2; 4] /\
    Spectrum1DLookupWCS.unit_ w = Unit_mul u.AA u.AA.
Proof.
  eexists. split; [reflexivity|].
  destruct (lookup_init_unit (QtyTable (mkQuantity [1; 2; 4] u.AA))
              (Some (UnitStr "Angstrom")) "linear") as [_ H].
  destruct (H _ eq_refl) as (Hvals & _ & un & Hun & Hw).
  split; [exact Hvals|].
  vm_compute in Hun. injection Hun as <-. exact Hw.
Defined.

(** ** Construction of a spectrum *)

(** [__init__] on a Quantity flux, past the early returns. *)
Lemma init_quantity_unfold q sa wcs vc rest z rv kw :
  Spectrum1D.__init__ (Spectrum1D.Flux (PyQuantity q)) sa wcs vc rest z rv kw =
  if negb (length (kw_unknown kw) =? 0)%nat
  then Raise (Exn ValueError "Initializer contains unknown arguments(s)")
  else if negb (Spectrum1D.is_None z) && negb (Spectrum1D.is_None rv)
  then Raise (Exn ValueError
         "cannot set both radial_velocity and redshift at the same time.")
  else
    '(assigned, w) ← Spectrum1D.resolve_axis (PyQuantity (effective_flux q)) sa wcs vc
                       rest z rv;
    _ ← Spectrum1D.check_axis_length (PyQuantity (effective_flux q)) sa;
    rest' ← Spectrum1D.resolve_rest_value sa w rest;
    Spectrum1D.finish (PyQuantity (effective_flux q)) w
      (Spectrum1D.setdefault_unit kw (PyQuantity (effective_flux q))) vc rest' assigned.
Proof.
  unfold Spectrum1D.__init__, Spectrum1D.ensure_quantity, effective_flux.
  destruct (negb (length (kw_unknown kw) =? 0)%nat); [reflexivity|].
  destruct (Spectrum1D.isscalar q); simp_result;
    destruct (negb (Spectrum1D.is_None z) && negb (Spectrum1D.is_None rv)); reflexivity.
Qed.

(** Everything a successful last phase determines. *)
Lemma finish_OK_full flux_ w kw vc rest assigned self :
  Spectrum1D.finish flux_ w kw vc rest assigned = OK self ->
  let base := Spectrum1D.NDData_init
                (match flux_ with PyQuantity q => PyArray (value q) | _ => flux_ end)
                (Some w) kw in
  let sa := match assigned with Some sc => sc | None => wcs_axis w end in
  kw_data kw = None /\
  self = Spectrum1D.mk (Spectrum1D.nd_data base) (Spectrum1D.nd_unit base)
           (Spectrum1D.nd_uncertainty base) (Spectrum1D.nd_mask base)
           (Spectrum1D.nd_meta base) (Some w) (Some vc) (Some rest) assigned
           (Some (sc_radial_velocity sa)) /\
  (forall unc, Spectrum1D.nd_uncertainty base = Some unc ->
               Spectrum1D.array_like_shape flux_ = shape unc).
Proof.
  unfold Spectrum1D.finish. destruct (kw_data kw) eqn:Ekw; [discriminate|].
  cbv zeta. intros H. inv_bind_as H sa Hsa. inv_bind_as H self0 Hset.
  assert (Hsa' : sa = match assigned with Some sc => sc | None => wcs_axis w end).
  { unfold Spectrum1D.spectral_axis in Hsa. cbn in Hsa.
    destruct assigned; now injection Hsa as <-. }
  apply radial_velocity_setter_OK_inv in Hset as (rv & -> & Hrv).
  assert (Hrv' : rv = sc_radial_velocity sa)
    by (destruct (sc_radial_velocity sa); exact Hrv).
  subst rv sa. split; [reflexivity|].
  cbn [Spectrum1D.nd_uncertainty Spectrum1D.with_radial_velocity
       Spectrum1D.NDData_init] in H |- *.
  destruct (default None (kw_uncertainty kw)) as [unc|] eqn:Eunc.
  - destruct (negb (bool_decide _)) eqn:Eb; [discriminate|]. injection H as <-.
    split; [reflexivity|]. intros unc' [= <-].
    apply negb_false_iff, bool_decide_eq_true in Eb. exact Eb.
  - injection H as <-. split; [reflexivity|]. discriminate.
Qed.

(** The phases behind a spectrum built from a Quantity flux. *)
Lemma init_quantity_phases q sa wcs vc rest z rv kw self :
  Spectrum1D.__init__ (Spectrum1D.Flux (PyQuantity q)) sa wcs vc rest z rv kw = OK self ->
  exists assigned w rest',
    Spectrum1D.resolve_axis (PyQuantity (effective_flux q)) sa wcs vc rest z rv
      = OK (assigned, w) /\
    Spectrum1D.check_axis_length (PyQuantity (effective_flux q)) sa = OK () /\
    Spectrum1D.resolve_rest_value sa w rest = OK rest' /\
    Spectrum1D.finish (PyQuantity (effective_flux q)) w
      (Spectrum1D.setdefault_unit kw (PyQuantity (effective_flux q))) vc rest' assigned
      = OK self.
Proof.
  rewrite init_quantity_unfold.
  destruct (negb (length (kw_unknown kw) =? 0)%nat); [discriminate|].
  destruct (negb (Spectrum1D.is_None z) && negb (Spectrum1D.is_None rv)); [discriminate|].
  intros H. inv_bind_as H aw Haw. destruct aw as [assigned w].
  inv_bind_as H x Hx. destruct x. inv_bind_as H rest' Hrest. eauto 10.
Qed.

(** X12. The unit of the flux is the unit of the spectrum. A spectrum built
    from a Quantity flux without a [unit] keyword holds that flux: reading
    [flux] back gives the Quantity that was passed (as a one-element array
    if it was a scalar). With a [unit] keyword the numbers are kept and
    only the unit is replaced by the keyword: no conversion is made. *)
Theorem init_flux_read_back q sa wcs vc rest z rv kw self :
  Spectrum1D.__init__ (Spectrum1D.Flux (PyQuantity q)) sa wcs vc rest z rv kw = OK self ->
  match kw_unit kw with
  | None => Spectrum1D.flux self = OK (effective_flux q)
  | Some un =>
      Spectrum1D.flux self =
        OK (mkQuantity (value (effective_flux q)) (default dimensionless_unscaled un))
  end.
Proof.
  intros H. apply init_quantity_phases in H as (assigned & w & rest' & _ & _ & _ & Hf).
  apply finish_OK_full in Hf as (_ & -> & _).
  unfold Spectrum1D.flux. cbn.
  destruct (kw_unit kw) as [un|]; cbn; [reflexivity|].
  now destruct (effective_flux q).
Qed.

(** The flux [1, 2, 3] Jy of the single spectrum is read back as passed. *)
Lemma init_flux_read_back_witness :
  exists self, single_spectrum = OK self /\
               Spectrum1D.flux self = OK (quantity_1d [1; 2; 3] u.Jy).
Proof.
  eexists. split; [reflexivity|].
  apply (init_flux_read_back (quantity_1d [1; 2; 3] u.Jy)
           (Some (AxisQuantity (quantity_1d [10; 20; 30] u.AA)))
           None None None PyNone PyNone no_kwargs _ eq_refl).
Defined.

(** X13. With the flux alone (no spectral axis, no wcs) the transform is
    built over the pixel numbers [0 .. n-1] where [n] is [len(flux)], the
    length of the first flux axis, and the rest value is 0 Angstrom. For a
    flux with several axes this is not the length of the last axis. *)
Theorem init_default_wcs q vc rest z rv kw self :
  Spectrum1D.__init__ (Spectrum1D.Flux (PyQuantity q)) None None vc rest z rv kw = OK self ->
  exists n, shape_first (shape (value (effective_flux q))) = OK n /\
            Spectrum1D.nd_wcs self = Some (gwcs_from_array (arange_axis n)) /\
            Spectrum1D.spectral_axis self = OK (arange_axis n) /\
            (rest = None -> Spectrum1D.rest_value self = OK (mkQuantity 0 u.AA)).
Proof.
  intros H. apply init_quantity_phases in H as (assigned & w & rest' & Hr & _ & Hrest & Hf).
  apply finish_OK_full in Hf as (_ & -> & _).
  cbn [Spectrum1D.resolve_axis] in Hr.
  assert (Hscalar : Spectrum1D.isscalar (effective_flux q) = false).
  { unfold effective_flux. destruct (Spectrum1D.isscalar q) eqn:E; [reflexivity | exact E]. }
  rewrite Hscalar in Hr. inv_bind_as Hr n Hn. injection Hr as <- <-.
  exists n. split; [exact Hn|]. split; [reflexivity|]. split; [reflexivity|].
  intros ->. cbn in Hrest. injection Hrest as <-. reflexivity.
Qed.

(** A flux of shape (2, 3) alone gets the two-pixel axis [0, 1]. *)
Lemma init_default_wcs_witness :
  exists self,
    Spectrum1D.__init__
      (Spectrum1D.Flux (PyQuantity (mkQuantity (mkArray [2; 3]%nat [1; 2; 3; 4; 5; 6]) u.Jy)))
      None None None None PyNone PyNone no_kwargs = OK self /\
    Spectrum1D.spectral_axis self = OK (arange_axis 2).
Proof.
  eexists. split; [reflexivity|].
  destruct (init_default_wcs (mkQuantity (mkArray [2; 3]%nat [1; 2; 3; 4; 5; 6]) u.Jy)
              None None PyNone PyNone no_kwargs _ eq_refl) as (n & Hn & _ & Hsa & _).
  injection Hn as <-. exact Hsa.
Defined.

(** X14. The [redshift] and [radial_velocity] arguments only reach the
    spectrum through the SpectralCoord that is built from a plain Quantity
    spectral axis. When no spectral axis is passed, or the axis already is
    a SpectralCoord, a redshift or radial velocity passed alone changes
    nothing: the outcome is the one obtained without it. *)
Theorem init_redshift_ignored flux_ sa wcs vc rest z rv kw :
  (z = PyNone \/ rv = PyNone) ->
  match sa with
  | None | Some (AxisSpectralCoord _) => True
  | _ => False
  end ->
  Spectrum1D.__init__ flux_ sa wcs vc rest z rv kw =
  Spectrum1D.__init__ flux_ sa wcs vc rest PyNone PyNone kw.
Proof.
  intros Hone Hsa. unfold Spectrum1D.__init__.
  destruct (negb (length (kw_unknown kw) =? 0)%nat); [reflexivity|].
  destruct flux_ as [v|other]; [|reflexivity].
  destruct (Spectrum1D.ensure_quantity v) as [v'|e]; [|reflexivity]. simp_result.
  assert (negb (Spectrum1D.is_None z) && negb (Spectrum1D.is_None rv) = false) as ->.
  { destruct Hone as [-> | ->]; [reflexivity | apply andb_false_r]. }
  cbn [Spectrum1D.is_None negb andb].
  destruct (Spectrum1D.grab_data v' kw) as [eff kw'].
  destruct (Spectrum1D.ignores_wcs eff); [reflexivity|].
  assert (Spectrum1D.resolve_axis eff sa wcs vc rest z rv =
          Spectrum1D.resolve_axis eff sa wcs vc rest PyNone PyNone) as ->;
    [|reflexivity].
  destruct sa as [[| |sc]|]; try contradiction; reflexivity.
Qed.

(** The flux [1, 2, 3] Jy alone with [redshift = 0.1]: the same spectrum as
    without the redshift, whose radial velocity is None. *)
Lemma init_redshift_ignored_witness :
  exists self,
    Spectrum1D.__init__ (Spectrum1D.Flux (PyQuantity (quantity_1d [1; 2; 3] u.Jy)))
      None None None None (PyFloat (1 # 10)) PyNone no_kwargs = OK self /\
    Spectrum1D.radial_velocity self = OK None.
Proof.
  rewrite (init_redshift_ignored (Spectrum1D.Flux (PyQuantity (quantity_1d [1; 2; 3] u.Jy)))
             None None None None (PyFloat (1 # 10)) PyNone no_kwargs (or_intror eq_refl) I).
  eexists. split; reflexivity.
Defined.

(** X15. Construction from another spectrum (the path taken for the results
    of arithmetic) copies the data, unit, uncertainty, mask, meta data, wcs,
    velocity convention and rest value of that spectrum and looks at no
    other argument; the radial velocity is not carried over, so reading
    [radial_velocity] or [redshift] of the result raises AttributeError
    even when the original had one. *)
Theorem init_from_nddata other sa wcs vc rest z rv kw self :
  Spectrum1D.__init__ (Spectrum1D.FluxNDDataRef other) sa wcs vc rest z rv kw = OK self ->
  Spectrum1D.__init__ (Spectrum1D.FluxNDDataRef other) None None None None PyNone PyNone
    no_kwargs = OK self /\
  Spectrum1D.flux self = Spectrum1D.flux other /\
  Spectrum1D.nd_uncertainty self = Spectrum1D.nd_uncertainty other /\
  Spectrum1D.nd_mask self = Spectrum1D.nd_mask other /\
  Spectrum1D.nd_meta self = Spectrum1D.nd_meta other /\
  Spectrum1D.nd_wcs self = Spectrum1D.nd_wcs other /\
  Spectrum1D.velocity_convention self = Spectrum1D.velocity_convention other /\
  Spectrum1D.rest_value self = Spectrum1D.rest_value other /\
  Spectrum1D.radial_velocity self = Raise (Exn AttributeError "_radial_velocity") /\
  Spectrum1D.redshift self = Raise (Exn AttributeError "_radial_velocity").
Proof.
  unfold Spectrum1D.__init__.
  destruct (negb (length (kw_unknown kw) =? 0)%nat); [discriminate|].
  cbn [kw_unknown no_kwargs length Nat.eqb negb].
  intros H. split; [exact H|].
  inv_bind_as H v Hv. inv_bind_as H r Hr. injection H as <-.
  unfold Spectrum1D.flux, Spectrum1D.velocity_convention, Spectrum1D.rest_value in *.
  cbn. destruct (Spectrum1D._velocity_convention other); [|discriminate].
  destruct (Spectrum1D._rest_value other); [|discriminate].
  injection Hv as <-. injection Hr as <-. repeat split.
Qed.

Lemma init_from_nddata_witness :
  exists other self,
    single_spectrum = OK other /\
    Spectrum1D.__init__ (Spectrum1D.FluxNDDataRef other) None None None None PyNone PyNone
      no_kwargs = OK self /\
    Spectrum1D.flux self = Spectrum1D.flux other /\
    Spectrum1D.redshift self = Raise (Exn AttributeError "_radial_velocity").
Proof.
  destruct single_spectrum as [other|] eqn:E; [|discriminate E].
  destruct (Spectrum1D.__init__ (Spectrum1D.FluxNDDataRef other) None None None None
              PyNone PyNone no_kwargs) as [self|] eqn:E';
    [|vm_compute in E; injection E as <-; discriminate E'].
  pose proof (init_from_nddata other None None None None PyNone PyNone no_kwargs self E')
    as (_ & Hf & _ & _ & _ & _ & _ & _ & _ & Hz).
  exists other, self. auto.
Defined.

(** X16. The uncertainty has the shape of the flux. A spectrum built from a
    Quantity flux with an [uncertainty] keyword holds that uncertainty, and
    its array has exactly the shape of the flux; with a different shape
    nothing is built. *)
Theorem init_uncertainty_shape q sa wcs vc rest z rv kw unc :
  kw_uncertainty kw = Some (Some unc) ->
  (forall self,
     Spectrum1D.__init__ (Spectrum1D.Flux (PyQuantity q)) sa wcs vc rest z rv kw = OK self ->
     Spectrum1D.nd_uncertainty self = Some unc /\
     shape unc = shape (value (effective_flux q))) /\
  (shape unc <> shape (value (effective_flux q)) ->
   is_OK (Spectrum1D.__init__ (Spectrum1D.Flux (PyQuantity q)) sa wcs vc rest z rv kw)
     = false).
Proof.
  intros Hkw.
  assert (H1 : forall self,
     Spectrum1D.__init__ (Spectrum1D.Flux (PyQuantity q)) sa wcs vc rest z rv kw = OK self ->
     Spectrum1D.nd_uncertainty self = Some unc /\
     shape unc = shape (value (effective_flux q))).
  { intros self H.
    apply init_quantity_phases in H as (assigned & w & rest' & _ & _ & _ & Hf).
    apply finish_OK_full in Hf as (_ & -> & Hunc).
    cbn in Hunc |- *. rewrite Hkw in *. cbn in Hunc |- *.
    split; [reflexivity|]. symmetry. now apply Hunc. }
  split; [exact H1|]. intros Hne.
  destruct (Spectrum1D.__init__ _ _ _ _ _ _ _ _) as [self|e] eqn:E; [|reflexivity].
  destruct (H1 self eq_refl) as [_ Hs]. contradiction.
Qed.

(** The flux [1, 2, 3] Jy with a two-element uncertainty. *)
Lemma init_uncertainty_shape_witness :
  is_OK (Spectrum1D.__init__ (Spectrum1D.Flux (PyQuantity (quantity_1d [1; 2; 3] u.Jy)))
           None None None None PyNone PyNone
           (mkKwargs None None (Some (Some (mkArray [2%nat] [1; 1]))) None None None []))
  = false.
Proof.
  apply (init_uncertainty_shape (quantity_1d [1; 2; 3] u.Jy) None None None None PyNone PyNone
           (mkKwargs None None (Some (Some (mkArray [2%nat] [1; 1]))) None None None [])
           (mkArray [2%nat] [1; 1]) eq_refl).
  cbn. intros [=].
Defined.

(** X17. The rest value of a spectrum built from a Quantity flux. A rest
    value passed as a Quantity is kept only if its unit is a length or a
    frequency (an energy is refused); a bare number takes the unit of the
    spectral axis and needs one to be passed; with no rest value and a
    spectral axis given, the rest value is 0 Angstrom. *)
Theorem init_rest_value q sa wcs vc rest z rv kw self :
  Spectrum1D.__init__ (Spectrum1D.Flux (PyQuantity q)) sa wcs vc rest z rv kw = OK self ->
  match rest with
  | Some (Qty r) =>
      Spectrum1D.rest_value self = OK r /\
      (is_equivalent (unit r) u.m = true \/ is_equivalent (unit r) u.Hz = true)
  | Some (Bare v) =>
      exists a, sa ≫= axis_quantity = Some a /\
                Spectrum1D.rest_value self = OK (mkQuantity v (unit a))
  | None =>
      sa <> None -> Spectrum1D.rest_value self = OK (mkQuantity 0 u.AA)
  end.
Proof.
  intros H. apply init_quantity_phases in H as (assigned & w & rest' & Hr & _ & Hrest & Hf).
  apply finish_OK_full in Hf as (_ & -> & _).
  unfold Spectrum1D.rest_value. cbn [Spectrum1D._rest_value].
  unfold Spectrum1D.resolve_rest_value in Hrest.
  destruct rest as [[v|r]|].
  - destruct (sa ≫= axis_quantity) as [a|]; [|discriminate].
    injection Hrest as <-. eauto.
  - destruct (is_equivalent (unit r) u.AA) eqn:E1.
    + cbn in Hrest. injection Hrest as <-. split; [reflexivity|]. left. exact E1.
    + destruct (is_equivalent (unit r) u.Hz) eqn:E2; [|discriminate].
      cbn in Hrest. injection Hrest as <-. split; [reflexivity|]. now right.
  - intros Hsa. destruct sa as [[| a | sc]|]; [discriminate | | | congruence];
      cbn in Hr.
    + inv_bind_as Hr x Hx. injection Hr as _ <-. cbn in Hrest. now injection Hrest as <-.
    + injection Hr as _ <-. cbn in Hrest. now injection Hrest as <-.
Qed.

(** A rest value of 1 erg is refused. *)
Lemma init_rest_value_energy_refused :
  Spectrum1D.__init__ (Spectrum1D.Flux (PyQuantity (quantity_1d [1; 2; 3] u.Jy)))
    (Some (AxisQuantity (quantity_1d [10; 20; 30] u.AA))) None None
    (Some (Qty (mkQuantity 1 u.erg))) PyNone PyNone no_kwargs =
  Raise (Exn UnitsError "Rest value must be energy/wavelength/frequency equivalent.").
Proof. reflexivity. Qed.

(** A rest value of 6563 Angstrom is kept. *)
Lemma init_rest_value_witness :
  exists self,
    Spectrum1D.__init__ (Spectrum1D.Flux (PyQuantity (quantity_1d [1; 2; 3] u.Jy)))
      (Some (AxisQuantity (quantity_1d [10; 20; 30] u.AA))) None None
      (Some (Qty (mkQuantity 6563 u.AA))) PyNone PyNone no_kwargs = OK self /\
    Spectrum1D.rest_value self = OK (mkQuantity 6563 u.AA).
Proof.
  eexists. split; [reflexivity|].
  apply (init_rest_value (quantity_1d [1; 2; 3] u.Jy)
           (Some (AxisQuantity (quantity_1d [10; 20; 30] u.AA))) None None
           (Some (Qty (mkQuantity 6563 u.AA))) PyNone PyNone no_kwargs _ eq_refl).
Defined.

(** ** The two properties *)

(** X18. How much the shape test of the [radial_velocity] setter checks. A
    velocity without dimensions is accepted on every spectrum; on a
    spectrum whose flux has one axis every velocity array is accepted,
    whatever its shape; on a flux of shape (n, m) a velocity array is
    accepted exactly when its last axis has length n or 1, or n is 1. *)
Theorem radial_velocity_setter_accepts self f v :
  Spectrum1D.flux self = OK f ->
  is_equivalent (unit v) u.km_per_s = true ->
  (shape (value v) = [] \/ (length (shape (value f)) <= 1)%nat ->
   Spectrum1D.radial_velocity_setter self (PyQuantity v) =
     OK (Spectrum1D.with_radial_velocity self (Some v))) /\
  (forall (n m k : nat) (sh : list nat),
     shape (value f) = [n; m] -> shape (value v) = (sh ++ [k])%list ->
     (is_OK (Spectrum1D.radial_velocity_setter self (PyQuantity v)) = true <->
      k = n \/ k = 1%nat \/ n = 1%nat)).
Proof.
  intros Hf Hu. unfold Spectrum1D.radial_velocity_setter.
  rewrite Hu, Hf. cbn [negb]. simp_result. split.
  - intros Hs.
    assert (Spectrum1D.shapes_compatible (shape (value v)) (removelast (shape (value f)))
            = true) as ->; [|reflexivity].
    unfold Spectrum1D.shapes_compatible. destruct Hs as [-> | Hs]; [reflexivity|].
    destruct (shape (value f)) as [|a [|b l]]; [| |cbn in Hs; lia];
      cbn [removelast]; now rewrite combine_nil.
  - intros n m k sh Hfs Hvs. rewrite Hfs, Hvs.
    unfold Spectrum1D.shapes_compatible. rewrite rev_app_distr.
    cbn [removelast rev app combine forallb].
    destruct (rev sh); cbn [combine forallb];
      rewrite andb_true_r;
      (destruct ((k =? n)%nat || (k =? 1)%nat || (n =? 1)%nat) eqn:E; cbn [negb is_OK];
       [ split; [intros _|reflexivity];
         apply orb_true_iff in E as [E|E];
         [apply orb_true_iff in E as [E|E]|]; apply Nat.eqb_eq in E; auto
       | split; [discriminate|];
         apply orb_false_iff in E as [E E3]; apply orb_false_iff in E as [E1 E2];
         apply Nat.eqb_neq in E1, E2, E3; intros [H|[H|H]]; contradiction ]).
Qed.

(** On the single spectrum a velocity array of seven elements is
    accepted. *)
Lemma radial_velocity_setter_accepts_witness :
  exists self,
    single_spectrum = OK self /\
    is_OK (Spectrum1D.radial_velocity_setter self
             (PyQuantity (mkQuantity (mkArray [7%nat] (repeat 1 7)) u.km_per_s))) = true.
Proof.
  destruct single_spectrum as [self|] eqn:E; [|discriminate E].
  exists self. split; [reflexivity|].
  destruct (Spectrum1D.flux self) as [f|] eqn:Ef;
    [|vm_compute in E; injection E as <-; discriminate Ef].
  destruct (radial_velocity_setter_accepts self f
              (mkQuantity (mkArray [7%nat] (repeat 1 7)) u.km_per_s) Ef eq_refl) as [H _].
  rewrite H; [reflexivity|].
  right. vm_compute in E. injection E as <-. vm_compute in Ef. injection Ef as <-.
  cbn. lia.
Defined.

Lemma velocity_of_redshift_unit un :
  is_equivalent (Unit_mul un (unit cnst_c)) u.km_per_s =
  is_equivalent un dimensionless_unscaled.
Proof.
  unfold is_equivalent, Unit_mul. cbn.
  repeat match goal with
  | |- context [(?a + ?b =? ?c)%Z] =>
      replace (a + b =? c)%Z with (a =? c - b)%Z
        by (destruct (Z.eqb_spec a (c - b)), (Z.eqb_spec (a + b) c); lia || reflexivity)
  end.
  reflexivity.
Qed.

(** X19. A redshift is a pure number. Assigning a Quantity to [redshift] is
    refused with UnitsError unless its unit is dimensionless, because the
    product with c must be a velocity; a Python number always passes the
    unit and shape tests and is stored as that number times c. *)
Theorem redshift_setter_units self :
  (forall q,
     is_equivalent (unit q) dimensionless_unscaled = false ->
     Spectrum1D.redshift_setter self (PyQuantity q) =
       Raise (Exn UnitsError "radial_velocity must be a velocity")) /\
  (forall x f,
     Spectrum1D.flux self = OK f ->
     Spectrum1D.redshift_setter self (PyFloat x) =
       OK (Spectrum1D.with_radial_velocity self
             (Some (mkQuantity (mkArray [] [x * value cnst_c])
                               (Unit_mul dimensionless_unscaled (unit cnst_c)))))).
Proof.
  split.
  - intros q Hq. unfold Spectrum1D.redshift_setter, mul_c,
      Spectrum1D.radial_velocity_setter.
    cbn [unit Quantity_mul_c]. rewrite velocity_of_redshift_unit, Hq. reflexivity.
  - intros x f Hf. unfold Spectrum1D.redshift_setter, mul_c,
      Spectrum1D.radial_velocity_setter.
    cbn [unit value shape data map Quantity_mul_c].
    rewrite velocity_of_redshift_unit. cbn [is_equivalent dimensionless_unscaled].
    rewrite Hf. reflexivity.
Qed.

(** A redshift given in km/s is refused. *)
Lemma redshift_setter_units_witness :
  exists self,
    single_spectrum = OK self /\
    Spectrum1D.redshift_setter self
      (PyQuantity (mkQuantity (mkArray [] [1 # 10]) u.km_per_s)) =
      Raise (Exn UnitsError "radial_velocity must be a velocity").
Proof.
  destruct single_spectrum as [self|] eqn:E; [|discriminate E].
  exists self. split; [reflexivity|].
  destruct (redshift_setter_units self) as [H _]. apply H. reflexivity.
Defined.

(** ** Copying and indexing *)

(** The spectrum that [_copy] returns, field by field. *)
Lemma copy_OK_inv self fo uo r :
  Spectrum1D._copy self fo uo = OK r ->
  exists f sa vc rest,
    Spectrum1D.flux self = OK f /\
    Spectrum1D.spectral_axis self = OK sa /\
    Spectrum1D.velocity_convention self = OK vc /\
    Spectrum1D.rest_value self = OK rest /\
    r = Spectrum1D.mk (Some (value (effective_flux (default f fo))))
          (Spectrum1D.nd_unit self) (default (Spectrum1D.nd_uncertainty self) uo)
          (Spectrum1D.nd_mask self) (Spectrum1D.nd_meta self)
          (Some (gwcs_from_array sa)) (Some vc) (Some rest) None
          (Some (sc_radial_velocity sa)).
Proof.
  unfold Spectrum1D._copy. intros H.
  inv_bind_as H f Hf. inv_bind_as H sa Hsa. inv_bind_as H vc Hvc.
  inv_bind_as H rest Hrest.
  apply init_quantity_phases in H as (assigned & w & rest' & Hr & _ & Hrv & Hfin).
  cbn in Hr. injection Hr as <- <-.
  unfold Spectrum1D.resolve_rest_value in Hrv.
  destruct (negb _ && negb _); [discriminate|]. injection Hrv as <-.
  apply finish_OK_full in Hfin as (_ & -> & _).
  exists f, sa, vc, rest. repeat split; assumption || reflexivity.
Qed.

(** X20. A copy keeps the flux, the unit, the uncertainty, the mask, the
    meta data, the spectral axis, the velocity convention and the rest
    value of the spectrum. It does not keep the radial velocity: that of
    the copy is the one of the spectral axis, whatever was assigned to the
    spectrum, and the transform of the copy is rebuilt from the spectral
    axis. *)
Theorem copy_keeps self r :
  Spectrum1D._copy self None None = OK r ->
  exists f sa,
    Spectrum1D.flux self = OK f /\
    Spectrum1D.spectral_axis self = OK sa /\
    Spectrum1D.flux r = OK (effective_flux f) /\
    Spectrum1D.spectral_axis r = OK sa /\
    Spectrum1D.nd_uncertainty r = Spectrum1D.nd_uncertainty self /\
    Spectrum1D.nd_mask r = Spectrum1D.nd_mask self /\
    Spectrum1D.nd_meta r = Spectrum1D.nd_meta self /\
    Spectrum1D.velocity_convention r = Spectrum1D.velocity_convention self /\
    Spectrum1D.rest_value r = Spectrum1D.rest_value self /\
    Spectrum1D.nd_wcs r = Some (gwcs_from_array sa) /\
    Spectrum1D.radial_velocity r = OK (sc_radial_velocity sa).
Proof.
  intros H. apply copy_OK_inv in H as (f & sa & vc & rest & Hf & Hsa & Hvc & Hrest & ->).
  exists f, sa. rewrite Hvc, Hrest. repeat split; try assumption.
  unfold Spectrum1D.flux in *. cbn.
  destruct (Spectrum1D.nd_data self); [|discriminate]. injection Hf as <-.
  cbn. unfold effective_flux. now destruct (Spectrum1D.isscalar _).
Qed.

(** The single spectrum with the radial velocity 30 km/s assigned: its copy
    has the radial velocity of the axis, None. *)
Lemma copy_keeps_witness :
  exists self self' r,
    single_spectrum = OK self /\
    Spectrum1D.radial_velocity_setter self
      (PyQuantity (mkQuantity (mkArray [] [30]) u.km_per_s)) = OK self' /\
    Spectrum1D._copy self' None None = OK r /\
    Spectrum1D.flux r = Spectrum1D.flux self' /\
    Spectrum1D.radial_velocity r = OK None.
Proof.
  destruct single_spectrum as [self|] eqn:E; [|discriminate E].
  vm_compute in E. injection E as <-.
  eexists. eexists. eexists. split; [reflexivity|]. split; [reflexivity|].
  split; [reflexivity|].
  match goal with
  | |- Spectrum1D.flux ?r = Spectrum1D.flux ?s /\ _ =>
      destruct (copy_keeps s r eq_refl) as (f & sa & Hf & Hsa & Hfr & _ & _ & _ & _ & _ & _ & _ & Hrv)
  end.
  rewrite Hrv. vm_compute in Hsa. injection Hsa as <-.
  split; reflexivity.
Defined.

(** X21. Indexing a spectrum whose flux has several axes (several spectra
    over one spectral axis): the result holds the indexed flux
    [flux[item]] and the spectral axis of the original, unchanged. *)
Theorem getitem_many_spectra self f item r :
  Spectrum1D.flux self = OK f ->
  (1 < length (shape (value f)))%nat ->
  Spectrum1D.__getitem__ self item = OK r ->
  exists fi,
    Quantity_getitem f item = OK fi /\
    Spectrum1D.flux r = OK fi /\
    Spectrum1D.spectral_axis r = Spectrum1D.spectral_axis self.
Proof.
  intros Hf Hnd H. unfold Spectrum1D.__getitem__ in H. rewrite Hf in H.
  simp_result_in H.
  assert ((1 <? length (shape (value f)))%nat = true) as Hlt by now apply Nat.ltb_lt.
  rewrite Hlt in H. inv_bind_as H fi Hfi. inv_bind_as H ui Hui.
  apply copy_OK_inv in H as (f' & sa & vc & rest & Hf' & Hsa & _ & _ & ->).
  exists fi. split; [exact Hfi|]. rewrite Hsa. split; [|reflexivity].
  assert (Hns : Spectrum1D.isscalar fi = false).
  { unfold Quantity_getitem, ndarray_getitem in Hfi.
    destruct (shape (value f)) as [|n [|m rest']] eqn:Es; [cbn in Hnd; lia ..|].
    destruct item as [i|start stop].
    - destruct (_ || _); [discriminate|]. simp_result_in Hfi. now injection Hfi as <-.
    - destruct (slice_blocks _ _ _ _ _). simp_result_in Hfi. now injection Hfi as <-. }
  change (default f' (Some fi)) with fi.
  unfold Spectrum1D.flux. cbn [Spectrum1D.nd_data Spectrum1D.nd_unit].
  unfold effective_flux. rewrite Hns. f_equal.
  unfold Spectrum1D.flux in Hf. destruct (Spectrum1D.nd_data self); [|discriminate].
  injection Hf as <-. unfold Quantity_getitem in Hfi. inv_bind_as Hfi a Ha.
  injection Hfi as <-. reflexivity.
Qed.

(** Scenario D: the flux [[1, 2, 3], [4, 5, 6]] Jy over a three-element
    axis, indexed with 1. *)
Lemma getitem_many_spectra_witness :
  exists self r,
    Spectrum1D.__init__
      (Spectrum1D.Flux (PyQuantity (mkQuantity (mkArray [2; 3]%nat [1; 2; 3; 4; 5; 6]) u.Jy)))
      (Some (AxisQuantity (quantity_1d [10; 20; 30] u.AA)))
      None None None PyNone PyNone no_kwargs = OK self /\
    Spectrum1D.__getitem__ self (Int 1) = OK r /\
    Spectrum1D.flux r = OK (quantity_1d [4; 5; 6] u.Jy) /\
    Spectrum1D.spectral_axis r = Spectrum1D.spectral_axis self.
Proof.
  eexists. eexists. split; [reflexivity|]. split; [reflexivity|].
  match goal with
  | |- Spectrum1D.flux ?r = _ /\ Spectrum1D.spectral_axis _ = Spectrum1D.spectral_axis ?s =>
      destruct (getitem_many_spectra s
                  (mkQuantity (mkArray [2; 3]%nat [1; 2; 3; 4; 5; 6]) u.Jy) (Int 1) r
                  eq_refl ltac:(cbn; lia) eq_refl) as (fi & Hfi & Hfr & Hsa)
  end.
  vm_compute in Hfi. injection Hfi as <-. split; [exact Hfr | exact Hsa].
Defined.

Lemma slice_blocks_single {A} (l : list A) (i : nat) (x : A) :
  l !! i = Some x ->
  slice_blocks l (length l) 1 (Some (Z.of_nat i)) (Some (Z.of_nat i + 1)%Z) = (1%nat, [x]).
Proof.
  intros Hx. pose proof (lookup_lt_Some _ _ _ Hx) as Hlt.
  unfold slice_blocks, slice_bound.
  assert ((Z.of_nat i <? 0)%Z = false) as -> by lia.
  assert ((Z.of_nat i + 1 <? 0)%Z = false) as -> by lia.
  replace (Z.max 0 (Z.min (Z.of_nat (length l)) (Z.of_nat i))) with (Z.of_nat i) by lia.
  replace (Z.max 0 (Z.min (Z.of_nat (length l)) (Z.of_nat i + 1)))
    with (Z.of_nat i + 1)%Z by lia.
  replace (Z.to_nat (Z.of_nat i + 1 - Z.of_nat i)) with 1%nat by lia.
  rewrite Nat2Z.id, !Nat.mul_1_r.
  rewrite (drop_S l x i Hx). reflexivity.
Qed.

Lemma slice_blocks_beyond {A} (l : list A) (i : nat) :
  (length l <= i)%nat ->
  slice_blocks l (length l) 1 (Some (Z.of_nat i)) (Some (Z.of_nat i + 1)%Z) = (0%nat, []).
Proof.
  intros Hge. unfold slice_blocks, slice_bound.
  assert ((Z.of_nat i <? 0)%Z = false) as -> by lia.
  assert ((Z.of_nat i + 1 <? 0)%Z = false) as -> by lia.
  replace (Z.max 0 (Z.min (Z.of_nat (length l)) (Z.of_nat i)))
    with (Z.of_nat (length l)) by lia.
  replace (Z.max 0 (Z.min (Z.of_nat (length l)) (Z.of_nat i + 1)))
    with (Z.of_nat (length l)) by lia.
  rewrite Z.sub_diag. reflexivity.
Qed.

(** The spectrum built from a one-axis flux and a plain Quantity axis of
    the same length. *)
Lemma init_single_spectrum (l la : list Q) (fu au : Unit) :
  length la = length l ->
  Spectrum1D.__init__ (Spectrum1D.Flux (PyQuantity (quantity_1d l fu)))
    (Some (AxisQuantity (quantity_1d la au))) None None None PyNone PyNone no_kwargs =
  OK (Spectrum1D.mk (Some (mkArray [length l] l)) (Some fu) None None []
        (Some (gwcs_from_array (mkSpectralCoord (quantity_1d la au) None None None)))
        (Some None) (Some (mkQuantity 0 u.AA))
        (Some (mkSpectralCoord (quantity_1d la au) None None None)) (Some None)).
Proof.
  intros Hlen. rewrite init_quantity_unfold. cbn [kw_unknown no_kwargs length Nat.eqb negb
    Spectrum1D.is_None andb].
  unfold effective_flux, Spectrum1D.isscalar, quantity_1d. cbn [value shape].
  cbn [Spectrum1D.resolve_axis SpectralCoord_new]. simp_result.
  unfold Spectrum1D.check_axis_length. cbn [mbind option_bind axis_quantity value shape
    shape_first shape_last Spectrum1D.array_like_shape List.last].
  simp_result. rewrite Hlen, Nat.eqb_refl. cbn [negb]. simp_result.
  reflexivity.
Qed.

(** X22. Indexing a single spectrum with a non-negative integer. For a
    spectrum built from a one-axis flux and a spectral axis of the same
    length, an index inside the flux gives a spectrum holding that one
    flux value over that one axis value; an index at or beyond the end
    raises no IndexError but gives a spectrum with no flux value and an
    empty spectral axis. *)
Theorem getitem_single_spectrum (l la : list Q) (fu au : Unit) (i : nat) :
  length la = length l ->
  exists self r sc,
    Spectrum1D.__init__ (Spectrum1D.Flux (PyQuantity (quantity_1d l fu)))
      (Some (AxisQuantity (quantity_1d la au))) None None None PyNone PyNone no_kwargs
      = OK self /\
    Spectrum1D.__getitem__ self (Int (Z.of_nat i)) = OK r /\
    Spectrum1D.spectral_axis r = OK sc /\
    match l !! i, la !! i with
    | Some x, Some a =>
        Spectrum1D.flux r = OK (quantity_1d [x] fu) /\
        sc_quantity sc = quantity_1d [a] au
    | _, _ =>
        Spectrum1D.flux r = OK (quantity_1d [] fu) /\
        sc_quantity sc = quantity_1d [] au
    end.
Proof.
  intros Hlen.
  pose proof (init_single_spectrum l la fu au Hlen) as Hinit.
  match type of Hinit with _ = OK ?s => exists s end.
  cut (exists r sc,
    Spectrum1D.__getitem__
      (Spectrum1D.mk (Some (mkArray [length l] l)) (Some fu) None None []
         (Some (gwcs_from_array (mkSpectralCoord (quantity_1d la au) None None None)))
         (Some None) (Some (mkQuantity 0 u.AA))
         (Some (mkSpectralCoord (quantity_1d la au) None None None)) (Some None))
      (Int (Z.of_nat i)) = OK r /\
    Spectrum1D.spectral_axis r = OK sc /\
    match l !! i, la !! i with
    | Some x, Some a =>
        Spectrum1D.flux r = OK (quantity_1d [x] fu) /\
        sc_quantity sc = quantity_1d [a] au
    | _, _ =>
        Spectrum1D.flux r = OK (quantity_1d [] fu) /\
        sc_quantity sc = quantity_1d [] au
    end).
  { intros (r & sc & H). exists r, sc. split; [exact Hinit | exact H]. }
  clear Hinit.
  unfold Spectrum1D.__getitem__, Spectrum1D.flux. cbn [Spectrum1D.nd_data]. simp_result.
  cbn [value shape length Nat.ltb Nat.leb].
  unfold Spectrum1D.NDData_getitem. cbn [Spectrum1D.nd_data ndim shape length Nat.eqb].
  unfold ndarray_getitem, WCS_getitem, Quantity_getitem, ndarray_getitem.
  cbn [shape data value Spectrum1D.nd_uncertainty Spectrum1D.nd_wcs Spectrum1D.nd_mask
       gwcs_from_array wcs_axis sc_quantity quantity_1d fold_right].
  destruct (l !! i) as [x|] eqn:El.
  - destruct (la !! i) as [a|] eqn:Ela.
    2:{ apply lookup_lt_Some in El. apply lookup_ge_None in Ela. lia. }
    rewrite (slice_blocks_single l i x El), (slice_blocks_single la i a Ela).
    simp_result. do 2 eexists. split; [reflexivity|].
    split; [reflexivity|]. split; reflexivity.
  - apply lookup_ge_None in El.
    assert (Ela : (length la <= i)%nat) by lia.
    rewrite (slice_blocks_beyond l i El), (slice_blocks_beyond la i Ela).
    simp_result. do 2 eexists. split; [reflexivity|].
    split; [reflexivity|]. split; reflexivity.
Qed.

(** The single spectrum indexed at 5, beyond its three values. *)
Lemma getitem_single_spectrum_witness :
  exists self r,
    single_spectrum = OK self /\
    Spectrum1D.__getitem__ self (Int 5) = OK r /\
    Spectrum1D.flux r = OK (quantity_1d [] u.Jy).
Proof.
  destruct (getitem_single_spectrum [1; 2; 3] [10; 20; 30] u.Jy u.AA 5 eq_refl)
    as (self & r & sc & Hs & Hr & _ & Hf & _).
  exists self, r. split; [exact Hs|]. split; [exact Hr | exact Hf].
Defined.

(** ** Argument checks *)

(** X23. The order of the argument checks of [__init__] for an array-like
    flux. An unknown keyword is reported first, whatever else is passed;
    next a flux that is not a Quantity; next a redshift together with a
    radial velocity (scenario C); and, for a Quantity flux, next a
    spectral axis that is not a Quantity. Each is a ValueError. *)
Theorem init_argument_checks v sa wcs vc rest z rv kw :
  (kw_unknown kw <> [] ->
   Spectrum1D.__init__ (Spectrum1D.Flux v) sa wcs vc rest z rv kw =
     Raise (Exn ValueError "Initializer contains unknown arguments(s)")) /\
  (kw_unknown kw = [] ->
   Spectrum1D.is_None v = false -> Spectrum1D.is_Quantity v = false ->
   Spectrum1D.__init__ (Spectrum1D.Flux v) sa wcs vc rest z rv kw =
     Raise (Exn ValueError "Flux must be a `Quantity` object.")) /\
  (kw_unknown kw = [] ->
   Spectrum1D.is_None v = true \/ Spectrum1D.is_Quantity v = true ->
   z <> PyNone -> rv <> PyNone ->
   Spectrum1D.__init__ (Spectrum1D.Flux v) sa wcs vc rest z rv kw =
     Raise (Exn ValueError
              "cannot set both radial_velocity and redshift at the same time.")) /\
  (kw_unknown kw = [] ->
   Spectrum1D.is_Quantity v = true ->
   z = PyNone \/ rv = PyNone ->
   sa = Some AxisOther ->
   Spectrum1D.__init__ (Spectrum1D.Flux v) sa wcs vc rest z rv kw =
     Raise (Exn ValueError
              "Spectral axis must be a `Quantity` or `SpectralCoord` object.")).
Proof.
  repeat split.
  - intros Hkw. unfold Spectrum1D.__init__.
    destruct (kw_unknown kw); [congruence | reflexivity].
  - intros Hkw Hn Hq. unfold Spectrum1D.__init__. rewrite Hkw.
    destruct v; try discriminate; reflexivity.
  - intros Hkw Hv Hz Hrv. unfold Spectrum1D.__init__. rewrite Hkw.
    cbn [length Nat.eqb negb].
    assert (exists v', Spectrum1D.ensure_quantity v = OK v') as [v' ->].
    { destruct v as [| | | |q]; destruct Hv as [Hv|Hv]; try discriminate Hv;
        cbn; [eauto | destruct (Spectrum1D.isscalar q); eauto]. }
    simp_result. destruct z; [congruence|..]; destruct rv; try congruence; reflexivity.
  - intros Hkw Hq Hone ->. destruct v as [| | | |q]; try discriminate Hq.
    rewrite init_quantity_unfold, Hkw. cbn [length Nat.eqb negb].
    assert (negb (Spectrum1D.is_None z) && negb (Spectrum1D.is_None rv) = false) as ->.
    { destruct Hone as [-> | ->]; [reflexivity | apply andb_false_r]. }
    reflexivity.
Qed.

(** Scenario C: redshift 0.1 together with a radial velocity. *)
Lemma init_argument_checks_witness :
  Spectrum1D.__init__ (Spectrum1D.Flux (PyQuantity (quantity_1d [1; 2; 3] u.Jy)))
    (Some (AxisQuantity (quantity_1d [10; 20; 30] u.AA))) None None None
    (PyFloat (1 # 10)) (PyQuantity (mkQuantity (mkArray [] [30000]) u.km_per_s)) no_kwargs =
  Raise (Exn ValueError "cannot set both radial_velocity and redshift at the same time.").
Proof.
  destruct (init_argument_checks (PyQuantity (quantity_1d [1; 2; 3] u.Jy))
              (Some (AxisQuantity (quantity_1d [10; 20; 30] u.AA))) None None None
              (PyFloat (1 # 10)) (PyQuantity (mkQuantity (mkArray [] [30000]) u.km_per_s))
              no_kwargs) as (_ & _ & H & _).
  apply H; [reflexivity | now right | discriminate | discriminate].
Defined.

(** X24. A bare numpy array passed as [data], with neither a spectral axis
    nor a wcs, cannot be made a spectrum: the default axis is sized with
    [flux.isscalar], which an array that is not a Quantity does not have,
    so the constructor raises AttributeError. *)
Theorem init_bare_data_needs_wcs a vc rest z rv kw :
  kw_unknown kw = [] ->
  kw_data kw = Some (PyArray a) ->
  shape a <> [] ->
  z = PyNone \/ rv = PyNone ->
  Spectrum1D.__init__ (Spectrum1D.Flux PyNone) None None vc rest z rv kw =
    Raise (Exn AttributeError "object has no attribute 'isscalar'").
Proof.
  intros Hkw Hd Hs Hone. unfold Spectrum1D.__init__. rewrite Hkw.
  cbn [length Nat.eqb negb Spectrum1D.ensure_quantity]. simp_result.
  assert (negb (Spectrum1D.is_None z) && negb (Spectrum1D.is_None rv) = false) as ->.
  { destruct Hone as [-> | ->]; [reflexivity | apply andb_false_r]. }
  unfold Spectrum1D.grab_data. rewrite Hd.
  unfold Spectrum1D.ignores_wcs, Spectrum1D.np_ndim, ndim.
  destruct (shape a) as [|n sh] eqn:E; [congruence|].
  cbn [Spectrum1D.is_Quantity Spectrum1D.is_float_or_int negb orb length Nat.eqb andb].
  reflexivity.
Qed.

Lemma init_bare_data_needs_wcs_witness :
  Spectrum1D.__init__ (Spectrum1D.Flux PyNone) None None None None PyNone PyNone
    (mkKwargs (Some (PyArray (mkArray [3%nat] [1; 2; 3]))) None None None None None []) =
  Raise (Exn AttributeError "object has no attribute 'isscalar'").
Proof.
  apply (init_bare_data_needs_wcs (mkArray [3%nat] [1; 2; 3]) None None PyNone PyNone
           (mkKwargs (Some (PyArray (mkArray [3%nat] [1; 2; 3]))) None None None None None [])
           eq_refl eq_refl); [discriminate | now left].
Defined.

(** ** Units and keywords *)

Lemma is_equivalent_sym a b : is_equivalent a b = is_equivalent b a.
Proof.
  unfold is_equivalent.
  rewrite (Z.eqb_sym (dim_m a)), (Z.eqb_sym (dim_s a)), (Z.eqb_sym (dim_kg a)),
    (Z.eqb_sym (dim_K a)), (Z.eqb_sym (dim_pix a)).
  reflexivity.
Qed.

Lemma is_equivalent_trans a b c :
  is_equivalent a b = true -> is_equivalent b c = true -> is_equivalent a c = true.
Proof.
  unfold is_equivalent. rewrite !andb_true_iff, !Z.eqb_eq.
  intros ((((-> & ->) & ->) & ->) & ->). auto.
Qed.

(** X25. Whether a unit is a valid spectral unit depends on its physical
    dimension only: two equivalent units are both accepted or both
    refused by the validator, whatever their scales. *)
Theorem check_valid_unit_equivalent a b :
  is_equivalent a b = true -> check_valid_unit a = check_valid_unit b.
Proof.
  intros H. unfold check_valid_unit.
  assert (Hex : existsb (fun x => is_equivalent a x) valid_spectral_units =
                existsb (fun x => is_equivalent b x) valid_spectral_units).
  { induction valid_spectral_units as [|x l IH]; [reflexivity|].
    cbn [existsb]. rewrite IH. f_equal.
    destruct (is_equivalent a x) eqn:Ea, (is_equivalent b x) eqn:Eb; try reflexivity.
    - rewrite is_equivalent_sym in H.
      pose proof (is_equivalent_trans _ _ _ H Ea). congruence.
    - pose proof (is_equivalent_trans _ _ _ H Eb). congruence. }
  now rewrite Hex.
Qed.

(** Nanometre is equivalent to metre, so it is accepted as metre is. *)
Lemma check_valid_unit_equivalent_witness :
  check_valid_unit u.nm = check_valid_unit u.m /\ check_valid_unit u.nm = OK ().
Proof.
  split; [apply (check_valid_unit_equivalent u.nm u.m); reflexivity | reflexivity].
Defined.

(** X26. [to_fits_header] writes the four keywords CRVAL, CRPIX, CDELT and
    CUNIT of the axis, the reference pixel one-based, and touches no other
    keyword of the header. *)
Theorem to_fits_header_writes (to_string : Unit -> string) (w : Spectrum1DLinearWCS.t)
    (header : gmap string hval) (n : nat) :
  let h := Spectrum1DLinearWCS.to_fits_header to_string w header n in
  h !! ("CRVAL" +:+ fmt_i n) = Some (HNum (Spectrum1DLinearWCS.dispersion0 w)) /\
  h !! ("CRPIX" +:+ fmt_i n) = Some (HNum (Spectrum1DLinearWCS.pixel_index w + 1)) /\
  h !! ("CDELT" +:+ fmt_i n) = Some (HNum (Spectrum1DLinearWCS.dispersion_delta w)) /\
  h !! ("CUNIT" +:+ fmt_i n) = Some (HStr (to_string (Spectrum1DLinearWCS.unit_ w))) /\
  (forall key,
     key <> "CRVAL" +:+ fmt_i n -> key <> "CRPIX" +:+ fmt_i n ->
     key <> "CDELT" +:+ fmt_i n -> key <> "CUNIT" +:+ fmt_i n ->
     h !! key = header !! key).
Proof.
  unfold Spectrum1DLinearWCS.to_fits_header, header_setitem. cbv zeta.
  rewrite !upper_app, !upper_fmt_i.
  change (upper "crval") with "CRVAL". change (upper "crpix") with "CRPIX".
  change (upper "cdelt") with "CDELT". change (upper "cunit") with "CUNIT".
  repeat split.
  - rewrite !lookup_insert_ne by key_ne. apply lookup_insert_eq.
  - rewrite !lookup_insert_ne by key_ne. apply lookup_insert_eq.
  - rewrite lookup_insert_ne by key_ne. apply lookup_insert_eq.
  - apply lookup_insert_eq.
  - intros key H1 H2 H3 H4. now rewrite !lookup_insert_ne by congruence.
Qed.

(** A keyword of another kind is left as it was. *)
Lemma to_fits_header_writes_witness :
  Spectrum1DLinearWCS.to_fits_header (fun _ => "Angstrom")
    (Spectrum1DLinearWCS.mk u.AA 5000 (3 # 2) 0) (<["OBJECT" := HStr "star"]> ∅) 1
    !! "OBJECT" = (<["OBJECT" := HStr "star"]> (∅ : gmap string hval)) !! "OBJECT".
Proof.
  apply (proj2 (proj2 (proj2 (proj2
           (to_fits_header_writes (fun _ => "Angstrom")
              (Spectrum1DLinearWCS.mk u.AA 5000 (3 # 2) 0)
              (<["OBJECT" := HStr "star"]> ∅) 1%nat)))) "OBJECT");
    intros H; discriminate H.
Defined.
